(** * Dependency directory preparation (ansible_risk_insight)

    A shallow embedding of [ansible_risk_insight/dependency_dir_preparator.py]:
    the metadata store ([find_target_metadata], [update_metadata],
    [export_data]), the two log parsers ([extract_collections_metadata],
    [extract_roles_metadata]), directory materialization ([move_src]) and the
    per-dependency decision engine ([prepare_dependency_dir], [prepare_dir]).

    Python values are modelled as follows.
    - [str] is [string]; every character is a code point below 256.
    - A path is the string the program builds.  The file system is a finite
      map from paths to nodes, and an entry is found under the one spelling
      the map has for it: no doubled or trailing slash, no dot component.
      A regular file holds the value [json.load] would return, the members
      [tarfile] would list, or uninterpreted text.
    - A method of [DependencyDirPreparator] is a computation over the object
      ([self]) and the file system that also yields the trace of its external
      calls and warnings; an exception ends the computation and keeps the
      object, the file system and the trace reached when it was raised.
    - External programs and the helpers imported from other modules of the
      package are fields of an environment record.
    - A list that is handed out and appended to later is a reference into
      the object that holds it. *)

From Stdlib Require Import ZArith Ascii String List Bool Lia.
From stdpp Require Import base option list strings gmap fin_maps sorting.

#[local] Open Scope string_scope.
#[local] Open Scope list_scope.
#[local] Set Warnings "-register-all".

(** ** Python string operations *)

Module Py.

(** [s.startswith(pre)] *)
Definition startswith (s pre : string) : bool := String.prefix pre s.

(** [s.endswith(suf)]: some suffix of [s] is [suf]. *)
Fixpoint endswith (s suf : string) : bool :=
  String.eqb s suf
  || match s with
     | EmptyString => false
     | String _ s' => endswith s' suf
     end.

(** [sub in s] *)
Fixpoint contains (sub s : string) : bool :=
  String.prefix sub s
  || match s with
     | EmptyString => false
     | String _ s' => contains sub s'
     end.

(** [s.split(sep)]; every call site of the module passes a separator of one
    character.  The result is never empty. *)
Fixpoint split (sep : ascii) (s : string) : list string :=
  match s with
  | EmptyString => [EmptyString]
  | String c s' =>
      if Ascii.eqb c sep then EmptyString :: split sep s'
      else match split sep s' with
           | t :: ts => String c t :: ts
           | [] => [String c EmptyString]
           end
  end.

(** [l[-1]] on a list of strings (the lists it is applied to come from
    [split] and are not empty). *)
Definition last_item (l : list string) : string := List.last l EmptyString.

(** [l[0]] under the same proviso. *)
Definition first_item (l : list string) : string := List.hd EmptyString l.

(** The part of [s] before its last [sep], if [sep] occurs. *)
Fixpoint before_last_char (sep : ascii) (s : string) : option string :=
  match s with
  | EmptyString => None
  | String c s' =>
      match before_last_char sep s' with
      | Some h => Some (String c h)
      | None => if Ascii.eqb c sep then Some EmptyString else None
      end
  end.

(** [s.rsplit(sep, 1)[0]] *)
Definition rsplit1_first (sep : ascii) (s : string) : string :=
  default s (before_last_char sep s).

(** [s.replace(old, new)] for a non-empty [old]: occurrences are found from
    the left and do not overlap; [skip] counts the characters of the
    occurrence being replaced that are still to be dropped. *)
Fixpoint replace_from (old new : string) (skip : nat) (s : string) : string :=
  match s with
  | EmptyString => EmptyString
  | String c s' =>
      match skip with
      | S k => replace_from old new k s'
      | O =>
          if String.prefix old s
          then new +:+ replace_from old new (String.length old - 1) s'
          else String c (replace_from old new 0 s')
      end
  end.

Definition replace (s old new : string) : string := replace_from old new 0 s.

(** [sep.join(l)] *)
Definition join (sep : string) (l : list string) : string := String.concat sep l.

(** One step of [posixpath.join]. *)
Definition join2 (a b : string) : string :=
  if startswith b "/" then b
  else if String.eqb a "" || endswith a "/" then a +:+ b
  else a +:+ "/" +:+ b.

(** [os.path.join(a, *ps)] *)
Definition path_join (a : string) (ps : list string) : string :=
  fold_left join2 ps a.

(** The characters at which [str.splitlines] breaks a line. *)
Definition is_linebreak (c : ascii) : bool :=
  let n := nat_of_ascii c in
  Nat.eqb n 10 || Nat.eqb n 11 || Nat.eqb n 12 || Nat.eqb n 13
  || Nat.eqb n 28 || Nat.eqb n 29 || Nat.eqb n 30 || Nat.eqb n 133.

(** [s.splitlines()]: a carriage return followed by a line feed is one break,
    and a final break opens no last empty line. *)
Fixpoint splitlines (s : string) : list string :=
  match s with
  | EmptyString => []
  | String c s' =>
      if is_linebreak c then
        EmptyString ::
          match s' with
          | String c' s'' =>
              if Nat.eqb (nat_of_ascii c) 13 && Nat.eqb (nat_of_ascii c') 10
              then splitlines s'' else splitlines s'
          | EmptyString => []
          end
      else match splitlines s' with
           | l :: ls => String c l :: ls
           | [] => [String c EmptyString]
           end
  end.

(** The text after the first occurrence of [pat] in [s]. *)
Fixpoint after_first (pat s : string) : option string :=
  if String.prefix pat s
  then Some (String.substring (String.length pat)
               (String.length s - String.length pat) s)
  else match s with
       | EmptyString => None
       | String _ s' => after_first pat s'
       end.

(** The text before the last occurrence of [pat] in [s]. *)
Fixpoint before_last (pat s : string) : option string :=
  match s with
  | EmptyString => if String.prefix pat EmptyString then Some EmptyString else None
  | String c s' =>
      match before_last pat s' with
      | Some t => Some (String c t)
      | None => if String.prefix pat s then Some EmptyString else None
      end
  end.

(** [re.findall] with the pattern of [extract_collections_metadata]: the word
    Downloading and a space, a greedy group of any characters, a space and the
    word to.  The dot does not match a line feed, so a match lies within one
    segment between line feeds.  The leftmost match of a segment starts at
    its first occurrence of the opening word, because a later start sees a
    suffix of what an earlier one sees; the group is greedy and therefore
    ends at the last closing word that follows.  Nothing after that one can
    match again, so a segment gives at most one group. *)
Definition findall_downloading (text : string) : list string :=
  omap (fun seg => after_first "Downloading " seg ≫= before_last " to")
       (split "010"%char text).

End Py.

(** ** JSON values

    What [json.load] and [yaml.safe_load] return and [json.dump] takes.  A
    Python dict with string keys is a finite map: two objects with the same
    entries are equal. *)

Inductive json :=
| JNull
| JBool (b : bool)
| JNum (z : Z)
| JStr (s : string)
| JArr (l : list json)
| JObj (m : gmap string json).

(** ** Load types

    Modelled from the spec: the constants of [models.LoadType], which is not
    part of the sources at hand.  The module builds the cache location of a
    collection with the literal [collection] where the lookup of the same
    location uses [LoadType.COLLECTION]. *)

Module LoadType.
Definition PROJECT : string := "project".
Definition COLLECTION : string := "collection".
Definition ROLE : string := "role".
Definition PLAYBOOK : string := "playbook".
Definition UNKNOWN : string := "unknown".
End LoadType.

Definition collection_manifest_json : string := "MANIFEST.json".
Definition collection_files_json : string := "FILES.json".
Definition role_meta_main_yml : string := "meta/main.yml".
Definition role_meta_main_yaml : string := "meta/main.yaml".
Definition requirements_yml : string := "requirements.yml".
Definition download_metadata_file : string := "download_meta.json".

(** ** The dataclasses

    Python does not enforce the annotations of a dataclass: a field holds
    whatever value was passed or read from a file.  The fields of
    [DownloadMetadata] are therefore JSON values; the module itself stores
    strings, and a boolean in [cache_enabled]. *)

Module DownloadMetadata.

Record t := make {
  name : json;
  type : json;
  version : json;
  author : json;
  download_url : json;
  download_src_path : json;
  hash : json;
  metafile_path : json;
  files_json_path : json;
  download_timestamp : json;
  cache_enabled : json;
  cache_dir : json;
  source_repository : json;
  requirements_file : json
}.

(** The instance with every field at its default. *)
Definition init : t :=
  make (JStr "") (JStr "") (JStr "") (JStr "") (JStr "") (JStr "") (JStr "")
    (JStr "") (JStr "") (JStr "") (JBool false) (JStr "") (JStr "")
    (JStr "").

Definition set_name (v : json) (d : t) : t :=
  make v (type d) (version d) (author d) (download_url d)
    (download_src_path d) (hash d) (metafile_path d) (files_json_path d)
    (download_timestamp d) (cache_enabled d) (cache_dir d)
    (source_repository d) (requirements_file d).

Definition set_type (v : json) (d : t) : t :=
  make (name d) v (version d) (author d) (download_url d)
    (download_src_path d) (hash d) (metafile_path d) (files_json_path d)
    (download_timestamp d) (cache_enabled d) (cache_dir d)
    (source_repository d) (requirements_file d).

Definition set_version (v : json) (d : t) : t :=
  make (name d) (type d) v (author d) (download_url d) (download_src_path d)
    (hash d) (metafile_path d) (files_json_path d) (download_timestamp d)
    (cache_enabled d) (cache_dir d) (source_repository d)
    (requirements_file d).

Definition set_author (v : json) (d : t) : t :=
  make (name d) (type d) (version d) v (download_url d) (download_src_path d)
    (hash d) (metafile_path d) (files_json_path d) (download_timestamp d)
    (cache_enabled d) (cache_dir d) (source_repository d)
    (requirements_file d).

Definition set_download_url (v : json) (d : t) : t :=
  make (name d) (type d) (version d) (author d) v (download_src_path d)
    (hash d) (metafile_path d) (files_json_path d) (download_timestamp d)
    (cache_enabled d) (cache_dir d) (source_repository d)
    (requirements_file d).

Definition set_download_src_path (v : json) (d : t) : t :=
  make (name d) (type d) (version d) (author d) (download_url d) v (hash d)
    (metafile_path d) (files_json_path d) (download_timestamp d)
    (cache_enabled d) (cache_dir d) (source_repository d)
    (requirements_file d).

Definition set_hash (v : json) (d : t) : t :=
  make (name d) (type d) (version d) (author d) (download_url d)
    (download_src_path d) v (metafile_path d) (files_json_path d)
    (download_timestamp d) (cache_enabled d) (cache_dir d)
    (source_repository d) (requirements_file d).

Definition set_metafile_path (v : json) (d : t) : t :=
  make (name d) (type d) (version d) (author d) (download_url d)
    (download_src_path d) (hash d) v (files_json_path d)
    (download_timestamp d) (cache_enabled d) (cache_dir d)
    (source_repository d) (requirements_file d).

Definition set_files_json_path (v : json) (d : t) : t :=
  make (name d) (type d) (version d) (author d) (download_url d)
    (download_src_path d) (hash d) (metafile_path d) v (download_timestamp d)
    (cache_enabled d) (cache_dir d) (source_repository d)
    (requirements_file d).

Definition set_download_timestamp (v : json) (d : t) : t :=
  make (name d) (type d) (version d) (author d) (download_url d)
    (download_src_path d) (hash d) (metafile_path d) (files_json_path d) v
    (cache_enabled d) (cache_dir d) (source_repository d)
    (requirements_file d).

Definition set_cache_enabled (v : json) (d : t) : t :=
  make (name d) (type d) (version d) (author d) (download_url d)
    (download_src_path d) (hash d) (metafile_path d) (files_json_path d)
    (download_timestamp d) v (cache_dir d) (source_repository d)
    (requirements_file d).

Definition set_cache_dir (v : json) (d : t) : t :=
  make (name d) (type d) (version d) (author d) (download_url d)
    (download_src_path d) (hash d) (metafile_path d) (files_json_path d)
    (download_timestamp d) (cache_enabled d) v (source_repository d)
    (requirements_file d).

Definition set_source_repository (v : json) (d : t) : t :=
  make (name d) (type d) (version d) (author d) (download_url d)
    (download_src_path d) (hash d) (metafile_path d) (files_json_path d)
    (download_timestamp d) (cache_enabled d) (cache_dir d) v
    (requirements_file d).

Definition set_requirements_file (v : json) (d : t) : t :=
  make (name d) (type d) (version d) (author d) (download_url d)
    (download_src_path d) (hash d) (metafile_path d) (files_json_path d)
    (download_timestamp d) (cache_enabled d) (cache_dir d)
    (source_repository d) v.

(** The names of the fields, in declaration order. *)
Definition fields : list string :=
  ["name"; "type"; "version"; "author"; "download_url"; "download_src_path";
   "hash"; "metafile_path"; "files_json_path"; "download_timestamp";
   "cache_enabled"; "cache_dir"; "source_repository"; "requirements_file"].

(** [asdict(d)] *)
Definition asdict (d : t) : gmap string json :=
  list_to_map
    [("name", name d);
     ("type", type d);
     ("version", version d);
     ("author", author d);
     ("download_url", download_url d);
     ("download_src_path", download_src_path d);
     ("hash", hash d);
     ("metafile_path", metafile_path d);
     ("files_json_path", files_json_path d);
     ("download_timestamp", download_timestamp d);
     ("cache_enabled", cache_enabled d);
     ("cache_dir", cache_dir d);
     ("source_repository", source_repository d);
     ("requirements_file", requirements_file d)].

(** [getattr(d, key)] for the names of the schema. *)
Definition getattr (key : string) (d : t) : option json := asdict d !! key.

(** Whether [key] names a field: the test the constructor applies to a
    keyword, and the answer of [hasattr(d, key)] for every name that is not
    an attribute of all objects.  (For those see [assign_asdict] below.) *)
Definition hasattr (key : string) : bool := bool_decide (key ∈ fields).

(** [setattr(d, key, value)] for the name of a field; other keys leave [d]
    as it is. *)
Definition setattr (key : string) (value : json) (d : t) : t :=
  if String.eqb key "name" then set_name value d
  else if String.eqb key "type" then set_type value d
  else if String.eqb key "version" then set_version value d
  else if String.eqb key "author" then set_author value d
  else if String.eqb key "download_url" then set_download_url value d
  else if String.eqb key "download_src_path" then set_download_src_path value d
  else if String.eqb key "hash" then set_hash value d
  else if String.eqb key "metafile_path" then set_metafile_path value d
  else if String.eqb key "files_json_path" then set_files_json_path value d
  else if String.eqb key "download_timestamp" then set_download_timestamp value d
  else if String.eqb key "cache_enabled" then set_cache_enabled value d
  else if String.eqb key "cache_dir" then set_cache_dir value d
  else if String.eqb key "source_repository" then set_source_repository value d
  else if String.eqb key "requirements_file" then set_requirements_file value d
  else d.

(** The instance whose dictionary holds the entries of [data]: a field that
    [data] does not name has the default of the class. *)
Definition of_entries (data : gmap string json) : t :=
  make
    (default (name init) (data !! "name"))
    (default (type init) (data !! "type"))
    (default (version init) (data !! "version"))
    (default (author init) (data !! "author"))
    (default (download_url init) (data !! "download_url"))
    (default (download_src_path init) (data !! "download_src_path"))
    (default (hash init) (data !! "hash"))
    (default (metafile_path init) (data !! "metafile_path"))
    (default (files_json_path init) (data !! "files_json_path"))
    (default (download_timestamp init) (data !! "download_timestamp"))
    (default (cache_enabled init) (data !! "cache_enabled"))
    (default (cache_dir init) (data !! "cache_dir"))
    (default (source_repository init) (data !! "source_repository"))
    (default (requirements_file init) (data !! "requirements_file")).

(** The constructor called with the entries of [data] as keyword arguments:
    a key that is no field is refused (a [TypeError]); absent fields keep
    their defaults. *)
Definition of_dict (data : gmap string json) : option t :=
  if forallb hasattr (map_to_list data).*1
  then Some (of_entries data)
  else None.

End DownloadMetadata.

Module Dependency.

Record t := make {
  dir : string;
  name : string;
  metadata : DownloadMetadata.t
}.

End Dependency.

Module DependencyDirPreparator.

Record t := make {
  root_dir : string;
  source_repository : string;
  target_type : string;
  target_name : string;
  target_version : string;
  target_path : string;
  target_dependency_dir : string;
  target_path_mappings : gmap string string;
  metadata : DownloadMetadata.t;
  download_location : string;
  dependency_dir_path : string;
  silent : bool;
  do_save : bool;
  tmp_install_dir : option string;
  (* -- out -- *)
  dependency_dirs : list Dependency.t
}.

Definition set_metadata (v : DownloadMetadata.t) (p : t) : t :=
  make (root_dir p) (source_repository p) (target_type p) (target_name p)
    (target_version p) (target_path p) (target_dependency_dir p)
    (target_path_mappings p) v (download_location p) (dependency_dir_path p)
    (silent p) (do_save p) (tmp_install_dir p) (dependency_dirs p).

Definition set_download_location (v : string) (p : t) : t :=
  make (root_dir p) (source_repository p) (target_type p) (target_name p)
    (target_version p) (target_path p) (target_dependency_dir p)
    (target_path_mappings p) (metadata p) v (dependency_dir_path p)
    (silent p) (do_save p) (tmp_install_dir p) (dependency_dirs p).

Definition set_dependency_dir_path (v : string) (p : t) : t :=
  make (root_dir p) (source_repository p) (target_type p) (target_name p)
    (target_version p) (target_path p) (target_dependency_dir p)
    (target_path_mappings p) (metadata p) (download_location p) v
    (silent p) (do_save p) (tmp_install_dir p) (dependency_dirs p).

Definition set_dependency_dirs (v : list Dependency.t) (p : t) : t :=
  make (root_dir p) (source_repository p) (target_type p) (target_name p)
    (target_version p) (target_path p) (target_dependency_dir p)
    (target_path_mappings p) (metadata p) (download_location p)
    (dependency_dir_path p) (silent p) (do_save p) (tmp_install_dir p) v.

End DependencyDirPreparator.

(** ** What [find_dependency] returns

    The dictionary of the dependency finder, with the three sections the
    module reads.  A declared dependency is a name or a mapping; the values of
    such a mapping are strings. *)

Inductive dep_item :=
| DepName (s : string)
| DepDict (d : gmap string string).

Record Dependencies := {
  dependencies_collections : list dep_item;
  dependencies_roles : list dep_item;
  paths_collections : gmap string string;
  paths_roles : gmap string string;
  metadata_collections : gmap string json
}.

(** ** File system, events, exceptions *)

(** A member of an archive that is a regular file, as [extractfile] reads it. *)
Inductive payload :=
| PJson (j : json)
| PRaw (s : string).

(** What a regular file holds.  A member of an archive that is no regular
    file has no payload. *)
Inductive content :=
| CJson (j : json)
| CRaw (s : string)
| CTar (members : list (string * option payload)).

Inductive node :=
| Dir
| File (c : content).

Definition content_of_payload (p : payload) : content :=
  match p with
  | PJson j => CJson j
  | PRaw s => CRaw s
  end.

(** The shell commands the module runs, by template. *)
Inductive command :=
| (* ansible-galaxy collection download '{}' {} -p {} *)
  CollectionDownload (target_version server_option output_dir : string)
| (* ansible-galaxy collection install {} -p {} *)
  CollectionInstall (tarfile : json) (output_dir : string)
| (* cd {} && ansible-galaxy collection install -r {} -p {} *)
  CollectionInstallRequirements (src_dir requirements output_dir : string)
| (* cp -r {}/* {}/ *)
  CopyTree (src dst : string).

Inductive event :=
| Run (c : command)
| InstallGalaxyTarget (name type output_dir source_repository : string)
    (target_version : option string)
| HashOfUrl (url : json)
| FindDependency (type target_path dependency_dir : string)
| GetInstalledMetadata (type name path dependency_dir : string)
| SrcInstall
| Warning (msg : string).

Inductive exn :=
| IndexError
| AttributeError
| TypeError
| ValueError (msg : string)
| FileNotFoundError (path : string)
| FileExistsError (path : string)
| NotADirectoryError (path : string)
| IsADirectoryError (path : string)
| JSONDecodeError (path : string)
| ReadError (path : string)
| SrcInstallError.

(** The outcome of a method body: a value or an exception, with the object
    and the file system as they are then, and the events of the run in the
    order they happened. *)
Inductive res (A : Type) :=
| Ok (a : A) (self : DependencyDirPreparator.t) (fs : gmap string node)
    (trace : list event)
| Raise (e : exn) (self : DependencyDirPreparator.t) (fs : gmap string node)
    (trace : list event).

Arguments Ok {A} a self fs trace.
Arguments Raise {A} e self fs trace.

(** A method body runs from the object and a file system. *)
Definition M (A : Type) : Type :=
  DependencyDirPreparator.t → gmap string node → res A.

#[global] Instance M_ret : MRet M := λ A a p m, Ok a p m [].

#[global] Instance M_bind : MBind M := λ A B f c p m,
  match c p m with
  | Ok a p1 m1 t1 =>
      match f a p1 m1 with
      | Ok b p2 m2 t2 => Ok b p2 m2 (t1 ++ t2)
      | Raise e p2 m2 t2 => Raise e p2 m2 (t1 ++ t2)
      end
  | Raise e p1 m1 t1 => Raise e p1 m1 t1
  end.

Definition raise {A} (e : exn) : M A := λ p m, Raise e p m [].

(** Reading [self.f] *)
Definition self_get {A} (f : DependencyDirPreparator.t → A) : M A :=
  λ p m, Ok (f p) p m [].

Definition modify_self (f : DependencyDirPreparator.t → DependencyDirPreparator.t)
  : M unit :=
  λ p m, Ok tt (f p) m [].

Definition get_fs : M (gmap string node) := λ p m, Ok m p m [].

Definition put_fs (m' : gmap string node) : M unit := λ p _, Ok tt p m' [].

Definition emit (e : event) : M unit := λ p m, Ok tt p m [e].

(** [logging.warning]; messages of lower levels are not traced. *)
Definition logging_warning (msg : string) : M unit := emit (Warning msg).

(** An [if] without [else]. *)
Definition when (b : bool) (c : M unit) : M unit :=
  if b then c else mret tt.

(** A [for] loop whose body updates local variables [b]. *)
Fixpoint for_fold {A B : Type} (body : B → A → M B) (b : B) (l : list A) : M B :=
  match l with
  | [] => mret b
  | x :: l' => b' ← body b x; for_fold body b' l'
  end.

(** A [for] loop whose body only acts on the state. *)
Definition for_each {A : Type} (body : A → M unit) (l : list A) : M unit :=
  for_fold (λ _ x, body x) tt l.

(** ** The environment

    The programs the module starts and the helpers it imports from [utils],
    [dependency_finder] and [safe_glob].  A program returns its standard
    output and the file system it leaves. *)

Record Env := {
  run_command : command → gmap string node → string * gmap string node;
  install_galaxy_target :
    string → string → string → string → option string →
    gmap string node → string * gmap string node;
  get_hash_of_url : json → string;
  (* os.path.getmtime of an existing path, through utcfromtimestamp and
     isoformat *)
  getmtime_isoformat : string → string;
  find_dependency : string → string → string → gmap string node → Dependencies;
  safe_glob : list string → gmap string node → list string;
  is_url : string → bool;
  is_local_path : string → bool;
  get_installed_metadata :
    string → string → string → string → gmap string node → string * string;
  (* the root installer, [src_install]: outside the part embedded here *)
  src_install : M unit
}.

(** ** Operating-system calls *)

Definition path_exists (m : gmap string node) (p : string) : bool :=
  match m !! p with
  | Some _ => true
  | None => false
  end.

Definition path_isdir (m : gmap string node) (p : string) : bool :=
  match m !! p with
  | Some Dir => true
  | _ => false
  end.

Definition path_isfile (m : gmap string node) (p : string) : bool :=
  match m !! p with
  | Some (File _) => true
  | _ => false
  end.

(** [os.path.exists] *)
Definition os_path_exists (p : string) : M bool :=
  m ← get_fs; mret (path_exists m p).

(** [os.path.isdir] *)
Definition os_path_isdir (p : string) : M bool :=
  m ← get_fs; mret (path_isdir m p).

(** The proper prefixes of a path that end before one of its slashes. *)
Fixpoint ancestors (p : string) : list string :=
  match p with
  | EmptyString => []
  | String c p' =>
      (if Ascii.eqb c "/" then [EmptyString] else [])
      ++ map (String c) (ancestors p')
  end.

(** The directories [os.makedirs(p)] needs: the non-empty ancestors and [p]. *)
Definition makedirs_targets (p : string) : list string :=
  filter (λ a, a ≠ EmptyString) (ancestors p) ++ [p].

(** [os.makedirs(p)]: refuses an existing [p] and an ancestor that is a
    regular file; creates what is missing. *)
Definition os_makedirs (p : string) : M unit :=
  m ← get_fs;
  if String.eqb p "" then raise (FileNotFoundError p)
  else if path_exists m p then raise (FileExistsError p)
  else match List.find (path_isfile m) (ancestors p) with
       | Some a => raise (NotADirectoryError a)
       | None => put_fs (foldr (λ a, <[a := Dir]>) m (makedirs_targets p))
       end.

(** The recurring [if not os.path.exists(p): os.makedirs(p)]. *)
Definition makedirs_if_missing (p : string) : M unit :=
  e ← os_path_exists p;
  when (negb e) (os_makedirs p).

(** Whether that statement succeeds from the file system [m], and the file
    system it leaves. *)
Definition can_makedirs (m : gmap string node) (p : string) : bool :=
  path_exists m p
  || (negb (String.eqb p "")
      && forallb (λ a, negb (path_isfile m a)) (ancestors p)).

Definition with_dirs (m : gmap string node) (p : string) : gmap string node :=
  if path_exists m p then m
  else foldr (λ a, <[a := Dir]>) m (makedirs_targets p).

(** The name of [k] inside the directory [p], if [k] is an entry of [p]. *)
Definition entry_name (p k : string) : option string :=
  let base := if Py.endswith p "/" then p else p +:+ "/" in
  if String.prefix base k then
    let n := String.substring (String.length base)
               (String.length k - String.length base) k in
    if String.eqb n "" || Py.contains "/" n then None else Some n
  else None.

(** The paths of a file system in the order the system lists them, which
    Python leaves open; here it is the order of the strings. *)
Definition listing (m : gmap string node) : list string :=
  merge_sort String.le (map_to_list m).*1.

(** [os.listdir(p)] *)
Definition os_listdir (p : string) : M (list string) :=
  m ← get_fs;
  match m !! p with
  | None => raise (FileNotFoundError p)
  | Some (File _) => raise (NotADirectoryError p)
  | Some Dir => mret (omap (entry_name p) (listing m))
  end.

(** Whether [k] is [base/download_meta.json] or
    [base/d1/.../dn/download_meta.json] with no hidden and no empty [di];
    [pre] is [base] with the slash [os.path.join] puts after it. *)
Definition glob_match (pre k : string) : bool :=
  if String.prefix pre k then
    let rest := String.substring (String.length pre)
                  (String.length k - String.length pre) k in
    let comps := Py.split "/" rest in
    String.eqb (Py.last_item comps) download_metadata_file
    && forallb (λ c, negb (String.eqb c "") && negb (Py.startswith c "."))
         (removelast comps)
  else false.

(** [glob.glob(os.path.join(base, "**", download_metadata_file),
    recursive=True)] for a [base] without pattern characters. *)
Definition glob_download_metadata (base : string) : M (list string) :=
  m ← get_fs;
  mret (filter (λ k, glob_match (Py.join2 base "") k = true) (listing m)).

(** [open(p, "r")] and [json.load] *)
Definition load_json (p : string) : M json :=
  m ← get_fs;
  match m !! p with
  | None => raise (FileNotFoundError p)
  | Some Dir => raise (IsADirectoryError p)
  | Some (File (CJson j)) => mret j
  | Some (File _) => raise (JSONDecodeError p)
  end.

(** The directory part of a path, if it names one: [None] for a path in the
    working directory or in the root. *)
Definition parent_dir (p : string) : option string :=
  match Py.before_last_char "/" p with
  | Some EmptyString | None => None
  | Some d => Some d
  end.

(** [open(p, "w")] (or ["wb"]) and one write of [c]: the directory of a new
    file has to exist. *)
Definition write_file (p : string) (c : content) : M unit :=
  m ← get_fs;
  match m !! p with
  | Some Dir => raise (IsADirectoryError p)
  | Some (File _) => put_fs (<[p := File c]> m)
  | None =>
      match parent_dir p with
      | None => put_fs (<[p := File c]> m)
      | Some d =>
          match m !! d with
          | Some Dir => put_fs (<[p := File c]> m)
          | Some (File _) => raise (NotADirectoryError p)
          | None => raise (FileNotFoundError p)
          end
      end
  end.

(** [os.path.getmtime(p)] rendered by [utcfromtimestamp(...).isoformat()] *)
Definition getmtime_iso (E : Env) (p : string) : M string :=
  m ← get_fs;
  if path_exists m p then mret (getmtime_isoformat E p)
  else raise (FileNotFoundError p).

(** [NUL in s]: a string with a NUL character cannot be handed to a
    program. *)
Definition has_nul (s : string) : bool := Py.contains (String "000" "") s.

(** The strings [str.format] puts into the command line.  A value that is
    no string is rendered without a NUL character. *)
Definition command_strings (c : command) : list string :=
  match c with
  | CollectionDownload target_version server_option output_dir =>
      [target_version; server_option; output_dir]
  | CollectionInstall (JStr tarfile) output_dir => [tarfile; output_dir]
  | CollectionInstall _ output_dir => [output_dir]
  | CollectionInstallRequirements src_dir requirements output_dir =>
      [src_dir; requirements; output_dir]
  | CopyTree src dst => [src; dst]
  end.

(** [subprocess.run(..., shell=True)] and [os.system]: a command line with a
    NUL character is refused with a [ValueError]; otherwise the program
    runs, and its exit status is not looked at. *)
Definition run (E : Env) (c : command) : M string :=
  if existsb has_nul (command_strings c)
  then raise (ValueError "embedded null byte")
  else
    m ← get_fs;
    let r := run_command E c m in
    emit (Run c);; put_fs r.2;; mret r.1.

(** [utils.get_hash_of_url] *)
Definition hash_of_url (E : Env) (url : json) : M string :=
  emit (HashOfUrl url);; mret (get_hash_of_url E url).

(** ** Python values at run time *)

(** [for data in j]: a list gives its items, a string its characters, a
    dictionary its keys; nothing else can be iterated. *)
Definition json_iter (j : json) : M (list json) :=
  match j with
  | JArr l => mret l
  | JStr s => mret ((λ c, JStr (String c EmptyString)) <$> list_ascii_of_string s)
  | JObj m => mret (JStr <$> (map_to_list m).*1)
  | _ => raise TypeError
  end.

(** [j.get(key, dflt)]: only a dictionary has the method. *)
Definition dict_get (j : json) (key : string) (dflt : json) : M json :=
  match j with
  | JObj m => mret (default dflt (m !! key))
  | _ => raise AttributeError
  end.

(** The record a stored item stands for: the item has to be a mapping whose
    keys are fields. *)
Definition record_of (data : json) : option DownloadMetadata.t :=
  match data with
  | JObj m => DownloadMetadata.of_dict m
  | _ => None
  end.

(** The constructor of [DownloadMetadata] applied to the entries of [data]:
    a [TypeError] where [data] stands for no record. *)
Definition construct (data : json) : M DownloadMetadata.t :=
  match record_of data with
  | Some d => mret d
  | None => raise TypeError
  end.

(** [if hasattr(dm, key): setattr(dm, key, value)] followed by [asdict(dm)]:
    the dictionary, or the exception raised on the way.

    For the name of a field the field is set.  Besides its fields an
    instance has the attributes of its class and of [object], and [hasattr]
    holds for them as well; assigning to one puts an entry into the instance
    dictionary that [asdict] does not read, so the dictionary is that of
    [dm], as it is for a name that is no attribute at all.  Four names
    differ.  [__class__] takes a class only and [__weakref__] cannot be
    assigned.  [__dict__] is the instance dictionary itself: a mapping
    replaces it, the fields it does not name falling back to the defaults of
    the class, and any other value is refused.  [__dataclass_fields__] is
    what [asdict] iterates over: with an empty mapping there [asdict] gives
    the empty dictionary, with any other value it fails. *)
Definition assign_asdict (key : string) (value : json) (dm : DownloadMetadata.t)
  : M (gmap string json) :=
  if DownloadMetadata.hasattr key then
    mret (DownloadMetadata.asdict (DownloadMetadata.setattr key value dm))
  else if String.eqb key "__class__" then raise TypeError
  else if String.eqb key "__weakref__" then raise AttributeError
  else if String.eqb key "__dict__" then
    match value with
    | JObj g => mret (DownloadMetadata.asdict (DownloadMetadata.of_entries g))
    | _ => raise TypeError
    end
  else if String.eqb key "__dataclass_fields__" then
    match value with
    | JObj g => if Nat.eqb (size g) 0 then mret ∅ else raise AttributeError
    | _ => raise AttributeError
    end
  else mret (DownloadMetadata.asdict dm).

(** [j == s] for a string [s] *)
Definition json_eq_str (j : json) (s : string) : bool :=
  match j with
  | JStr t => String.eqb t s
  | _ => false
  end.

(** A value used where the code calls a string method on it. *)
Definition as_str (j : json) : M string :=
  match j with
  | JStr s => mret s
  | _ => raise AttributeError
  end.

(** ** The metadata store *)

(** The key under which a metadata file keeps the records of a load type. *)
Definition section_key (type : string) : string :=
  if String.eqb type LoadType.COLLECTION then "collections" else "roles".

Section Store.

Context (E : Env).

(** The scan of [find_target_metadata]: the first record named [target]. *)
Fixpoint find_in_list (target : string) (l : list json)
  : M (option DownloadMetadata.t) :=
  match l with
  | [] => mret None
  | data :: l' =>
      dm ← construct data;
      if json_eq_str (DownloadMetadata.name dm) target
      then mret (Some dm)
      else find_in_list target l'
  end.

Definition find_target_metadata (type metadata_file target : string)
  : M (option DownloadMetadata.t) :=
  metadata ← load_json metadata_file;
  if String.eqb type LoadType.COLLECTION then
    metadata_list ← dict_get metadata "collections" (JArr []);
    items ← json_iter metadata_list;
    find_in_list target items
  else if String.eqb type LoadType.ROLE then
    metadata_list ← dict_get metadata "roles" (JArr []);
    items ← json_iter metadata_list;
    find_in_list target items
  else
    logging_warning ("metadata not found: " +:+ target);;
    mret None.

(** One turn of the loop of [update_metadata].  The local state is the
    dictionary [metadata] and the list [metadata_list] it holds, both updated
    in place; [i] and [data] are the index and the item the loop is at. *)
Definition update_metadata_step (type metadata_file target key : string)
    (value : json) (st : gmap string json * list json) (i : nat) (data : json)
  : M (gmap string json * list json) :=
  dm ← construct data;
  if json_eq_str (DownloadMetadata.name dm) target then
    d ← assign_asdict key value dm;
    let metadata_list := <[i := JObj d]> st.2 in
    let metadata :=
      if String.eqb type LoadType.COLLECTION
      then <["collections" := JArr metadata_list]> st.1
      else if String.eqb type LoadType.ROLE
      then <["roles" := JArr metadata_list]> st.1
      else st.1 in
    write_file metadata_file (CJson (JObj metadata));;
    mret (metadata, metadata_list)
  else mret st.

(** The loop over [enumerate(metadata_list)], from index [i] on.  An item
    behind the index is never written, so the items still to visit are those
    of the list as loaded. *)
Fixpoint update_metadata_loop (type metadata_file target key : string)
    (value : json) (st : gmap string json * list json) (i : nat)
    (items : list json) : M unit :=
  match items with
  | [] => mret tt
  | data :: items' =>
      st' ← update_metadata_step type metadata_file target key value st i data;
      update_metadata_loop type metadata_file target key value st' (S i) items'
  end.

Definition update_metadata (type metadata_file target key : string)
    (value : json) : M unit :=
  metadata ← load_json metadata_file;
  if String.eqb type LoadType.COLLECTION || String.eqb type LoadType.ROLE then
    metadata_list ← dict_get metadata (section_key type) (JArr []);
    items ← json_iter metadata_list;
    match metadata with
    | JObj m =>
        update_metadata_loop type metadata_file target key value (m, items) 0 items
    | _ => raise AttributeError
    end
  else
    logging_warning ("metadata not found: " +:+ target).

Definition export_data (data : json) (dir filename : string) : M string :=
  makedirs_if_missing dir;;
  let file := Py.path_join dir [filename] in
  write_file file (CJson data);;
  mret file.

Definition move_src (src dst : string) : M unit :=
  e ← os_path_exists src;
  d ← os_path_isdir src;
  if String.eqb src "" || negb e || negb d
  then raise (ValueError ("src " +:+ src +:+ " is not directory"))
  else if String.eqb dst "" || Py.contains ".." dst
  then raise (ValueError ("dst " +:+ dst +:+ " is invalid"))
  else run E (CopyTree src dst);; mret tt.

(** ** Meta files and authors *)

(** [tarfile.open(name=filepath, mode="r")] and [getmembers] *)
Definition tar_members (filepath : string) : M (list (string * option payload)) :=
  m ← get_fs;
  match m !! filepath with
  | None => raise (FileNotFoundError filepath)
  | Some Dir => raise (IsADirectoryError filepath)
  | Some (File (CTar ms)) => mret ms
  | Some (File _) => raise (ReadError filepath)
  end.

(** Copying one member out of the archive: the destination is opened, then
    the member is read. *)
Definition extract_member (dst : string) (f : option payload) : M unit :=
  match f with
  | Some p => write_file dst (content_of_payload p)
  | None => write_file dst (CRaw "");; raise AttributeError
  end.

Definition get_metafile_in_target (type filepath : string) : M (string * string) :=
  if String.eqb type LoadType.COLLECTION then
    ms ← tar_members filepath;
    for_fold
      (λ (acc : string * string) (info : string * option payload),
         metafile_path ←
           (if Py.endswith info.1 collection_manifest_json then
              let p := Py.replace filepath ".tar.gz"
                         ("-" +:+ collection_manifest_json) in
              extract_member p info.2;; mret p
            else mret acc.1);
         files_path ←
           (if Py.endswith info.1 collection_files_json then
              let p := Py.replace filepath ".tar.gz"
                         ("-" +:+ collection_files_json) in
              extract_member p info.2;; mret p
            else mret acc.2);
         mret (metafile_path, files_path))
      ("", "") ms
  else if String.eqb type LoadType.ROLE then
    m ← get_fs;
    let role_meta_files :=
      safe_glob E
        [Py.path_join filepath ["**"; role_meta_main_yml];
         Py.path_join filepath ["**"; role_meta_main_yaml]] m in
    mret (Py.first_item role_meta_files, "")
  else mret ("", "").

(** [",".join(authors)] *)
Definition join_authors (authors : json) : M json :=
  items ← json_iter authors;
  strs ← for_fold (λ acc a, s ← match a with
                                | JStr s => mret s
                                | _ => raise TypeError
                                end;
                            mret (acc ++ [s])) [] items;
  mret (JStr (Py.join "," strs)).

(** [get_author]; a YAML file is held as the value [yaml.safe_load] gives.
    The last case is a function body that ends without [return]. *)
Definition get_author (type metafile_path : string) : M json :=
  e ← os_path_exists metafile_path;
  if negb e then
    logging_warning ("invalid file path: " +:+ metafile_path);;
    mret (JStr "")
  else if String.eqb type LoadType.COLLECTION then
    metadata ← load_json metafile_path;
    info ← dict_get metadata "collection_info" (JObj ∅);
    authors ← dict_get info "authors" (JArr []);
    join_authors authors
  else if String.eqb type LoadType.ROLE then
    metadata ← load_json metafile_path;
    info ← dict_get metadata "galaxy_info" (JObj ∅);
    dict_get info "author" (JStr "")
  else mret JNull.

(** ** The log parsers *)

(** [l[1]] *)
Definition second_item (l : list string) : M string :=
  match l !! 1 with
  | Some x => mret x
  | None => raise IndexError
  end.

(** The body of the loop of [extract_collections_metadata] for a match that
    ends in [tar.gz]. *)
Definition collection_record (download_location url : string) : M json :=
  let metadata := DownloadMetadata.set_type (JStr LoadType.COLLECTION)
                    DownloadMetadata.init in
  let version := Py.replace (Py.last_item (Py.split "-" url)) ".tar.gz" "" in
  coll ← second_item (Py.split "-" url);
  let name := Py.last_item (Py.split "/" (Py.first_item (Py.split "-" url)))
              +:+ "." +:+ coll in
  let metadata := DownloadMetadata.set_download_url (JStr url) metadata in
  let metadata := DownloadMetadata.set_version (JStr version) metadata in
  let metadata := DownloadMetadata.set_name (JStr name) metadata in
  let filename := Py.last_item (Py.split "/" url) in
  let fullpath := download_location +:+ "/" +:+ filename in
  e ← os_path_exists fullpath;
  when (negb e) (logging_warning ("failed to get metadata for " +:+ url));;
  dt_m ← getmtime_iso E fullpath;
  let metadata := DownloadMetadata.set_download_timestamp (JStr dt_m) metadata in
  let metadata := DownloadMetadata.set_download_src_path (JStr fullpath) metadata in
  paths ← get_metafile_in_target LoadType.COLLECTION fullpath;
  let metadata := DownloadMetadata.set_metafile_path (JStr paths.1) metadata in
  let metadata := DownloadMetadata.set_files_json_path (JStr paths.2) metadata in
  author ← get_author LoadType.COLLECTION paths.1;
  let metadata := DownloadMetadata.set_author author metadata in
  let metadata := DownloadMetadata.set_requirements_file
                    (JStr (download_location +:+ "/" +:+ requirements_yml))
                    metadata in
  metadata ←
    (if negb (String.eqb url "") then
       hash ← hash_of_url E (JStr url);
       mret (DownloadMetadata.set_hash (JStr hash) metadata)
     else mret metadata);
  mret (JObj (DownloadMetadata.asdict metadata)).

(** One turn of the loop of [extract_collections_metadata]. *)
Definition collections_step (download_location : string)
    (metadata_list : list json) (m : string) : M (list json) :=
  if Py.endswith m "tar.gz" then
    r ← collection_record download_location m;
    mret (metadata_list ++ [r])
  else mret metadata_list.

Definition extract_collections_metadata (log_message download_location : string)
  : M json :=
  let match_messages := Py.findall_downloading log_message in
  metadata_list ← for_fold (collections_step download_location) []
                    match_messages;
  mret (JObj {[ "collections" := JArr metadata_list ]}).

(** [messages[i + 1]], given the lines after line [i] *)
Definition next_line (rest : list string) : M string :=
  match rest with
  | l :: _ => mret l
  | [] => raise IndexError
  end.

(** The body of the loop of [extract_roles_metadata] for a sentinel [line];
    [rest] are the lines after it. *)
Definition role_record (line : string) (rest : list string) : M json :=
  let metadata := DownloadMetadata.set_type (JStr LoadType.ROLE)
                    DownloadMetadata.init in
  let url := Py.last_item (Py.split " " line) in
  let version := Py.replace (Py.last_item (Py.split "/" url)) ".tar.gz" "" in
  next ← next_line rest;
  let name := Py.last_item (Py.split "/" next) in
  let metadata := DownloadMetadata.set_download_url (JStr url) metadata in
  let metadata := DownloadMetadata.set_version (JStr version) metadata in
  let metadata := DownloadMetadata.set_name (JStr name) metadata in
  let role_dir := Py.last_item (Py.split " " next) in
  dt_m ← getmtime_iso E role_dir;
  let metadata := DownloadMetadata.set_download_timestamp (JStr dt_m) metadata in
  let metadata := DownloadMetadata.set_download_src_path (JStr role_dir) metadata in
  metadata ←
    (if negb (String.eqb url "") then
       hash ← hash_of_url E (JStr url);
       mret (DownloadMetadata.set_hash (JStr hash) metadata)
     else mret metadata);
  mret (JObj (DownloadMetadata.asdict metadata)).

(** The loop over [enumerate(messages)]. *)
Fixpoint roles_loop (metadata_list : list json) (messages : list string)
  : M (list json) :=
  match messages with
  | [] => mret metadata_list
  | line :: rest =>
      if Py.startswith line "- downloading role from " then
        r ← role_record line rest;
        roles_loop (metadata_list ++ [r]) rest
      else roles_loop metadata_list rest
  end.

Definition extract_roles_metadata (log_message : string) : M json :=
  let messages := Py.splitlines log_message in
  metadata_list ← roles_loop [] messages;
  mret (JObj {[ "roles" := JArr metadata_list ]}).

End Store.

(** ** The decision engine *)

(** The truth value of a Python value, as [if x:] takes it. *)
Definition truthy (j : json) : bool :=
  match j with
  | JNull => false
  | JBool b => b
  | JNum z => negb (Z.eqb z 0)
  | JStr s => negb (String.eqb s "")
  | JArr l => negb (Nat.eqb (length l) 0)
  | JObj m => negb (Nat.eqb (size m) 0)
  end.

(** The events that fetch a dependency: a collection download and a run of
    [install_galaxy_target]. *)
Definition is_fetch (e : event) : bool :=
  match e with
  | Run (CollectionDownload _ _ _) => true
  | InstallGalaxyTarget _ _ _ _ _ => true
  | _ => false
  end.


(** What [prepare_dir] returns is the list object held in
    [self.dependency_dirs], not a copy of it: the field is bound once, when
    the object is made, and the module only ever appends to the list.  The
    value a caller holds is therefore a reference, and what is read through
    it is what the object's list holds at the time of reading. *)
Inductive list_ref :=
| dependency_dirs_of_self.

Definition deref (r : list_ref) (p : DependencyDirPreparator.t)
  : list Dependency.t :=
  match r with
  | dependency_dirs_of_self => DependencyDirPreparator.dependency_dirs p
  end.

Section Engine.

Context (E : Env).

Definition download_galaxy_collection
    (target output_dir version source_repository : string) : M string :=
  let server_option :=
    if String.eqb source_repository "" then ""
    else "--server " +:+ source_repository in
  let target_version :=
    if String.eqb version "" then target else target +:+ ":" +:+ version in
  run E (CollectionDownload target_version server_option output_dir).

Definition install_galaxy_collection_from_targz (tarfile : json)
    (output_dir : string) : M unit :=
  run E (CollectionInstall tarfile output_dir);; mret tt.

Definition install_galaxy_collection_from_reqfile (requirements : json)
    (output_dir : string) : M unit :=
  r ← as_str requirements;
  let src_dir := Py.replace r requirements_yml "" in
  run E (CollectionInstallRequirements src_dir r output_dir);; mret tt.

(** [utils.install_galaxy_target] *)
Definition galaxy_target_install (name type output_dir source_repository : string)
    (target_version : option string) : M string :=
  m ← get_fs;
  let r := install_galaxy_target E name type output_dir source_repository
             target_version m in
  emit (InstallGalaxyTarget name type output_dir source_repository target_version);;
  put_fs r.2;;
  mret r.1.

Definition is_download_file_exist (type target dir : string) : M (bool * json) :=
  download_metadata_files ← glob_download_metadata (Py.path_join dir [type]);
  if negb (Nat.eqb (length download_metadata_files) 0) then
    for_fold
      (λ (acc : bool * json) (metafile : string),
         md ← find_target_metadata type metafile target;
         match md with
         | Some md => mret (true, DownloadMetadata.download_src_path md)
         | None => mret acc
         end)
      (false, JStr "") download_metadata_files
  else
    let namepart := Py.replace target "." "-" in
    files ← os_listdir dir;
    for_fold
      (λ (acc : bool * json) (file : string),
         if Py.endswith file ".tar.gz" && Py.contains namepart file
         then mret (true, JStr file)
         else mret acc)
      (false, JStr "") files.

(** [parts = col_name.split(".")] and the directory built from [parts[0]]
    and [parts[1]]. *)
Definition collection_dir (sub_dependency_dir_path col_name : string) : M string :=
  let parts := Py.split "." col_name in
  p1 ← second_item parts;
  mret (Py.path_join sub_dependency_dir_path
          ["ansible_collections"; Py.first_item parts; p1]).

(** [self.dependency_dirs.append(asdict(downloaded_dep))]; the dictionary is
    held as the record it is made from. *)
Definition append_dependency (d : Dependency.t) : M unit :=
  modify_self (λ p,
    DependencyDirPreparator.set_dependency_dirs
      (DependencyDirPreparator.dependency_dirs p ++ [d]) p).

(** The name and the version of a declared collection. *)
Definition col_name_of (cdep : dep_item) : string :=
  match cdep with
  | DepName s => s
  | DepDict d =>
      let n := default "" (d !! "name") in
      if String.eqb n "" then default "" (d !! "source") else n
  end.

Definition col_version_of (cdep : dep_item) : string :=
  match cdep with
  | DepName _ => ""
  | DepDict d => default "" (d !! "version")
  end.

(** The body of the loop over the collection dependencies. *)
Definition prepare_collection_dependency (dependencies : Dependencies)
    (cache_enabled : bool) (cache_dir : string) (cdep : dep_item) : M unit :=
  let col_dependency_dirs := paths_collections dependencies in
  let col_dependency_metadata := metadata_collections dependencies in
  let col_name := col_name_of cdep in
  let col_version := col_version_of cdep in
  source_repository ← self_get DependencyDirPreparator.source_repository;
  target_name ← self_get DependencyDirPreparator.target_name;
  download_location ← self_get DependencyDirPreparator.download_location;
  dependency_dir_path ← self_get DependencyDirPreparator.dependency_dir_path;
  let metadata :=
    DownloadMetadata.set_cache_enabled (JBool cache_enabled)
      (DownloadMetadata.set_name (JStr col_name)
         (DownloadMetadata.set_type (JStr LoadType.COLLECTION)
            DownloadMetadata.init)) in
  let sub_dependency_dir_path :=
    Py.path_join dependency_dir_path ["collections"; "src"] in
  makedirs_if_missing sub_dependency_dir_path;;
  if cache_enabled then
    '(is_exist, targz_file) ← is_download_file_exist LoadType.COLLECTION
                                col_name cache_dir;
    '(md, targz_file) ←
        (if (is_exist : bool) then
           t ← as_str targz_file;
           let metadata_file :=
             Py.path_join (Py.rsplit1_first "/" t) [download_metadata_file] in
           md ← find_target_metadata LoadType.COLLECTION metadata_file col_name;
           mret (md, targz_file)
         else
           let cache_location := Py.path_join cache_dir ["collection"; col_name] in
           install_msg ← download_galaxy_collection col_name cache_location
                           col_version source_repository;
           metadata ← extract_collections_metadata E install_msg cache_location;
           metadata_file ← export_data metadata cache_location
                             download_metadata_file;
           md ← find_target_metadata LoadType.COLLECTION metadata_file col_name;
           mret (md, match md with
                     | Some md => DownloadMetadata.download_src_path md
                     | None => targz_file
                     end));
    install_galaxy_collection_from_targz targz_file sub_dependency_dir_path;;
    match (md : option DownloadMetadata.t) with
    | None => raise AttributeError
    | Some md =>
        let metadata := DownloadMetadata.set_cache_dir targz_file md in
        dir ← collection_dir sub_dependency_dir_path col_name;
        append_dependency (Dependency.make dir col_name metadata)
    end
  else
    match col_dependency_dirs !! col_name with
    | Some mapped =>
        let col_galaxy_data := default (JObj ∅) (col_dependency_metadata !! col_name) in
        match col_galaxy_data with
        | JObj g =>
            let download_url := default (JStr "") (g !! "download_url") in
            hash ← (if truthy download_url then hash_of_url E download_url
                    else mret "");
            let version := default (JStr "") (g !! "version") in
            let metadata :=
              DownloadMetadata.set_version version
                (DownloadMetadata.set_hash (JStr hash)
                   (DownloadMetadata.set_download_url download_url
                      (DownloadMetadata.set_source_repository
                         (JStr source_repository) metadata))) in
            append_dependency (Dependency.make mapped col_name metadata)
        | _ => append_dependency (Dependency.make "" col_name metadata)
        end
    | None =>
        '(is_exist, targz) ← is_download_file_exist LoadType.COLLECTION col_name
                  (Py.path_join download_location ["collection"; col_name]);
        md ← (if (is_exist : bool) then
                let metadata_file :=
                  Py.path_join download_location
                    ["collection"; target_name; download_metadata_file] in
                install_galaxy_collection_from_targz targz
                  sub_dependency_dir_path;;
                find_target_metadata LoadType.COLLECTION metadata_file col_name
              else
                let sub_download_location :=
                  Py.path_join download_location ["collection"; col_name] in
                makedirs_if_missing sub_download_location;;
                install_msg ← download_galaxy_collection col_name
                                sub_download_location col_version
                                source_repository;
                metadata ← extract_collections_metadata E install_msg
                             sub_download_location;
                metadata_file ← export_data metadata sub_download_location
                                  download_metadata_file;
                md ← find_target_metadata LoadType.COLLECTION metadata_file
                       col_name;
                match md with
                | Some d =>
                    install_galaxy_collection_from_reqfile
                      (DownloadMetadata.requirements_file d)
                      sub_dependency_dir_path
                | None => mret tt
                end;;
                mret md);
        let metadata := default metadata md in
        let metadata :=
          DownloadMetadata.set_source_repository (JStr source_repository)
            metadata in
        dir ← collection_dir sub_dependency_dir_path col_name;
        append_dependency (Dependency.make dir col_name metadata)
    end.

(** The name and the version of a declared role: a mapping without a name
    gives [None]. *)
Definition role_name_of (rdep : dep_item) : option string :=
  match rdep with
  | DepName s => Some s
  | DepDict d => d !! "name"
  end.

Definition role_version_of (rdep : dep_item) : option string :=
  match rdep with
  | DepName _ => None
  | DepDict d => d !! "version"
  end.

(** [move_src] called on a field of a record.  A value that is no string is
    refused by [os.path.exists]. *)
Definition move_src_from (src : json) (dst : string) : M unit :=
  match src with
  | JStr s => move_src E s dst
  | _ => raise TypeError
  end.

(** The body of the loop over the role dependencies. *)
Definition prepare_role_dependency (dependencies : Dependencies)
    (cache_enabled : bool) (cache_dir : string) (rdep : dep_item) : M unit :=
  let role_dependency_dirs := paths_roles dependencies in
  let target_version := role_version_of rdep in
  match role_name_of rdep with
  | None => raise TypeError
  | Some name =>
      source_repository ← self_get DependencyDirPreparator.source_repository;
      target_name ← self_get DependencyDirPreparator.target_name;
      download_location ← self_get DependencyDirPreparator.download_location;
      dependency_dir_path ← self_get DependencyDirPreparator.dependency_dir_path;
      let metadata :=
        DownloadMetadata.set_cache_enabled (JBool cache_enabled)
          (DownloadMetadata.set_name (JStr name)
             (DownloadMetadata.set_type (JStr LoadType.ROLE)
                DownloadMetadata.init)) in
      let sub_dependency_dir_path :=
        Py.path_join dependency_dir_path ["roles"; "src"; name] in
      makedirs_if_missing sub_dependency_dir_path;;
      '(metadata, sub_dependency_dir_path) ← (if cache_enabled then
             let cache_dir_path := Py.path_join cache_dir ["roles"; "src"; name] in
             e ← os_path_exists cache_dir_path;
             n ← (if e then l ← os_listdir cache_dir_path; mret (length l)
                  else mret 0);
             md ← (if e && negb (Nat.eqb n 0) then
                     let metadata_file :=
                       Py.path_join cache_dir_path [download_metadata_file] in
                     find_target_metadata LoadType.ROLE metadata_file target_name
                   else
                     install_msg ← galaxy_target_install name LoadType.ROLE
                                     cache_dir_path source_repository
                                     target_version;
                     metadata ← extract_roles_metadata E install_msg;
                     metadata_file ← export_data metadata cache_dir_path
                                       download_metadata_file;
                     find_target_metadata LoadType.ROLE metadata_file
                       target_name);
             move_src E sub_dependency_dir_path cache_dir_path;;
             mret (default metadata md, sub_dependency_dir_path)
           else
             match role_dependency_dirs !! name with
             | Some mapped => mret (metadata, mapped)
             | None =>
                 '(is_exist, _) ← is_download_file_exist LoadType.ROLE name
                           (Py.path_join download_location ["role"; name]);
                 md ← (if (is_exist : bool) then
                         let metadata_file :=
                           Py.path_join download_location
                             ["role"; name; download_metadata_file] in
                         md ← find_target_metadata LoadType.ROLE metadata_file
                                name;
                         match md with
                         | Some d =>
                             move_src_from (DownloadMetadata.download_src_path d)
                               sub_dependency_dir_path
                         | None => raise AttributeError
                         end;;
                         mret md
                       else
                         install_msg ← galaxy_target_install name LoadType.ROLE
                                         sub_dependency_dir_path
                                         source_repository None;
                         metadata ← extract_roles_metadata E install_msg;
                         let sub_download_location :=
                           Py.path_join download_location ["role"; name] in
                         metadata_file ← export_data metadata
                                           sub_download_location
                                           download_metadata_file;
                         find_target_metadata LoadType.ROLE metadata_file name);
                 mret (default metadata md, sub_dependency_dir_path)
             end);
      let metadata :=
        DownloadMetadata.set_source_repository (JStr source_repository)
          metadata in
      append_dependency (Dependency.make sub_dependency_dir_path name metadata)
  end.

Definition prepare_dependency_dir (dependencies : Dependencies)
    (cache_enabled : bool) (cache_dir : string) : M unit :=
  for_each (prepare_collection_dependency dependencies cache_enabled cache_dir)
    (dependencies_collections dependencies);;
  for_each (prepare_role_dependency dependencies cache_enabled cache_dir)
    (dependencies_roles dependencies).

Definition setup_dirs (cache_enabled : bool) (cache_dir : string) : M unit :=
  modify_self (λ p,
    DependencyDirPreparator.set_download_location
      (Py.path_join (DependencyDirPreparator.root_dir p) ["archives"]) p);;
  modify_self (λ p,
    DependencyDirPreparator.set_dependency_dir_path
      (DependencyDirPreparator.root_dir p) p);;
  download_location ← self_get DependencyDirPreparator.download_location;
  makedirs_if_missing download_location;;
  when cache_enabled (makedirs_if_missing cache_dir);;
  dependency_dir_path ← self_get DependencyDirPreparator.dependency_dir_path;
  makedirs_if_missing dependency_dir_path.

Definition prepare_root_dir (root_install is_src_installed : bool) : M unit :=
  if is_src_installed then mret tt
  else
    target_type ← self_get DependencyDirPreparator.target_type;
    target_name ← self_get DependencyDirPreparator.target_name;
    target_path ← self_get DependencyDirPreparator.target_path;
    dependency_dir ← self_get DependencyDirPreparator.target_dependency_dir;
    let root_install :=
      if String.eqb target_type LoadType.PROJECT && negb (is_url E target_name)
      then false else root_install in
    let root_install :=
      if (String.eqb target_type LoadType.COLLECTION
          || String.eqb target_type LoadType.ROLE)
         && is_local_path E target_name
      then false else root_install in
    if root_install then
      emit SrcInstall;; src_install E
    else
      m ← get_fs;
      emit (GetInstalledMetadata target_type target_name target_path
              dependency_dir);;
      let '(download_url, version) :=
        get_installed_metadata E target_type target_name target_path
          dependency_dir m in
      hash ← (if negb (String.eqb download_url "")
              then hash_of_url E (JStr download_url)
              else mret "");
      modify_self (λ p,
        DependencyDirPreparator.set_metadata
          (DownloadMetadata.set_hash (JStr hash)
             (DownloadMetadata.set_version (JStr version)
                (DownloadMetadata.set_download_url (JStr download_url)
                   (DependencyDirPreparator.metadata p)))) p).

Definition prepare_dir (root_install is_src_installed cache_enabled : bool)
    (cache_dir : string) : M list_ref :=
  setup_dirs cache_enabled cache_dir;;
  prepare_root_dir root_install is_src_installed;;
  target_type ← self_get DependencyDirPreparator.target_type;
  target_path ← self_get DependencyDirPreparator.target_path;
  dependency_dir ← self_get DependencyDirPreparator.target_dependency_dir;
  m ← get_fs;
  emit (FindDependency target_type target_path dependency_dir);;
  let dependencies :=
    find_dependency E target_type target_path dependency_dir m in
  prepare_dependency_dir dependencies cache_enabled cache_dir;;
  mret dependency_dirs_of_self.

End Engine.

(** ** Definitions the properties are stated with *)

(** The attributes of every instance that cannot be assigned without harm
    (see [assign_asdict]). *)
Definition special_attributes : list string :=
  ["__class__"; "__dict__"; "__weakref__"; "__dataclass_fields__"].

(** What [update_metadata] does to a record when the key is none of them:
    the field is set when the schema has it. *)
Definition set_field (key : string) (value : json) (dm : DownloadMetadata.t)
  : DownloadMetadata.t :=
  if DownloadMetadata.hasattr key
  then DownloadMetadata.setattr key value dm else dm.

(** A stored item that stands for a record named [target]. *)
Definition item_named (target : string) (data : json) : bool :=
  match record_of data with
  | Some dm => json_eq_str (DownloadMetadata.name dm) target
  | None => false
  end.

(** What [update_metadata] does to a stored item. *)
Definition updated_item (target key : string) (value : json) (data : json)
  : json :=
  match record_of data with
  | Some dm =>
      if json_eq_str (DownloadMetadata.name dm) target
      then JObj (DownloadMetadata.asdict (set_field key value dm)) else data
  | None => data
  end.




(** An environment for the examples: the external programs print nothing and
    change nothing, the finder finds nothing. *)
Definition idle_env : Env := {|
  run_command := λ _ m, ("", m);
  install_galaxy_target := λ _ _ _ _ _ m, ("", m);
  get_hash_of_url := λ _, "0000";
  getmtime_isoformat := λ _, "2022-11-03T00:00:00";
  find_dependency := λ _ _ _ _,
    {| dependencies_collections := []; dependencies_roles := [];
       paths_collections := ∅; paths_roles := ∅; metadata_collections := ∅ |};
  safe_glob := λ _ _, [];
  is_url := λ _, false;
  is_local_path := λ _, true;
  get_installed_metadata := λ _ _ _ _ _, ("", "");
  src_install := mret tt
|}.

(** A preparator for the examples, with its directories as [setup_dirs]
    sets them. *)
Definition sample_preparator : DependencyDirPreparator.t :=
  DependencyDirPreparator.make "/r" "" LoadType.PROJECT "proj" "" "/src" "" ∅
    DownloadMetadata.init "/r/archives" "/r" false false None [].

(** A download directory for the examples: the archive of [ansible.posix]
    with its manifest. *)
Definition sample_download_dir : gmap string node :=
  {[ "/tmp/x" := Dir;
     "/tmp/x/ansible-posix-1.4.0.tar.gz" :=
       File (CTar [("ansible-posix-1.4.0/MANIFEST.json",
                    Some (PJson (JObj {[ "collection_info" :=
                      JObj {[ "authors" := JArr [JStr "Ansible"] ]} ]})))]) ]}.

(** [c] ends with [self] as it found it, whether it returns or raises. *)
Definition keeps_self {A} (c : M A) : Prop :=
  ∀ p m, match c p m with
         | Ok _ p' _ _ => p' = p
         | Raise _ p' _ _ => p' = p
         end.

(** [c] always raises, and leaves [self] as it found it. *)
Definition never_returns {A} (c : M A) : Prop :=
  ∀ p m, ∃ e m' t, c p m = Raise e p m' t.

(** The object after [self.dependency_dirs.append(d)]. *)
Definition with_dependency (d : Dependency.t) (p : DependencyDirPreparator.t)
  : DependencyDirPreparator.t :=
  DependencyDirPreparator.set_dependency_dirs
    (DependencyDirPreparator.dependency_dirs p ++ [d]) p.


(** A cache for the examples: the role [x.y] with its metadata file. *)
Definition sample_role_record : DownloadMetadata.t :=
  DownloadMetadata.set_download_src_path (JStr "/cache/roles/src/x.y/x.y")
    (DownloadMetadata.set_version (JStr "1.0.3")
       (DownloadMetadata.set_name (JStr "x.y")
          (DownloadMetadata.set_type (JStr LoadType.ROLE)
             DownloadMetadata.init))).

Definition sample_role_cache : gmap string node :=
  {[ "/r" := Dir;
     "/cache" := Dir;
     "/cache/roles" := Dir;
     "/cache/roles/src" := Dir;
     "/cache/roles/src/x.y" := Dir;
     "/cache/roles/src/x.y/x.y" := Dir;
     "/cache/roles/src/x.y/download_meta.json" :=
       File (CJson (JObj {[ "roles" :=
         JArr [JObj (DownloadMetadata.asdict sample_role_record)] ]})) ]}.

Definition sample_role_dependencies : Dependencies :=
  {| dependencies_collections := []; dependencies_roles := [DepName "x.y"];
     paths_collections := ∅; paths_roles := ∅; metadata_collections := ∅ |}.

(** The object with an empty list of descriptors, and the object [p] with
    the descriptors of [p1] appended. *)
Definition strip (p : DependencyDirPreparator.t) : DependencyDirPreparator.t :=
  DependencyDirPreparator.set_dependency_dirs [] p.

Definition rebase (p p1 : DependencyDirPreparator.t) : DependencyDirPreparator.t :=
  DependencyDirPreparator.set_dependency_dirs
    (DependencyDirPreparator.dependency_dirs p
     ++ DependencyDirPreparator.dependency_dirs p1) p.

(** [c] does the same whatever descriptors are already listed: it leaves the
    other fields of [self] alone, and running it from [p] is running it from
    [strip p] and appending what that run lists. *)
Definition appends {A} (c : M A) : Prop :=
  ∀ p m,
    match c (strip p) m with
    | Ok a p1 m1 t => strip p1 = strip p ∧ c p m = Ok a (rebase p p1) m1 t
    | Raise e p1 m1 t => strip p1 = strip p ∧ c p m = Raise e (rebase p p1) m1 t
    end.

(** [k] lies below the directory [d]. *)
Definition below (d k : string) : bool := String.prefix (Py.join2 d "") k.

(** The directories a run makes for the declared roles. *)
Definition role_dirs (root : string) (deps : Dependencies) : list string :=
  omap (λ rdep, (λ name, Py.path_join root ["roles"; "src"; name])
                  <$> role_name_of rdep)
    (dependencies_roles deps).

(** The paths a cache-enabled run depends on: the metadata files, what lies
    under the cache directory, and what lies in the directories [dirs] of
    the roles, which the run copies from. *)
Definition protected (cache_dir : string) (dirs : list string) (k : string)
  : bool :=
  Py.endswith k download_metadata_file
  || below cache_dir k
  || existsb (λ d, below d k) dirs.

(** [m'] has the same protected entries as [m]. *)
Definition agree (cache_dir : string) (dirs : list string)
    (m m' : gmap string node) : Prop :=
  ∀ k, protected cache_dir dirs k = true → m' !! k = m !! k.

(** No directory of [dirs] has an entry. *)
Definition vacant (dirs : list string) (m : gmap string node) : bool :=
  forallb (λ k, negb (existsb (λ d, below d k) dirs)) (listing m).

(** [m'] has every entry of [m], directories still being directories. *)
Definition grows (m m' : gmap string node) : Prop :=
  ∀ k, (is_Some (m !! k) → is_Some (m' !! k))
       ∧ (m !! k = Some Dir → m' !! k = Some Dir).

Definition no_fetch (t : list event) : bool :=
  forallb (λ e, negb (is_fetch e)) t.

(** The installer of collections deletes nothing, and what it writes lies
    below its output directory and is no metadata file. *)
Definition installer_local (E : Env) : Prop :=
  ∀ tarfile out m,
    let m' := (run_command E (CollectionInstall tarfile out) m).2 in
    grows m m'
    ∧ ∀ k, below out k = false ∨ Py.endswith k download_metadata_file = true →
        m' !! k = m !! k.

(** [cp -r src/* dst/] finds nothing to copy in a directory without
    entries, and then changes nothing. *)
Definition copy_idle (E : Env) : Prop :=
  ∀ src dst m,
    (∀ k, below src k = true → m !! k = None) →
    (run_command E (CopyTree src dst) m).2 = m.

(** Neither of the directories [a] and [b] lies in the other. *)
Definition apart (a b : string) : bool :=
  negb (String.prefix (Py.join2 a "") (Py.join2 b ""))
  && negb (String.prefix (Py.join2 b "") (Py.join2 a "")).

(** Creating [x] and its ancestors creates no protected path. *)
Definition unprotected_dirs (cache_dir : string) (dirs : list string)
    (x : string) : bool :=
  forallb (λ a, negb (protected cache_dir dirs a)) (makedirs_targets x).

(** [c] does not look at the file system. *)
Definition fs_blind {A} (c : M A) : Prop :=
  ∀ p m m', c p m' = match c p m with
                     | Ok a p1 _ t => Ok a p1 m' t
                     | Raise e p1 _ t => Raise e p1 m' t
                     end.

(** A run of [c] that starts with the directories of the roles vacant and
    returns without fetching keeps what exists and leaves the protected
    paths alone; and [c] returns the same, with the same events, from every
    file system that agrees with the first on the protected paths and has
    kept what the run left.  The object is any whose fields other than the
    descriptors are those of [q]. *)
Definition sim {A} (cache_dir : string) (dirs : list string)
    (q : DependencyDirPreparator.t) (c : M A) : Prop :=
  ∀ p m a p1 m1 t,
    strip p = q → vacant dirs m = true →
    c p m = Ok a p1 m1 t → no_fetch t = true →
    grows m m1 ∧ agree cache_dir dirs m m1
    ∧ ∀ m', agree cache_dir dirs m m' → grows m1 m' →
        ∃ m1', c p m' = Ok a p1 m1' t
               ∧ grows m' m1' ∧ agree cache_dir dirs m' m1'.

(** The entries of the directory [x] lie under the cache directory. *)
Definition listing_protected (cache_dir x : string) : bool :=
  String.prefix (Py.join2 cache_dir "")
    (if Py.endswith x "/" then x else x +:+ "/").

(** The directory a cache-enabled run makes for a role is one of [dirs] and
    making it creates no protected path; the cache directory of the role
    lies under the cache directory. *)
Definition role_layout (cache_dir : string) (dirs : list string)
    (root : string) (rdep : dep_item) : bool :=
  match role_name_of rdep with
  | Some name =>
      let cache_dir_path := Py.path_join cache_dir ["roles"; "src"; name] in
      unprotected_dirs cache_dir dirs (Py.path_join root ["roles"; "src"; name])
      && bool_decide (Py.path_join root ["roles"; "src"; name] ∈ dirs)
      && below cache_dir cache_dir_path
      && listing_protected cache_dir cache_dir_path
  | None => true
  end.

(** The object as [setup_dirs] leaves it. *)
Definition with_base_dirs (p : DependencyDirPreparator.t)
  : DependencyDirPreparator.t :=
  DependencyDirPreparator.set_dependency_dir_path
    (DependencyDirPreparator.root_dir p)
    (DependencyDirPreparator.set_download_location
       (Py.path_join (DependencyDirPreparator.root_dir p) ["archives"]) p).

(** The file system as [setup_dirs] leaves it when the cache is enabled. *)
Definition made_dirs (cache_dir root : string) (m : gmap string node)
  : gmap string node :=
  with_dirs (with_dirs (with_dirs m (Py.path_join root ["archives"])) cache_dir)
    root.

(** Where a cache-enabled run works: the directories it makes under [root]
    are no protected paths, the directory it installs the collections into
    lies apart from the cache directory and from the directories of the
    roles, and the cache directories of the roles lie under the cache
    directory. *)
Definition layout (cache_dir root : string) (deps : Dependencies) : bool :=
  let dirs := role_dirs root deps in
  let out := Py.path_join root ["collections"; "src"] in
  unprotected_dirs cache_dir dirs (Py.path_join root ["archives"])
  && unprotected_dirs cache_dir dirs cache_dir
  && unprotected_dirs cache_dir dirs root
  && unprotected_dirs cache_dir dirs out
  && apart out cache_dir
  && forallb (apart out) dirs
  && forallb (role_layout cache_dir dirs root) (dependencies_roles deps).

(** A cache for the examples: the collection [a.b] and the role [x.y], each
    with its metadata file. *)
Definition sample_collection_record : DownloadMetadata.t :=
  DownloadMetadata.set_download_src_path
    (JStr "/cache/collection/a.b/a-b-1.0.0.tar.gz")
    (DownloadMetadata.set_version (JStr "1.0.0")
       (DownloadMetadata.set_name (JStr "a.b")
          (DownloadMetadata.set_type (JStr LoadType.COLLECTION)
             DownloadMetadata.init))).

Definition sample_cache : gmap string node :=
  <[ "/cache/collection" := Dir ]>
  (<[ "/cache/collection/a.b" := Dir ]>
  (<[ "/cache/collection/a.b/a-b-1.0.0.tar.gz" := File (CTar []) ]>
  (<[ "/cache/collection/a.b/download_meta.json" :=
        File (CJson (JObj {[ "collections" :=
          JArr [JObj (DownloadMetadata.asdict sample_collection_record)] ]})) ]>
   sample_role_cache))).

Definition sample_dependencies : Dependencies :=
  {| dependencies_collections := [DepName "a.b"];
     dependencies_roles := [DepName "x.y"];
     paths_collections := ∅; paths_roles := ∅; metadata_collections := ∅ |}.

(** The idle environment with a finder that finds the two of them. *)
Definition cached_env : Env := {|
  run_command := run_command idle_env;
  install_galaxy_target := install_galaxy_target idle_env;
  get_hash_of_url := get_hash_of_url idle_env;
  getmtime_isoformat := getmtime_isoformat idle_env;
  find_dependency := λ _ _ _ _, sample_dependencies;
  safe_glob := safe_glob idle_env;
  is_url := is_url idle_env;
  is_local_path := is_local_path idle_env;
  get_installed_metadata := get_installed_metadata idle_env;
  src_install := src_install idle_env
|}.

(** The statements of the loop body over the collections that come before
    the directory of the descriptor is computed, with the cache enabled
    (l.178-225).  They yield the directory of the collections and the
    metadata of the descriptor. *)
Definition cached_collection_front (E : Env) (cache_dir : string)
    (cdep : dep_item) : M (string * DownloadMetadata.t) :=
  let col_name := col_name_of cdep in
  let col_version := col_version_of cdep in
  source_repository ← self_get DependencyDirPreparator.source_repository;
  target_name ← self_get DependencyDirPreparator.target_name;
  download_location ← self_get DependencyDirPreparator.download_location;
  dependency_dir_path ← self_get DependencyDirPreparator.dependency_dir_path;
  let sub_dependency_dir_path :=
    Py.path_join dependency_dir_path ["collections"; "src"] in
  makedirs_if_missing sub_dependency_dir_path;;
  '(is_exist, targz_file) ← is_download_file_exist LoadType.COLLECTION
                              col_name cache_dir;
  '(md, targz_file) ←
      (if (is_exist : bool) then
         t ← as_str targz_file;
         let metadata_file :=
           Py.path_join (Py.rsplit1_first "/" t) [download_metadata_file] in
         md ← find_target_metadata LoadType.COLLECTION metadata_file col_name;
         mret (md, targz_file)
       else
         let cache_location := Py.path_join cache_dir ["collection"; col_name] in
         install_msg ← download_galaxy_collection E col_name cache_location
                         col_version source_repository;
         metadata ← extract_collections_metadata E install_msg cache_location;
         metadata_file ← export_data metadata cache_location
                           download_metadata_file;
         md ← find_target_metadata LoadType.COLLECTION metadata_file col_name;
         mret (md, match md with
                   | Some md => DownloadMetadata.download_src_path md
                   | None => targz_file
                   end));
  install_galaxy_collection_from_targz E targz_file sub_dependency_dir_path;;
  match (md : option DownloadMetadata.t) with
  | None => raise AttributeError
  | Some md =>
      mret (sub_dependency_dir_path, DownloadMetadata.set_cache_dir targz_file md)
  end.

(** The same for a collection without a mapped directory when the cache is
    disabled (l.178-199 and l.243-266). *)
Definition downloaded_collection_front (E : Env) (cache_enabled : bool)
    (cdep : dep_item) : M (string * DownloadMetadata.t) :=
  let col_name := col_name_of cdep in
  let col_version := col_version_of cdep in
  source_repository ← self_get DependencyDirPreparator.source_repository;
  target_name ← self_get DependencyDirPreparator.target_name;
  download_location ← self_get DependencyDirPreparator.download_location;
  dependency_dir_path ← self_get DependencyDirPreparator.dependency_dir_path;
  let metadata :=
    DownloadMetadata.set_cache_enabled (JBool cache_enabled)
      (DownloadMetadata.set_name (JStr col_name)
         (DownloadMetadata.set_type (JStr LoadType.COLLECTION)
            DownloadMetadata.init)) in
  let sub_dependency_dir_path :=
    Py.path_join dependency_dir_path ["collections"; "src"] in
  makedirs_if_missing sub_dependency_dir_path;;
  '(is_exist, targz) ← is_download_file_exist LoadType.COLLECTION col_name
            (Py.path_join download_location ["collection"; col_name]);
  md ← (if (is_exist : bool) then
          let metadata_file :=
            Py.path_join download_location
              ["collection"; target_name; download_metadata_file] in
          install_galaxy_collection_from_targz E targz
            sub_dependency_dir_path;;
          find_target_metadata LoadType.COLLECTION metadata_file col_name
        else
          let sub_download_location :=
            Py.path_join download_location ["collection"; col_name] in
          makedirs_if_missing sub_download_location;;
          install_msg ← download_galaxy_collection E col_name
                          sub_download_location col_version
                          source_repository;
          metadata ← extract_collections_metadata E install_msg
                       sub_download_location;
          metadata_file ← export_data metadata sub_download_location
                            download_metadata_file;
          md ← find_target_metadata LoadType.COLLECTION metadata_file
                 col_name;
          match md with
          | Some d =>
              install_galaxy_collection_from_reqfile E
                (DownloadMetadata.requirements_file d)
                sub_dependency_dir_path
          | None => mret tt
          end;;
          mret md);
  mret (sub_dependency_dir_path,
        DownloadMetadata.set_source_repository (JStr source_repository)
          (default metadata md)).

(** Programs for the examples that do what their names say.  The copy puts
    every entry below the source at the same place below the destination,
    when that is a directory; the installer makes the directory of the
    collections in its output directory. *)
Definition copy_tree (src dst : string) (m : gmap string node)
  : gmap string node :=
  let from := Py.join2 src "" in
  if path_isdir m dst then
    foldr (λ k acc,
             match m !! k with
             | Some n =>
                 <[Py.join2 dst ""
                   +:+ String.substring (String.length from)
                         (String.length k - String.length from) k := n]> acc
             | None => acc
             end)
      m (filter (λ k, below src k = true) (listing m))
  else m.

Definition working_env : Env := {|
  run_command := λ c m,
    match c with
    | CopyTree src dst => ("", copy_tree src dst m)
    | CollectionInstall _ out =>
        ("", <[Py.path_join out ["ansible_collections"] := Dir]> m)
    | _ => ("", m)
    end;
  install_galaxy_target := install_galaxy_target idle_env;
  get_hash_of_url := get_hash_of_url idle_env;
  getmtime_isoformat := getmtime_isoformat idle_env;
  find_dependency := λ _ _ _ _, sample_dependencies;
  safe_glob := safe_glob idle_env;
  is_url := is_url idle_env;
  is_local_path := is_local_path idle_env;
  get_installed_metadata := get_installed_metadata idle_env;
  src_install := src_install idle_env
|}.

(** A path spelled as the file system has it: no empty component but a
    leading one (no doubled and no trailing slash) and no component [.] or
    [..]. *)
Definition plain_path (s : string) : bool :=
  String.eqb s "/"
  || match Py.split "/" s with
     | [] => false
     | c :: cs =>
         forallb (λ c, negb (String.eqb c "") && negb (String.eqb c ".")
                       && negb (String.eqb c ".."))
           (if String.eqb c "" then cs else c :: cs)
     end.

(** Whether [open(x, "w")] succeeds in the file system [m]. *)
Definition writable (m : gmap string node) (x : string) : bool :=
  match m !! x with
  | Some Dir => false
  | Some (File _) => true
  | None =>
      match parent_dir x with
      | None => true
      | Some d => path_isdir m d
      end
  end.

(** A member of an archive that [get_metafile_in_target] copies out: its
    name ends like the manifest or like the list of files. *)
Definition meta_member (info : string * option payload) : bool :=
  Py.endswith info.1 collection_manifest_json
  || Py.endswith info.1 collection_files_json.

(** The body of the loop of [get_metafile_in_target] over the members. *)
Definition metafile_step (filepath : string) (acc : string * string)
    (info : string * option payload) : M (string * string) :=
  metafile_path ←
    (if Py.endswith info.1 collection_manifest_json then
       let p := Py.replace filepath ".tar.gz"
                  ("-" +:+ collection_manifest_json) in
       extract_member p info.2;; mret p
     else mret acc.1);
  files_path ←
    (if Py.endswith info.1 collection_files_json then
       let p := Py.replace filepath ".tar.gz"
                  ("-" +:+ collection_files_json) in
       extract_member p info.2;; mret p
     else mret acc.2);
  mret (metafile_path, files_path).

(** The test of [is_download_file_exist] on an entry of the directory: the
    name of an archive of [target]. *)
Definition archive_of (target file : string) : bool :=
  Py.endswith file ".tar.gz" && Py.contains (Py.replace target "." "-") file.

(** The prefix of the paths the pattern of [is_download_file_exist] can
    match. *)
Definition metadata_glob_prefix (dir type : string) : string :=
  Py.join2 (Py.path_join dir [type]) "".

(** [c], when it returns, has listed one more descriptor, one that [Q]
    holds of, and has left the rest of the object alone. *)
Definition lists_one (Q : Dependency.t → Prop) (c : M unit) : Prop :=
  ∀ p m a p1 m1 t,
    c p m = Ok a p1 m1 t → ∃ d, p1 = with_dependency d p ∧ Q d.

(** The object [p] with the descriptors [ds] listed after its own. *)
Definition with_dependencies (ds : list Dependency.t)
    (p : DependencyDirPreparator.t) : DependencyDirPreparator.t :=
  DependencyDirPreparator.set_dependency_dirs
    (DependencyDirPreparator.dependency_dirs p ++ ds) p.

(** ** Loading an existing dependency directory

    [existing_dependency_dir_loader] reads the collections a directory
    holds; the order of [os.listdir] is that of [listing]. *)

(** The descriptor [existing_dependency_dir_loader] builds for a collection
    found in a directory: a dictionary with the directory and, as metadata,
    the type and the name. *)
Definition existing_descriptor (info : string * string) : json :=
  JObj {[ "dir" := JStr info.2;
          "metadata" := JObj {[ "type" := JStr LoadType.COLLECTION;
                                "name" := JStr info.1 ]} ]}.

(** The collections of one namespace, each with its name and its path. *)
Definition namespace_collections (base_dir : string)
    (search_dirs : list (string * string)) (ns : string)
  : M (list (string * string)) :=
  names ← os_listdir (Py.path_join base_dir [ns]);
  mret (search_dirs
        ++ ((λ name, (ns +:+ "." +:+ name, Py.path_join base_dir [ns; name]))
              <$> names)).

Definition existing_dependency_dir_loader
    (dependency_type dependency_dir_path : string) : M (list json) :=
  search_dirs ←
    (if String.eqb dependency_type LoadType.COLLECTION then
       e ← os_path_exists
              (Py.path_join dependency_dir_path ["ansible_collections"]);
       let base_dir :=
         if (e : bool)
         then Py.path_join dependency_dir_path ["ansible_collections"]
         else dependency_dir_path in
       entries ← os_listdir base_dir;
       let namespaces :=
         filter (λ ns, Py.endswith ns ".info" = false) entries in
       for_fold (namespace_collections base_dir) [] namespaces
     else mret []);
  mret (existing_descriptor <$> search_dirs).

(** The directory [existing_dependency_dir_loader] reads the namespaces
    from. *)
Definition collections_base (m : gmap string node) (dependency_dir_path : string)
  : string :=
  if path_exists m (Py.path_join dependency_dir_path ["ansible_collections"])
  then Py.path_join dependency_dir_path ["ansible_collections"]
  else dependency_dir_path.

(** A collection of the directory [base]: a name and a path, the path an
    entry of the file system two levels below [base], the name its last two
    components joined by a dot, the first of them not ending in [.info]. *)
Definition collection_under (m : gmap string node) (base : string)
    (info : string * string) : Prop :=
  ∃ ns name,
    info = (ns +:+ "." +:+ name, Py.path_join base [ns; name])
    ∧ Py.endswith ns ".info" = false
    ∧ m !! Py.path_join base [ns] = Some Dir
    ∧ is_Some (m !! Py.path_join base [ns; name])
    ∧ Py.contains "/" ns = false ∧ Py.contains "/" name = false.

(** A dependency directory for the examples: the collection [ansible.posix]
    as the installer lays it out. *)
Definition sample_dependency_dir : gmap string node :=
  {[ "/deps" := Dir;
     "/deps/ansible_collections" := Dir;
     "/deps/ansible_collections/ansible" := Dir;
     "/deps/ansible_collections/ansible/posix" := Dir;
     "/deps/ansible_collections/ansible.posix-1.4.0.info" := Dir ]}.

(** * Properties *)

(** ** Strings *)

Lemma prefix_app (a b : string) : String.prefix a (a +:+ b) = true.
Proof.
  induction a as [|c a IH]; simpl.
  - by destruct b.
  - destruct (ascii_dec c c); [exact IH | done].
Qed.

Lemma prefix_inv (a s : string) :
  String.prefix a s = true → ∃ b, s = a +:+ b.
Proof.
  revert s. induction a as [|c a IH]; intros s H.
  - by exists s.
  - destruct s as [|c' s]; simpl in H; [done|].
    destruct (ascii_dec c c') as [->|]; [|done].
    destruct (IH s H) as [b ->]. by exists b.
Qed.

Lemma prefix_spec (a s : string) :
  String.prefix a s = true ↔ ∃ b, s = a +:+ b.
Proof.
  split; [apply prefix_inv | intros [b ->]; apply prefix_app].
Qed.

Lemma contains_spec (sub s : string) :
  Py.contains sub s = true ↔ ∃ a b, s = a +:+ sub +:+ b.
Proof.
  induction s as [|c s IH].
  - cbn [Py.contains]. rewrite orb_false_r, prefix_spec. split.
    + intros [b H]. exists "", b. done.
    + intros (a & b & H). destruct a; simpl in H.
      * by exists b.
      * done.
  - cbn [Py.contains]. rewrite orb_true_iff, IH, prefix_spec. split.
    + intros [[b H]|(a & b & H)].
      * exists "", b. done.
      * exists (String c a), b. simpl. by rewrite H.
    + intros (a & b & H). destruct a as [|c' a]; simpl in H.
      * left. by exists b.
      * right. injection H as -> ->. by exists a, b.
Qed.

Lemma endswith_spec (s suf : string) :
  Py.endswith s suf = true ↔ ∃ a, s = a +:+ suf.
Proof.
  induction s as [|c s IH].
  - cbn [Py.endswith]. rewrite orb_false_r, String.eqb_eq. split.
    + intros <-. by exists "".
    + intros [a H]. destruct a; simpl in H; [done|done].
  - cbn [Py.endswith]. rewrite orb_true_iff, IH, String.eqb_eq. split.
    + intros [<-|[a ->]]; [by exists ""|by exists (String c a)].
    + intros [a H]. destruct a as [|c' a]; simpl in H.
      * by left.
      * right. injection H as -> ->. by exists a.
Qed.

(** ** Running a method body *)

Lemma bind_run {A B} (c : M A) (f : A → M B) p m :
  (c ≫= f) p m =
  match c p m with
  | Ok a p1 m1 t1 =>
      match f a p1 m1 with
      | Ok b p2 m2 t2 => Ok b p2 m2 (t1 ++ t2)
      | Raise e p2 m2 t2 => Raise e p2 m2 (t1 ++ t2)
      end
  | Raise e p1 m1 t1 => Raise e p1 m1 t1
  end.
Proof. reflexivity. Qed.

Lemma bind_Ok {A B} (c : M A) (f : A → M B) p m a p1 m1 t1 :
  c p m = Ok a p1 m1 t1 →
  (c ≫= f) p m =
  match f a p1 m1 with
  | Ok b p2 m2 t2 => Ok b p2 m2 (t1 ++ t2)
  | Raise e p2 m2 t2 => Raise e p2 m2 (t1 ++ t2)
  end.
Proof. intros H. by rewrite bind_run, H. Qed.

Lemma bind_Raise {A B} (c : M A) (f : A → M B) p m e p1 m1 t1 :
  c p m = Raise e p1 m1 t1 → (c ≫= f) p m = Raise e p1 m1 t1.
Proof. intros H. by rewrite bind_run, H. Qed.

Lemma bind_Ok_inv {A B} (c : M A) (f : A → M B) p m b p2 m2 t :
  (c ≫= f) p m = Ok b p2 m2 t →
  ∃ a p1 m1 t1 t2,
    c p m = Ok a p1 m1 t1 ∧ f a p1 m1 = Ok b p2 m2 t2 ∧ t = t1 ++ t2.
Proof.
  rewrite bind_run. destruct (c p m) as [a p1 m1 t1|]; [|done].
  destruct (f a p1 m1) as [b' p2' m2' t2|] eqn:Hf; [|done].
  intros [= -> -> -> <-]. by exists a, p1, m1, t1, t2.
Qed.

(** Unfolding the plumbing of method bodies. *)
Ltac msimpl :=
  repeat (unfold mbind, M_bind, mret, M_ret, raise, get_fs, put_fs, emit,
            self_get, modify_self, when in *;
          cbn [default from_option id fst snd app negb andb orb] in *).

(** ** Directory materialization *)

(** C8, as the code has it.  For a source spelled as the file system has
    it, [move_src] raises exactly when the source is the empty string, is
    absent or is a regular file, when the destination is the empty string or
    has two dots in a row anywhere in it, or when one of the two holds a NUL
    character, which no command line can take.  It raises a [ValueError]
    then, leaves the file system alone and runs nothing.  Otherwise it runs
    the copy command once and returns. *)
Theorem move_src_raises_iff (E : Env) (src dst : string)
    (p : DependencyDirPreparator.t) (m : gmap string node) :
  plain_path src = true →
  let bad :=
    src = "" ∨ m !! src = None ∨ (∃ c, m !! src = Some (File c))
    ∨ dst = "" ∨ (∃ a b, dst = a +:+ ".." +:+ b)
    ∨ has_nul src = true ∨ has_nul dst = true in
  ((∃ e p' m' t, move_src E src dst p m = Raise e p' m' t) ↔ bad)
  ∧ (bad → ∃ msg, move_src E src dst p m = Raise (ValueError msg) p m [])
  ∧ (¬ bad →
     move_src E src dst p m
     = Ok tt p (run_command E (CopyTree src dst) m).2 [Run (CopyTree src dst)]).
Proof.
  intros _ bad.
  assert (Hcases :
    (bad ∧ ∃ msg, move_src E src dst p m = Raise (ValueError msg) p m [])
    ∨ (¬ bad ∧ move_src E src dst p m
               = Ok tt p (run_command E (CopyTree src dst) m).2
                   [Run (CopyTree src dst)])).
  { subst bad.
    unfold move_src, os_path_exists, os_path_isdir, path_exists, path_isdir, run.
    cbn [command_strings existsb]. msimpl.
    destruct (String.eqb_spec src "") as [Hsrc|Hsrc]; [left; cbn; eauto|].
    destruct (m !! src) as [[|c]|] eqn:Hm; cbn; [|left; eauto 7|left; eauto].
    destruct (String.eqb_spec dst "") as [Hdst|Hdst]; [left; cbn; eauto 7|].
    destruct (Py.contains ".." dst) eqn:Hc; cbn.
    - left. apply contains_spec in Hc. eauto 8.
    - destruct (has_nul src) eqn:Hns; cbn; [left; eauto 9|].
      destruct (has_nul dst) eqn:Hnd; cbn; [left; eauto 10|].
      right. split; [|done].
      intros [?|[?|[[c ?]|[?|[H|[?|?]]]]]]; try done.
      apply contains_spec in H. congruence. }
  destruct Hcases as [[Hb [msg Hr]]|[Hb Hr]].
  - split; [|split]; [| eauto | done].
    split; [done | eauto 8].
  - split; [|split]; [| done | done].
    split; [|done]. intros (e & p' & m' & t & Hr'). congruence.
Qed.

Lemma move_src_raises_iff_witness :
  move_src idle_env "/r/roles/src/x.y" "/cache/roles/src/x.y" sample_preparator
    {[ "/r/roles/src/x.y" := Dir ]}
  = Ok tt sample_preparator {[ "/r/roles/src/x.y" := Dir ]}
      [Run (CopyTree "/r/roles/src/x.y" "/cache/roles/src/x.y")].
Proof.
  destruct (move_src_raises_iff idle_env "/r/roles/src/x.y"
              "/cache/roles/src/x.y" sample_preparator
              {[ "/r/roles/src/x.y" := Dir ]}) as (_ & _ & Hgood).
  - vm_compute. reflexivity.
  - apply Hgood.
    intros [H|[H|[[c H]|[H|[(a & b & H)|[H|H]]]]]]; try discriminate H.
    assert (Hc : Py.contains ".." "/cache/roles/src/x.y" = true)
      by (apply contains_spec; eauto).
    vm_compute in Hc. discriminate Hc.
Defined.

(** C8 fails as it is worded.  The destination [/d/a..b] has no component
    [..], the source is an existing directory, neither is empty; and
    [move_src] raises, because the test of the code is for two dots in a
    row anywhere in the destination. *)
Lemma move_src_refuses_dotted_name :
  let m : gmap string node := {[ "/s" := Dir; "/d" := Dir ]} in
  "/s" ≠ "" ∧ path_exists m "/s" = true ∧ path_isdir m "/s" = true
  ∧ "/d/a..b" ≠ "" ∧ (".." ∉ Py.split "/" "/d/a..b")
  ∧ move_src idle_env "/s" "/d/a..b" sample_preparator m
    = Raise (ValueError "dst /d/a..b is invalid") sample_preparator m [].
Proof.
  intros m. split; [done|]. split; [vm_compute; reflexivity|].
  split; [vm_compute; reflexivity|]. split; [done|].
  split; [|vm_compute; reflexivity].
  cbn. intros H. repeat (apply elem_of_cons in H as [H|H]; [discriminate H|]).
  by apply elem_of_nil in H.
Qed.

(** ** Paths *)

Lemma app_nil_l (s : string) : "" +:+ s = s.
Proof. reflexivity. Qed.

Lemma app_cons (c : ascii) (a b : string) :
  String c a +:+ b = String c (a +:+ b).
Proof. reflexivity. Qed.


Lemma string_app_empty_r (a : string) : a +:+ "" = a.
Proof. induction a as [|c a IH]; [done|]. by rewrite app_cons, IH. Qed.



Lemma foldr_insert_dir_lookup (l : list string) (m : gmap string node) k :
  foldr (λ a, <[a := Dir]>) m l !! k = if decide (k ∈ l) then Some Dir else m !! k.
Proof.
  induction l as [|a l IH]; cbn [foldr].
  - destruct (decide (k ∈ [])) as [H|H]; [by apply elem_of_nil in H | done].
  - destruct (decide (a = k)) as [->|Hne].
    + rewrite lookup_insert_eq.
      destruct (decide (k ∈ k :: l)) as [H|H]; [done|]. exfalso. apply H. by left.
    + rewrite lookup_insert_ne by done. rewrite IH.
      destruct (decide (k ∈ l)) as [Hin|Hin];
        destruct (decide (k ∈ a :: l)) as [H|H]; try done.
      * exfalso. apply H. by right.
      * apply elem_of_cons in H as [?|?]; congruence.
Qed.

Lemma before_last_char_app (sep : ascii) (d f : string) :
  Py.contains (String sep "") f = false →
  Py.before_last_char sep (d +:+ String sep f) = Some d.
Proof.
  intros Hf.
  assert (Hnone : Py.before_last_char sep f = None).
  { induction f as [|c f IH]; [done|].
    cbn [Py.contains] in Hf. apply orb_false_iff in Hf as [Hp Hf].
    cbn [Py.before_last_char]. rewrite (IH Hf).
    simpl in Hp. destruct (ascii_dec sep c) as [->|Hne].
    - by destruct f.
    - by apply Ascii.eqb_neq in Hne; rewrite Ascii.eqb_sym, Hne. }
  induction d as [|c d IH]; [rewrite app_nil_l | rewrite app_cons];
    cbn [Py.before_last_char].
  - by rewrite Hnone, Ascii.eqb_refl.
  - by rewrite IH.
Qed.

Lemma join2_plain (d f : string) :
  d ≠ "" → Py.endswith d "/" = false → Py.contains "/" f = false →
  Py.join2 d f = d +:+ "/" +:+ f.
Proof.
  intros Hd He Hf. unfold Py.join2, Py.startswith.
  assert (String.prefix "/" f = false) as ->.
  { destruct f; [done|]. cbn [Py.contains] in Hf. by apply orb_false_iff in Hf as [? _]. }
  rewrite He, orb_false_r.
  by destruct (String.eqb_spec d "").
Qed.

Lemma find_all_false {A} (f : A → bool) (l : list A) :
  (∀ x, x ∈ l → f x = false) → List.find f l = None.
Proof.
  induction l as [|x l IH]; intros H; [done|].
  cbn [List.find]. rewrite (H x) by by left.
  apply IH. intros y Hy. apply H. by right.
Qed.

(** ** The metadata store *)

Lemma of_dict_asdict (d : DownloadMetadata.t) :
  DownloadMetadata.of_dict (DownloadMetadata.asdict d) = Some d.
Proof. destruct d. vm_compute. reflexivity. Qed.

Lemma construct_asdict (d : DownloadMetadata.t) p m :
  construct (JObj (DownloadMetadata.asdict d)) p m = Ok d p m [].
Proof. unfold construct, record_of. by rewrite of_dict_asdict. Qed.


Lemma find_target_metadata_section (type file target : string)
    (mo : gmap string json) (items : list json) p m :
  type = LoadType.COLLECTION ∨ type = LoadType.ROLE →
  m !! file = Some (File (CJson (JObj mo))) →
  mo !! section_key type = Some (JArr items) →
  find_target_metadata type file target p m
  = match find_in_list target items p m with
    | Ok a p' m' t => Ok a p' m' t
    | Raise e p' m' t => Raise e p' m' t
    end.
Proof.
  intros Ht Hm Hmo. unfold find_target_metadata, load_json. msimpl. rewrite Hm.
  destruct Ht as [-> | ->]; cbn in *; unfold dict_get, json_iter; msimpl;
    rewrite Hmo; cbn; by destruct (find_in_list target items p m).
Qed.




(** *** Updating a record *)

#[local] Arguments DownloadMetadata.asdict : simpl never.
#[local] Arguments DownloadMetadata.setattr : simpl never.
#[local] Arguments DownloadMetadata.of_dict : simpl never.

(** For a key that is none of the special attributes, the assignment of
    [update_metadata] sets the field when the schema has it and otherwise
    leaves the record as it is. *)
Lemma assign_asdict_plain (key : string) (value : json)
    (dm : DownloadMetadata.t) p m :
  key ∉ special_attributes →
  assign_asdict key value dm p m
  = Ok (DownloadMetadata.asdict (set_field key value dm)) p m [].
Proof.
  intros Hkey. unfold assign_asdict, set_field.
  destruct (DownloadMetadata.hasattr key); [done|].
  unfold special_attributes in Hkey.
  repeat (apply not_elem_of_cons in Hkey as [?%String.eqb_neq Hkey]).
  by repeat match goal with
            | H : String.eqb _ _ = false |- _ => rewrite H; clear H
            end.
Qed.

Section Update.

Context (type metadata_file target key : string) (value : json).
Context (Hkey : key ∉ special_attributes).

#[local] Abbreviation hit := (item_named target).
#[local] Abbreviation upd := (updated_item target key value).
#[local] Abbreviation set_field := (set_field key value).

Lemma upd_no_hit (l : list json) :
  existsb hit l = false → upd <$> l = l.
Proof.
  induction l as [|x l IH]; [done|].
  cbn [existsb]. intros [Hx Hl]%orb_false_iff.
  cbn [fmap list_fmap]. fold (fmap upd l). rewrite (IH Hl). f_equal.
  unfold updated_item, item_named in *. destruct (record_of x); [|done].
  by rewrite Hx.
Qed.

(** The loop of [update_metadata] from an index on: [front] are the items
    behind the index, as they are now. *)
Lemma update_metadata_loop_run (rest front : list json) (mo : gmap string json)
    p (m : gmap string node) (c0 : content) :
  type = LoadType.COLLECTION ∨ type = LoadType.ROLE →
  Forall (λ data, is_Some (record_of data)) rest →
  m !! metadata_file = Some (File c0) →
  update_metadata_loop type metadata_file target key value
    (mo, front ++ rest) (length front) rest p m
  = Ok tt p
      (if existsb hit rest
       then <[metadata_file :=
                File (CJson (JObj (<[section_key type :=
                                       JArr (front ++ (upd <$> rest))]> mo)))]> m
       else m) [].
Proof.
  intros Ht. revert front mo m c0.
  induction rest as [|data rest IH]; intros front mo m c0 Hok Hm; [done|].
  apply Forall_cons in Hok as [[dm Hdm] Hok].
  cbn [update_metadata_loop existsb]. unfold update_metadata_step, construct.
  rewrite Hdm, bind_run. cbn [fst snd].
  assert (Hins : <[length front := JObj (DownloadMetadata.asdict (set_field dm))]>
                   (front ++ data :: rest)
                 = (front ++ [JObj (DownloadMetadata.asdict (set_field dm))]) ++ rest).
  { rewrite <- (Nat.add_0_r (length front)), insert_app_r. by rewrite <- app_assoc. }
  assert (Hmeta : (if String.eqb type LoadType.COLLECTION
                   then <["collections" := JArr ((front ++ [JObj (DownloadMetadata.asdict (set_field dm))]) ++ rest)]> mo
                   else if String.eqb type LoadType.ROLE
                        then <["roles" := JArr ((front ++ [JObj (DownloadMetadata.asdict (set_field dm))]) ++ rest)]> mo
                        else mo)
                  = <[section_key type := JArr ((front ++ [JObj (DownloadMetadata.asdict (set_field dm))]) ++ rest)]> mo).
  { by destruct Ht as [-> | ->]. }
  assert (Hhit : hit data = json_eq_str (DownloadMetadata.name dm) target)
    by (unfold item_named; by rewrite Hdm).
  assert (Hupd : upd data
                 = if json_eq_str (DownloadMetadata.name dm) target
                   then JObj (DownloadMetadata.asdict (set_field dm)) else data)
    by (unfold updated_item; by rewrite Hdm).
  rewrite fmap_cons, Hhit, Hupd.
  rewrite (bind_Ok _ _ p m dm p m []) by done.
  destruct (json_eq_str (DownloadMetadata.name dm) target) eqn:Hname.
  - rewrite (bind_Ok _ _ p m _ p m [] (assign_asdict_plain key value dm p m Hkey)).
    cbv zeta. fold (set_field dm). rewrite Hins, Hmeta.
    unfold write_file. msimpl. rewrite Hm.
    set (new := JObj (DownloadMetadata.asdict (set_field dm))).
    set (m1 := <[metadata_file := _]> m).
    specialize (IH (front ++ [new])
                  (<[section_key type := JArr ((front ++ [new]) ++ rest)]> mo)
                  m1 _ Hok (lookup_insert_eq _ _ _)).
    rewrite length_app in IH. cbn [length] in IH.
    rewrite Nat.add_1_r in IH. rewrite IH. cbn [app orb].
    f_equal. destruct (existsb hit rest) eqn:Hrest.
    + unfold m1. rewrite insert_insert_eq, insert_insert_eq.
      by rewrite <- app_assoc.
    + unfold m1. rewrite (upd_no_hit _ Hrest). by rewrite <- app_assoc.
  - specialize (IH (front ++ [data]) mo m c0 Hok Hm).
    rewrite length_app in IH. cbn [length] in IH. rewrite Nat.add_1_r in IH.
    rewrite <- app_assoc in IH. cbn [app] in IH.
    unfold mret, M_ret. cbn [app]. rewrite IH. cbn [app orb].
    f_equal. destruct (existsb hit rest); [|done].
    by rewrite <- app_assoc.
Qed.

Lemma update_metadata_run (mo : gmap string json) (items : list json)
    p (m : gmap string node) :
  type = LoadType.COLLECTION ∨ type = LoadType.ROLE →
  m !! metadata_file = Some (File (CJson (JObj mo))) →
  mo !! section_key type = Some (JArr items) →
  Forall (λ data, is_Some (record_of data)) items →
  update_metadata type metadata_file target key value p m
  = Ok tt p
      (if existsb hit items
       then <[metadata_file :=
                File (CJson (JObj (<[section_key type :=
                                       JArr (upd <$> items)]> mo)))]> m
       else m) [].
Proof.
  intros Ht Hm Hmo Hok. unfold update_metadata, load_json. msimpl. rewrite Hm.
  assert (String.eqb type LoadType.COLLECTION || String.eqb type LoadType.ROLE
          = true) as -> by (by destruct Ht as [-> | ->]).
  unfold dict_get, json_iter. msimpl. rewrite Hmo. msimpl.
  pose proof (update_metadata_loop_run items [] mo p m _ Ht Hok Hm) as H.
  cbn [app length] in H. by rewrite H.
Qed.

Lemma record_of_updated_item (data : json) (dm : DownloadMetadata.t) :
  record_of data = Some dm →
  record_of (upd data)
  = Some (if json_eq_str (DownloadMetadata.name dm) target
          then set_field dm else dm).
Proof.
  intros H. unfold updated_item. rewrite H.
  destruct (json_eq_str _ _); [|done].
  unfold record_of. apply of_dict_asdict.
Qed.

End Update.

(** Where no item stands for a record of the name, the loop assigns nothing
    and writes nothing, whatever the key. *)
Lemma update_metadata_loop_no_hit (type metadata_file target key : string)
    (value : json) (rest : list json) (st : gmap string json * list json)
    (i : nat) p m :
  Forall (λ data, is_Some (record_of data)) rest →
  existsb (item_named target) rest = false →
  update_metadata_loop type metadata_file target key value st i rest p m
  = Ok tt p m [].
Proof.
  revert st i. induction rest as [|data rest IH]; intros st i Hok Hno; [done|].
  apply Forall_cons in Hok as [[dm Hdm] Hok].
  cbn [existsb] in Hno. apply orb_false_iff in Hno as [Hdata Hno].
  unfold item_named in Hdata. rewrite Hdm in Hdata.
  cbn [update_metadata_loop]. unfold update_metadata_step, construct.
  rewrite Hdm, bind_run. rewrite (bind_Ok _ _ p m dm p m []) by done.
  rewrite Hdata. unfold mret, M_ret. cbn [app]. by rewrite IH.
Qed.

Lemma update_metadata_run_no_hit (type metadata_file target key : string)
    (value : json) (mo : gmap string json) (items : list json)
    p (m : gmap string node) :
  type = LoadType.COLLECTION ∨ type = LoadType.ROLE →
  m !! metadata_file = Some (File (CJson (JObj mo))) →
  mo !! section_key type = Some (JArr items) →
  Forall (λ data, is_Some (record_of data)) items →
  existsb (item_named target) items = false →
  update_metadata type metadata_file target key value p m = Ok tt p m [].
Proof.
  intros Ht Hm Hmo Hok Hno. unfold update_metadata, load_json. msimpl. rewrite Hm.
  assert (String.eqb type LoadType.COLLECTION || String.eqb type LoadType.ROLE
          = true) as -> by (by destruct Ht as [-> | ->]).
  unfold dict_get, json_iter. msimpl. rewrite Hmo. msimpl.
  by rewrite (update_metadata_loop_no_hit _ _ _ _ _ _ _ _ p m Hok Hno).
Qed.

(** Scanning stored items finds the first record of the name. *)
Lemma find_in_list_items (target : string) (items : list json)
    (records : list DownloadMetadata.t) p m :
  Forall2 (λ data d, record_of data = Some d) items records →
  find_in_list target items p m
  = Ok (List.find (λ d, json_eq_str (DownloadMetadata.name d) target) records)
      p m [].
Proof.
  induction 1 as [|data d items records Hd _ IH]; [done|].
  cbn [find_in_list List.find]. unfold construct. msimpl. rewrite Hd.
  destruct (json_eq_str (DownloadMetadata.name d) target); [done|].
  by rewrite IH.
Qed.

Lemma existsb_item_named (target : string) (items : list json)
    (records : list DownloadMetadata.t) :
  Forall2 (λ data d, record_of data = Some d) items records →
  existsb (item_named target) items
  = existsb (λ d, json_eq_str (DownloadMetadata.name d) target) records.
Proof.
  induction 1 as [|data d items records Hd _ IH]; [done|].
  cbn [existsb]. rewrite IH. unfold item_named. by rewrite Hd.
Qed.

Lemma find_some_existsb {A} (f : A → bool) (l : list A) (x : A) :
  List.find f l = Some x → existsb f l = true.
Proof.
  induction l as [|y l IH]; [done|]. cbn [List.find existsb].
  destruct (f y); [done|]. exact IH.
Qed.

Lemma find_fmap_stable {A} (f : A → bool) (g : A → A) (l : list A) :
  (∀ x, f (g x) = f x) → List.find f (g <$> l) = g <$> List.find f l.
Proof.
  intros H. induction l as [|y l IH]; [done|].
  cbn [fmap list_fmap List.find]. rewrite H. by destruct (f y).
Qed.

(** The fields of a record one at a time. *)
Lemma getattr_cases (k : string) (d : DownloadMetadata.t) :
  DownloadMetadata.getattr k d =
    if String.eqb k "name" then Some (DownloadMetadata.name d)
    else     if String.eqb k "type" then Some (DownloadMetadata.type d)
    else     if String.eqb k "version" then Some (DownloadMetadata.version d)
    else     if String.eqb k "author" then Some (DownloadMetadata.author d)
    else     if String.eqb k "download_url" then Some (DownloadMetadata.download_url d)
    else     if String.eqb k "download_src_path" then Some (DownloadMetadata.download_src_path d)
    else     if String.eqb k "hash" then Some (DownloadMetadata.hash d)
    else     if String.eqb k "metafile_path" then Some (DownloadMetadata.metafile_path d)
    else     if String.eqb k "files_json_path" then Some (DownloadMetadata.files_json_path d)
    else     if String.eqb k "download_timestamp" then Some (DownloadMetadata.download_timestamp d)
    else     if String.eqb k "cache_enabled" then Some (DownloadMetadata.cache_enabled d)
    else     if String.eqb k "cache_dir" then Some (DownloadMetadata.cache_dir d)
    else     if String.eqb k "source_repository" then Some (DownloadMetadata.source_repository d)
    else     if String.eqb k "requirements_file" then Some (DownloadMetadata.requirements_file d)
    else None.
Proof.
  destruct (decide (k ∈ DownloadMetadata.fields)) as [Hin|Hnin].
  - destruct d. unfold DownloadMetadata.fields in Hin.
    repeat (apply elem_of_cons in Hin as [->|Hin]);
      [vm_compute; reflexivity ..|by apply elem_of_nil in Hin].
  - assert (DownloadMetadata.getattr k d = None) as ->.
    { unfold DownloadMetadata.getattr, DownloadMetadata.asdict.
      apply not_elem_of_list_to_map_1. exact Hnin. }
    unfold DownloadMetadata.fields in Hnin.
    repeat (apply not_elem_of_cons in Hnin as [?%String.eqb_neq Hnin]).
    by repeat match goal with H : String.eqb _ _ = false |- _ => rewrite H; clear H end.
Qed.

Lemma getattr_setattr (key k : string) (value : json) (d : DownloadMetadata.t) :
  DownloadMetadata.getattr k (set_field key value d)
  = if decide (k = key ∧ k ∈ DownloadMetadata.fields) then Some value
    else DownloadMetadata.getattr k d.
Proof.
  unfold set_field, DownloadMetadata.hasattr.
  destruct (bool_decide_reflect (key ∈ DownloadMetadata.fields)) as [Hin|Hnin].
  - rewrite !getattr_cases. destruct d. unfold DownloadMetadata.fields in Hin.
    repeat (apply elem_of_cons in Hin as [->|Hin]);
      [..|by apply elem_of_nil in Hin];
      (set (x := DownloadMetadata.setattr _ _ _); vm_compute in x; subst x;
       cbn;
       repeat match goal with
         | |- context [String.eqb k ?f] =>
             destruct (String.eqb_spec k f) as [->|?]
         end;
       destruct (decide _) as [[? Hf]|Hn]; try done;
       exfalso; apply Hn; split; [done|]; apply list_elem_of_In; simpl; tauto).
  - destruct (decide _) as [[-> ?]|?]; done.
Qed.

Lemma name_set_field (key : string) (value : json) (d : DownloadMetadata.t) :
  key ≠ "name" →
  DownloadMetadata.name (set_field key value d) = DownloadMetadata.name d.
Proof.
  intros Hk.
  pose proof (getattr_setattr key "name" value d) as H.
  rewrite decide_False in H by (intros [? _]; congruence).
  rewrite !getattr_cases in H. cbn in H. congruence.
Qed.

(** C7, as the code has it.  In a metadata file whose section for the type
    holds records, one of them named [n]: after [update_metadata] on [n], a
    key and a value, [find_target_metadata] on [n] returns the record with
    that field set to the value and every other field as before, when the
    key is a field of the schema and not the name; and returns the record as
    it was when the key is no field of the schema.  The key is none of the
    four attributes of every instance whose assignment fails or replaces
    what the record holds ([__class__], [__dict__], [__weakref__],
    [__dataclass_fields__]; see [assign_asdict]). *)
Theorem update_then_find (type metadata_file n key : string) (value : json)
    (mo : gmap string json) (items : list json)
    (records : list DownloadMetadata.t) (r : DownloadMetadata.t)
    (p : DependencyDirPreparator.t) (m : gmap string node) :
  type = LoadType.COLLECTION ∨ type = LoadType.ROLE →
  m !! metadata_file = Some (File (CJson (JObj mo))) →
  mo !! section_key type = Some (JArr items) →
  Forall2 (λ data d, record_of data = Some d) items records →
  List.find (λ d, json_eq_str (DownloadMetadata.name d) n) records = Some r →
  key ≠ "name" →
  key ∉ special_attributes →
  ∃ m1 r',
    update_metadata type metadata_file n key value p m = Ok tt p m1 []
    ∧ find_target_metadata type metadata_file n p m1 = Ok (Some r') p m1 []
    ∧ (key ∈ DownloadMetadata.fields →
       DownloadMetadata.getattr key r' = Some value
       ∧ ∀ k, k ≠ key →
           DownloadMetadata.getattr k r' = DownloadMetadata.getattr k r)
    ∧ (key ∉ DownloadMetadata.fields → r' = r).
Proof.
  intros Ht Hm Hmo Hrec Hfind Hkey Hplain.
  assert (Hok : Forall (λ data, is_Some (record_of data)) items).
  { clear -Hrec. induction Hrec; constructor; eauto. }
  assert (Hhit : existsb (item_named n) items = true).
  { rewrite (existsb_item_named _ _ _ Hrec). by eapply find_some_existsb. }
  eexists _, (set_field key value r). split.
  { rewrite (update_metadata_run type metadata_file n key value Hplain mo items
               p m Ht Hm Hmo Hok), Hhit. reflexivity. }
  split.
  { rewrite (find_target_metadata_section type metadata_file n _ _ p _ Ht
               (lookup_insert_eq _ _ _) (lookup_insert_eq _ _ _)).
    rewrite (find_in_list_items n _
               ((λ d, if json_eq_str (DownloadMetadata.name d) n
                      then set_field key value d else d) <$> records)).
    - rewrite find_fmap_stable, Hfind; cbn [fmap option_fmap option_map].
      + apply find_some in Hfind as [_ ->]. done.
      + intros d. destruct (json_eq_str (DownloadMetadata.name d) n) eqn:Hd;
          [|done]. by rewrite name_set_field.
    - clear -Hrec. induction Hrec as [|data d items records Hd _ IH];
        cbn [fmap list_fmap]; constructor; [|exact IH].
      by apply record_of_updated_item. }
  split.
  - intros Hin. split.
    + rewrite getattr_setattr. by rewrite decide_True.
    + intros k Hk. rewrite getattr_setattr.
      rewrite decide_False; [done|]. by intros [? _].
  - intros Hnin. unfold set_field, DownloadMetadata.hasattr.
    by rewrite bool_decide_eq_false_2.
Qed.

Lemma update_then_find_witness :
  let r := DownloadMetadata.set_name (JStr "x.y") DownloadMetadata.init in
  let mo : gmap string json :=
    {[ "roles" := JArr [JObj {[ "name" := JStr "x.y" ]}] ]} in
  let m : gmap string node :=
    {[ "/a/role/x.y/download_meta.json" := File (CJson (JObj mo)) ]} in
  let p := DependencyDirPreparator.make "/r" "" "project" "proj" "" "" "" ∅
             DownloadMetadata.init "" "" false false None [] in
  ∃ m1 r',
    update_metadata LoadType.ROLE "/a/role/x.y/download_meta.json" "x.y"
      "author" (JStr "someone") p m = Ok tt p m1 []
    ∧ find_target_metadata LoadType.ROLE "/a/role/x.y/download_meta.json"
        "x.y" p m1 = Ok (Some r') p m1 []
    ∧ ("author" ∈ DownloadMetadata.fields →
       DownloadMetadata.getattr "author" r' = Some (JStr "someone")
       ∧ ∀ k, k ≠ "author" →
           DownloadMetadata.getattr k r' = DownloadMetadata.getattr k r)
    ∧ ("author" ∉ DownloadMetadata.fields → r' = r).
Proof.
  intros r mo m p.
  apply (update_then_find LoadType.ROLE "/a/role/x.y/download_meta.json" "x.y"
           "author" (JStr "someone") mo [JObj {[ "name" := JStr "x.y" ]}]
           [r] r p m).
  - by right.
  - vm_compute. reflexivity.
  - vm_compute. reflexivity.
  - repeat constructor.
  - reflexivity.
  - discriminate.
  - intros H. repeat (apply elem_of_cons in H as [H|H]; [discriminate H|]).
    by apply elem_of_nil in H.
Defined.

(** The claim fails for the name itself: once the record named [a.b] is
    renamed, the lookup of [a.b] finds nothing. *)
Lemma update_name_then_find_misses :
  let mo : gmap string json :=
    {[ "collections" := JArr [JObj {[ "name" := JStr "a.b" ]}] ]} in
  let m : gmap string node :=
    {[ "/c/download_meta.json" := File (CJson (JObj mo)) ]} in
  let p := DependencyDirPreparator.make "/r" "" "project" "proj" "" "" "" ∅
             DownloadMetadata.init "" "" false false None [] in
  "name" ∈ DownloadMetadata.fields
  ∧ find_target_metadata LoadType.COLLECTION "/c/download_meta.json" "a.b" p m
    = Ok (Some (DownloadMetadata.set_name (JStr "a.b") DownloadMetadata.init))
        p m []
  ∧ ∃ m1,
      update_metadata LoadType.COLLECTION "/c/download_meta.json" "a.b"
        "name" (JStr "c.d") p m = Ok tt p m1 []
      ∧ find_target_metadata LoadType.COLLECTION "/c/download_meta.json" "a.b"
          p m1 = Ok None p m1 [].
Proof.
  intros mo m p. split; [by left|]. split; [vm_compute; reflexivity|].
  eexists. split; vm_compute; reflexivity.
Qed.

(** Two of the special attributes at work on the record named [a.b]:
    [__class__] takes no value that a metadata file can hold, so the update
    raises and writes nothing; a mapping assigned to [__dict__] replaces
    what the record holds, here its name. *)
Example update_special_attributes :
  let mo : gmap string json :=
    {[ "collections" := JArr [JObj {[ "name" := JStr "a.b" ]}] ]} in
  let m : gmap string node :=
    {[ "/c/download_meta.json" := File (CJson (JObj mo)) ]} in
  let p := DependencyDirPreparator.make "/r" "" "project" "proj" "" "" "" ∅
             DownloadMetadata.init "" "" false false None [] in
  update_metadata LoadType.COLLECTION "/c/download_meta.json" "a.b"
    "__class__" (JStr "x") p m = Raise TypeError p m []
  ∧ ∃ m1,
      update_metadata LoadType.COLLECTION "/c/download_meta.json" "a.b"
        "__dict__" (JObj {[ "name" := JStr "zzz" ]}) p m = Ok tt p m1 []
      ∧ find_target_metadata LoadType.COLLECTION "/c/download_meta.json" "a.b"
          p m1 = Ok None p m1 []
      ∧ find_target_metadata LoadType.COLLECTION "/c/download_meta.json" "zzz"
          p m1
        = Ok (Some (DownloadMetadata.set_name (JStr "zzz") DownloadMetadata.init))
            p m1 [].
Proof.
  intros mo m p. split; [vm_compute; reflexivity|].
  eexists. split; [vm_compute; reflexivity|]. split; vm_compute; reflexivity.
Qed.
(** ** The role log *)






(** ** The collection log *)

Lemma collection_record_missing (E : Env) (download_location url coll : string) p m :
  Py.split "-" url !! 1 = Some coll →
  path_exists m (download_location +:+ "/" +:+ Py.last_item (Py.split "/" url))
  = false →
  collection_record E download_location url p m
  = Raise (FileNotFoundError
             (download_location +:+ "/" +:+ Py.last_item (Py.split "/" url)))
      p m [Warning ("failed to get metadata for " +:+ url)].
Proof.
  intros Hcoll Hex.
  unfold collection_record, second_item, os_path_exists, getmtime_iso,
    logging_warning.
  msimpl. rewrite Hcoll. msimpl. rewrite Hex. msimpl. by rewrite Hex.
Qed.

(** C9.  When the first match of the log that ends in [tar.gz] names an
    archive that is not under the download directory, the parser logs the
    warning, looks the modification time up all the same, and the whole
    parse ends in the exception of that lookup: no record is returned,
    whatever the matches after it. *)
Theorem missing_archive_aborts_parse (E : Env)
    (log_message download_location : string) (pre post : list string)
    (url coll : string) (p : DependencyDirPreparator.t) (m : gmap string node) :
  Py.findall_downloading log_message = pre ++ url :: post →
  Forall (λ x, Py.endswith x "tar.gz" = false) pre →
  Py.endswith url "tar.gz" = true →
  Py.split "-" url !! 1 = Some coll →
  path_exists m (download_location +:+ "/" +:+ Py.last_item (Py.split "/" url))
  = false →
  extract_collections_metadata E log_message download_location p m
  = Raise (FileNotFoundError
             (download_location +:+ "/" +:+ Py.last_item (Py.split "/" url)))
      p m [Warning ("failed to get metadata for " +:+ url)].
Proof.
  intros Hlog Hpre Hurl Hcoll Hex. unfold extract_collections_metadata.
  rewrite Hlog. clear Hlog. apply bind_Raise.
  generalize (@nil json).
  induction Hpre as [|x pre Hx _ IH]; intros acc.
  - cbn [app for_fold]. apply bind_Raise. unfold collections_step.
    rewrite Hurl. apply bind_Raise. by eapply collection_record_missing.
  - cbn [app for_fold].
    assert (Hstep : collections_step E download_location acc x p m
                    = Ok acc p m []) by (unfold collections_step; by rewrite Hx).
    rewrite (bind_Ok _ _ _ _ _ _ _ _ Hstep), (IH acc). done.
Qed.

Lemma missing_archive_aborts_parse_witness :
  let log :=
    "Downloading https://example/download/ansible-posix-1.4.0.tar.gz to /tmp/x"
    +:+ String "010"
      "Downloading https://example/download/community-general-5.0.0.tar.gz to /tmp/x" in
  let m : gmap string node :=
    {[ "/tmp/x" := Dir;
       "/tmp/x/community-general-5.0.0.tar.gz" := File (CTar []) ]} in
  extract_collections_metadata idle_env log "/tmp/x" sample_preparator m
  = Raise (FileNotFoundError "/tmp/x/ansible-posix-1.4.0.tar.gz")
      sample_preparator m
      [Warning "failed to get metadata for https://example/download/ansible-posix-1.4.0.tar.gz"].
Proof.
  intros log m.
  apply (missing_archive_aborts_parse idle_env log "/tmp/x" []
           ["https://example/download/community-general-5.0.0.tar.gz"]
           "https://example/download/ansible-posix-1.4.0.tar.gz" "posix").
  - vm_compute. reflexivity.
  - constructor.
  - vm_compute. reflexivity.
  - vm_compute. reflexivity.
  - vm_compute. reflexivity.
Defined.

(** The line of the specification gives the name [ansible.posix] and the
    version [1.4.0]. *)
Lemma extract_collections_metadata_example :
  ∃ d m' t,
    extract_collections_metadata idle_env
      "Downloading https://example/download/ansible-posix-1.4.0.tar.gz to /tmp/x"
      "/tmp/x" sample_preparator sample_download_dir
    = Ok (JObj {[ "collections" := JArr [JObj (DownloadMetadata.asdict d)] ]})
        sample_preparator m' t
    ∧ DownloadMetadata.name d = JStr "ansible.posix"
    ∧ DownloadMetadata.version d = JStr "1.4.0"
    ∧ DownloadMetadata.download_src_path d
      = JStr "/tmp/x/ansible-posix-1.4.0.tar.gz".
Proof.
  eexists (DownloadMetadata.make _ _ _ _ _ _ _ _ _ _ _ _ _ _), _, _.
  split; [vm_compute; reflexivity|]. done.
Qed.

(** C4 at an input the code gets wrong.  The name is put together from the
    first two hyphen-separated pieces of the whole URL, so a hyphen before
    the file name (here in the host) ends up in the name: the archive
    [ansible-posix-1.4.0.tar.gz] is recorded under
    [my.hub.example/download/ansible] and not under [ansible.posix]. *)
Theorem collection_name_from_hyphenated_url :
  ∃ d m' t,
    extract_collections_metadata idle_env
      "Downloading https://my-hub.example/download/ansible-posix-1.4.0.tar.gz to /tmp/x"
      "/tmp/x" sample_preparator sample_download_dir
    = Ok (JObj {[ "collections" := JArr [JObj (DownloadMetadata.asdict d)] ]})
        sample_preparator m' t
    ∧ DownloadMetadata.name d = JStr "my.hub.example/download/ansible"
    ∧ DownloadMetadata.name d ≠ JStr "ansible.posix"
    ∧ DownloadMetadata.version d = JStr "1.4.0".
Proof.
  eexists (DownloadMetadata.make _ _ _ _ _ _ _ _ _ _ _ _ _ _), _, _.
  split; [vm_compute; reflexivity|]. done.
Qed.

(** ** Method bodies that leave the object alone *)

Lemma keeps_ret {A} (a : A) : keeps_self (mret a).
Proof. by intros p m. Qed.

Lemma keeps_raise {A} (e : exn) : keeps_self (@raise A e).
Proof. by intros p m. Qed.

Lemma keeps_bind {A B} (c : M A) (f : A → M B) :
  keeps_self c → (∀ a, keeps_self (f a)) → keeps_self (c ≫= f).
Proof.
  intros Hc Hf p m. rewrite bind_run. specialize (Hc p m).
  destruct (c p m) as [a p1 m1 t1|]; [|done]. subst p1.
  specialize (Hf a p m1). by destruct (f a p m1).
Qed.

Lemma keeps_get_fs : keeps_self get_fs.
Proof. by intros p m. Qed.

Lemma keeps_put_fs m' : keeps_self (put_fs m').
Proof. by intros p m. Qed.

Lemma keeps_emit e : keeps_self (emit e).
Proof. by intros p m. Qed.

Lemma keeps_self_get {A} (f : DependencyDirPreparator.t → A) :
  keeps_self (self_get f).
Proof. by intros p m. Qed.

Lemma keeps_when b (c : M unit) : keeps_self c → keeps_self (when b c).
Proof. intros Hc. destruct b; [done|]. apply keeps_ret. Qed.

Lemma keeps_for_fold {A B} (body : B → A → M B) (b : B) (l : list A) :
  (∀ b x, keeps_self (body b x)) → keeps_self (for_fold body b l).
Proof.
  intros Hb. revert b. induction l as [|x l IH]; intros b.
  - apply keeps_ret.
  - cbn [for_fold]. apply keeps_bind; [apply Hb | intros b'; apply IH].
Qed.

Create HintDb keeps discriminated.

#[local] Hint Resolve keeps_ret keeps_raise keeps_get_fs keeps_put_fs keeps_emit
  keeps_self_get keeps_when keeps_for_fold : keeps.

(** Following the shape of a method body. *)
Ltac keeps_step :=
  match goal with
  | |- keeps_self (mbind _ _) => apply keeps_bind; [|intros ?]
  | |- keeps_self (if ?b then _ else _) => destruct b
  | |- keeps_self (match ?x with _ => _ end) => destruct x
  | |- keeps_self (when _ _) => apply keeps_when
  | |- keeps_self (for_fold _ _ _) => apply keeps_for_fold; intros ? ?
  | |- keeps_self _ => solve [auto with keeps]
  end.

Ltac keeps := repeat keeps_step.

Lemma keeps_logging_warning msg : keeps_self (logging_warning msg).
Proof. unfold logging_warning. keeps. Qed.
#[local] Hint Resolve keeps_logging_warning : keeps.

Lemma keeps_os_path_exists x : keeps_self (os_path_exists x).
Proof. unfold os_path_exists. keeps. Qed.
#[local] Hint Resolve keeps_os_path_exists : keeps.

Lemma keeps_os_path_isdir x : keeps_self (os_path_isdir x).
Proof. unfold os_path_isdir. keeps. Qed.
#[local] Hint Resolve keeps_os_path_isdir : keeps.

Lemma keeps_os_makedirs x : keeps_self (os_makedirs x).
Proof. unfold os_makedirs. keeps. Qed.
#[local] Hint Resolve keeps_os_makedirs : keeps.

Lemma keeps_makedirs_if_missing x : keeps_self (makedirs_if_missing x).
Proof. unfold makedirs_if_missing. keeps. Qed.
#[local] Hint Resolve keeps_makedirs_if_missing : keeps.

Lemma keeps_os_listdir x : keeps_self (os_listdir x).
Proof. unfold os_listdir. keeps. Qed.
#[local] Hint Resolve keeps_os_listdir : keeps.

Lemma keeps_glob_download_metadata x : keeps_self (glob_download_metadata x).
Proof. unfold glob_download_metadata. keeps. Qed.
#[local] Hint Resolve keeps_glob_download_metadata : keeps.

Lemma keeps_load_json x : keeps_self (load_json x).
Proof. unfold load_json. keeps. Qed.
#[local] Hint Resolve keeps_load_json : keeps.

Lemma keeps_write_file x c : keeps_self (write_file x c).
Proof. unfold write_file. keeps. Qed.
#[local] Hint Resolve keeps_write_file : keeps.

Lemma keeps_getmtime_iso E x : keeps_self (getmtime_iso E x).
Proof. unfold getmtime_iso. keeps. Qed.
#[local] Hint Resolve keeps_getmtime_iso : keeps.

Lemma keeps_run E c : keeps_self (run E c).
Proof. unfold run. keeps. Qed.
#[local] Hint Resolve keeps_run : keeps.

Lemma keeps_hash_of_url E u : keeps_self (hash_of_url E u).
Proof. unfold hash_of_url. keeps. Qed.
#[local] Hint Resolve keeps_hash_of_url : keeps.

Lemma keeps_json_iter j : keeps_self (json_iter j).
Proof. unfold json_iter. keeps. Qed.
#[local] Hint Resolve keeps_json_iter : keeps.

Lemma keeps_dict_get j k d : keeps_self (dict_get j k d).
Proof. unfold dict_get. keeps. Qed.
#[local] Hint Resolve keeps_dict_get : keeps.

Lemma keeps_construct j : keeps_self (construct j).
Proof. unfold construct. keeps. Qed.
#[local] Hint Resolve keeps_construct : keeps.

Lemma keeps_as_str j : keeps_self (as_str j).
Proof. unfold as_str. keeps. Qed.
#[local] Hint Resolve keeps_as_str : keeps.

Lemma keeps_find_in_list target l : keeps_self (find_in_list target l).
Proof.
  induction l as [|x l IH]; cbn [find_in_list]; keeps.
Qed.
#[local] Hint Resolve keeps_find_in_list : keeps.

Lemma keeps_find_target_metadata ty f target :
  keeps_self (find_target_metadata ty f target).
Proof. unfold find_target_metadata. keeps. Qed.
#[local] Hint Resolve keeps_find_target_metadata : keeps.

Lemma keeps_export_data d dir f : keeps_self (export_data d dir f).
Proof. unfold export_data. keeps. Qed.
#[local] Hint Resolve keeps_export_data : keeps.

Lemma keeps_move_src E src dst : keeps_self (move_src E src dst).
Proof. unfold move_src. keeps. Qed.
#[local] Hint Resolve keeps_move_src : keeps.

Lemma keeps_tar_members f : keeps_self (tar_members f).
Proof. unfold tar_members. keeps. Qed.
#[local] Hint Resolve keeps_tar_members : keeps.

Lemma keeps_extract_member dst f : keeps_self (extract_member dst f).
Proof. unfold extract_member. keeps. Qed.
#[local] Hint Resolve keeps_extract_member : keeps.

Lemma keeps_get_metafile_in_target E ty f :
  keeps_self (get_metafile_in_target E ty f).
Proof. unfold get_metafile_in_target. keeps. Qed.
#[local] Hint Resolve keeps_get_metafile_in_target : keeps.

Lemma keeps_join_authors j : keeps_self (join_authors j).
Proof. unfold join_authors. keeps. Qed.
#[local] Hint Resolve keeps_join_authors : keeps.

Lemma keeps_get_author ty f : keeps_self (get_author ty f).
Proof. unfold get_author. keeps. Qed.
#[local] Hint Resolve keeps_get_author : keeps.

Lemma keeps_second_item l : keeps_self (second_item l).
Proof. unfold second_item. keeps. Qed.
#[local] Hint Resolve keeps_second_item : keeps.

Lemma keeps_collection_record E dl url : keeps_self (collection_record E dl url).
Proof. unfold collection_record. keeps. Qed.
#[local] Hint Resolve keeps_collection_record : keeps.

Lemma keeps_extract_collections_metadata E log dl :
  keeps_self (extract_collections_metadata E log dl).
Proof. unfold extract_collections_metadata, collections_step. keeps. Qed.
#[local] Hint Resolve keeps_extract_collections_metadata : keeps.

Lemma keeps_next_line l : keeps_self (next_line l).
Proof. unfold next_line. keeps. Qed.
#[local] Hint Resolve keeps_next_line : keeps.

Lemma keeps_role_record E line rest : keeps_self (role_record E line rest).
Proof. unfold role_record. keeps. Qed.
#[local] Hint Resolve keeps_role_record : keeps.

Lemma keeps_roles_loop E acc l : keeps_self (roles_loop E acc l).
Proof.
  revert acc. induction l as [|x l IH]; intros acc; cbn [roles_loop]; keeps.
Qed.
#[local] Hint Resolve keeps_roles_loop : keeps.

Lemma keeps_extract_roles_metadata E log :
  keeps_self (extract_roles_metadata E log).
Proof. unfold extract_roles_metadata. keeps. Qed.
#[local] Hint Resolve keeps_extract_roles_metadata : keeps.

Lemma keeps_download_galaxy_collection E a b c d :
  keeps_self (download_galaxy_collection E a b c d).
Proof. unfold download_galaxy_collection. keeps. Qed.
#[local] Hint Resolve keeps_download_galaxy_collection : keeps.

Lemma keeps_install_galaxy_collection_from_targz E a b :
  keeps_self (install_galaxy_collection_from_targz E a b).
Proof. unfold install_galaxy_collection_from_targz. keeps. Qed.
#[local] Hint Resolve keeps_install_galaxy_collection_from_targz : keeps.

Lemma keeps_install_galaxy_collection_from_reqfile E a b :
  keeps_self (install_galaxy_collection_from_reqfile E a b).
Proof. unfold install_galaxy_collection_from_reqfile. keeps. Qed.
#[local] Hint Resolve keeps_install_galaxy_collection_from_reqfile : keeps.

Lemma keeps_galaxy_target_install E a b c d v :
  keeps_self (galaxy_target_install E a b c d v).
Proof. unfold galaxy_target_install. keeps. Qed.
#[local] Hint Resolve keeps_galaxy_target_install : keeps.

Lemma keeps_is_download_file_exist ty target dir :
  keeps_self (is_download_file_exist ty target dir).
Proof. unfold is_download_file_exist. keeps. Qed.
#[local] Hint Resolve keeps_is_download_file_exist : keeps.

Lemma keeps_collection_dir sub name : keeps_self (collection_dir sub name).
Proof. unfold collection_dir. keeps. Qed.
#[local] Hint Resolve keeps_collection_dir : keeps.

(** ** Collection names without a dot *)

Lemma nr_raise {A} (e : exn) : never_returns (@raise A e).
Proof. intros p m. by exists e, m, []. Qed.

Lemma nr_bind_l {A B} (c : M A) (f : A → M B) :
  never_returns c → never_returns (c ≫= f).
Proof.
  intros Hc p m. destruct (Hc p m) as (e & m' & t & H).
  exists e, m', t. by apply bind_Raise.
Qed.

Lemma nr_bind_r {A B} (c : M A) (f : A → M B) :
  keeps_self c → (∀ a, never_returns (f a)) → never_returns (c ≫= f).
Proof.
  intros Hc Hf p m. rewrite bind_run. specialize (Hc p m).
  destruct (c p m) as [a p1 m1 t1|e p1 m1 t1]; subst p1.
  - destruct (Hf a p m1) as (e & m' & t & ->). by exists e, m', (t1 ++ t).
  - by exists e, m1, t1.
Qed.

Lemma split_no_sep (sep : ascii) (s : string) :
  Py.contains (String sep "") s = false → Py.split sep s = [s].
Proof.
  induction s as [|c s IH]; [done|].
  cbn [Py.contains Py.split]. intros [Hp Hs]%orb_false_iff.
  destruct (Ascii.eqb_spec c sep) as [->|Hne].
  - simpl in Hp. destruct (ascii_dec sep sep); [|done]. by destruct s.
  - by rewrite (IH Hs).
Qed.

Lemma collection_dir_no_dot (sub col_name : string) p m :
  Py.contains "." col_name = false →
  collection_dir sub col_name p m = Raise IndexError p m [].
Proof.
  intros H. unfold collection_dir, second_item.
  by rewrite (split_no_sep "." col_name H).
Qed.

Lemma nr_collection_dir {B} (sub col_name : string) (f : string → M B) :
  Py.contains "." col_name = false →
  never_returns (collection_dir sub col_name ≫= f).
Proof.
  intros H. apply nr_bind_l. intros p m. exists IndexError, m, [].
  by apply collection_dir_no_dot.
Qed.

(** Walking a method body that cannot get past [collection_dir]. *)
Ltac nr_step :=
  match goal with
  | |- never_returns (raise _) => apply nr_raise
  | |- never_returns (collection_dir _ _ ≫= _) =>
      apply nr_collection_dir; assumption
  | |- never_returns (mbind _ _) => apply nr_bind_r; [solve [keeps]|intros ?]
  | |- never_returns (if ?b then _ else _) => destruct b
  | |- never_returns (match ?x with _ => _ end) => destruct x
  end.

Lemma nr_prepare_collection_dependency (E : Env) (deps : Dependencies)
    (cache_enabled : bool) (cache_dir : string) (cdep : dep_item) :
  Py.contains "." (col_name_of cdep) = false →
  cache_enabled = true ∨ paths_collections deps !! col_name_of cdep = None →
  never_returns
    (prepare_collection_dependency E deps cache_enabled cache_dir cdep).
Proof.
  intros Hdot Hbranch. unfold prepare_collection_dependency. cbv zeta.
  destruct cache_enabled.
  - repeat nr_step.
  - destruct Hbranch as [? | ->]; [done|]. repeat nr_step.
Qed.

Lemma for_each_aborts {A} (body : A → M unit) (l : list A) (x : A) :
  x ∈ l → never_returns (body x) →
  ∀ p m, ∃ e p' m' t, for_each body l p m = Raise e p' m' t.
Proof.
  intros Hin Hx. unfold for_each.
  induction l as [|y l IH]; intros p m; [by apply elem_of_nil in Hin|].
  cbn [for_fold]. rewrite bind_run.
  destruct (body y p m) as [u p1 m1 t1|e p1 m1 t1] eqn:Hy; [|eauto].
  destruct u. apply elem_of_cons in Hin as [->|Hin].
  - destruct (Hx p m) as (e & m' & t & He). congruence.
  - destruct (IH Hin p1 m1) as (e & p' & m' & t & ->). eauto.
Qed.

(** *** The loop body, cut before the directory is computed *)

Lemma bind_assoc_run {A B C} (c : M A) (f : A → M B) (g : B → M C) p m :
  ((c ≫= f) ≫= g) p m = (c ≫= (λ a, f a ≫= g)) p m.
Proof.
  rewrite !bind_run. destruct (c p m) as [a p1 m1 t1|]; [|done].
  rewrite !bind_run. destruct (f a p1 m1) as [b p2 m2 t2|]; [|done].
  destruct (g b p2 m2); by rewrite app_assoc.
Qed.

Lemma bind_ext_run {A B} (c : M A) (f g : A → M B) p m :
  (∀ a p1 m1, f a p1 m1 = g a p1 m1) → (c ≫= f) p m = (c ≫= g) p m.
Proof.
  intros H. rewrite !bind_run. destruct (c p m) as [a p1 m1 t1|]; [|done].
  by rewrite H.
Qed.

Lemma ret_bind_run {A B} (a : A) (f : A → M B) p m :
  (mret a ≫= f) p m = f a p m.
Proof. rewrite bind_run. unfold mret, M_ret. by destruct (f a p m). Qed.

(** One statement of the body, the same on both sides. *)
Ltac front_step :=
  lazymatch goal with
  | |- _ = ((?c ≫= ?f) ≫= ?g) ?p ?m =>
      rewrite (bind_assoc_run c f g p m); apply bind_ext_run; intros ? ? ?;
      try match goal with x : (_ * _)%type |- _ => destruct x end;
      cbv beta iota
  end.

(** With the cache enabled, the step is its front part followed by the
    computation of the directory and the listing of the descriptor. *)
Lemma cached_collection_step (E : Env) (deps : Dependencies)
    (cache_dir : string) (cdep : dep_item) p m :
  prepare_collection_dependency E deps true cache_dir cdep p m
  = (cached_collection_front E cache_dir cdep ≫= λ '(sub, metadata),
       dir ← collection_dir sub (col_name_of cdep);
       append_dependency (Dependency.make dir (col_name_of cdep) metadata)) p m.
Proof.
  unfold prepare_collection_dependency, cached_collection_front. cbv zeta.
  repeat front_step.
  destruct o as [md|]; [by rewrite ret_bind_run | done].
Qed.

Lemma downloaded_collection_step (E : Env) (deps : Dependencies)
    (cache_dir : string) (cdep : dep_item) p m :
  paths_collections deps !! col_name_of cdep = None →
  prepare_collection_dependency E deps false cache_dir cdep p m
  = (downloaded_collection_front E false cdep ≫= λ '(sub, metadata),
       dir ← collection_dir sub (col_name_of cdep);
       append_dependency (Dependency.make dir (col_name_of cdep) metadata)) p m.
Proof.
  intros Hnone. unfold prepare_collection_dependency, downloaded_collection_front.
  cbv zeta. rewrite Hnone.
  repeat front_step.
  by rewrite ret_bind_run.
Qed.

(** What a step cut in this way does for a name without a dot: it raises
    what the front part raises, and [IndexError] when that returns. *)
Lemma front_then_no_dot {A} (front : M (string * DownloadMetadata.t))
    (col_name : string) (f : string → DownloadMetadata.t → string → M A) p m :
  Py.contains "." col_name = false →
  (front ≫= λ '(sub, metadata),
     dir ← collection_dir sub col_name; f sub metadata dir) p m
  = match front p m with
    | Ok _ p1 m1 t => Raise IndexError p1 m1 t
    | Raise e p1 m1 t => Raise e p1 m1 t
    end.
Proof.
  intros Hdot. rewrite bind_run.
  destruct (front p m) as [[sub metadata] p1 m1 t|]; [|done].
  rewrite (bind_Raise _ _ _ _ _ _ _ _ (collection_dir_no_dot sub col_name p1 m1 Hdot)).
  by rewrite app_nil_r.
Qed.

(** C10, as the code has it.  For a collection dependency whose name has no
    dot, handled in the cache-enabled branch or (no directory being mapped
    to the name) in the download branch: the dependency step raises,
    whatever the file system and the environment, and leaves the list of
    descriptors as it was, and a run over dependencies that include it
    raises.  The exception is the [IndexError] of the indexing exactly when
    the statements before it return; when one of them raises, the step
    raises that exception and the name is never split. *)
Theorem dotless_collection_aborts (E : Env) (deps : Dependencies)
    (cache_enabled : bool) (cache_dir : string) (cdep : dep_item) :
  Py.contains "." (col_name_of cdep) = false →
  cache_enabled = true ∨ paths_collections deps !! col_name_of cdep = None →
  (∀ sub p m,
     collection_dir sub (col_name_of cdep) p m = Raise IndexError p m [])
  ∧ (∀ p m, ∃ e m' t,
       prepare_collection_dependency E deps cache_enabled cache_dir cdep p m
       = Raise e p m' t)
  ∧ (cache_enabled = true →
     ∀ p m,
       prepare_collection_dependency E deps cache_enabled cache_dir cdep p m
       = match cached_collection_front E cache_dir cdep p m with
         | Ok _ p1 m1 t => Raise IndexError p1 m1 t
         | Raise e p1 m1 t => Raise e p1 m1 t
         end)
  ∧ (cache_enabled = false →
     ∀ p m,
       prepare_collection_dependency E deps cache_enabled cache_dir cdep p m
       = match downloaded_collection_front E cache_enabled cdep p m with
         | Ok _ p1 m1 t => Raise IndexError p1 m1 t
         | Raise e p1 m1 t => Raise e p1 m1 t
         end)
  ∧ (cdep ∈ dependencies_collections deps →
     (∀ p m, ∃ e p' m' t,
        prepare_dependency_dir E deps cache_enabled cache_dir p m
        = Raise e p' m' t)
     ∧ ((∀ ty path dir m', find_dependency E ty path dir m' = deps) →
        ∀ root_install is_src_installed p m, ∃ e p' m' t,
          prepare_dir E root_install is_src_installed cache_enabled cache_dir
            p m = Raise e p' m' t)).
Proof.
  intros Hdot Hbranch.
  pose proof (nr_prepare_collection_dependency E deps cache_enabled cache_dir
                cdep Hdot Hbranch) as Hnr.
  split; [intros; by apply collection_dir_no_dot|].
  split; [exact Hnr|].
  split.
  { intros -> p m. rewrite cached_collection_step.
    by apply (front_then_no_dot _ _ (λ _ metadata dir,
                append_dependency (Dependency.make dir (col_name_of cdep) metadata))). }
  split.
  { intros -> p m. destruct Hbranch as [?|Hnone]; [done|].
    rewrite (downloaded_collection_step E deps cache_dir cdep p m Hnone).
    by apply (front_then_no_dot _ _ (λ _ metadata dir,
                append_dependency (Dependency.make dir (col_name_of cdep) metadata))). }
  intros Hin.
  assert (Hrun : ∀ p m, ∃ e p' m' t,
            prepare_dependency_dir E deps cache_enabled cache_dir p m
            = Raise e p' m' t).
  { intros p m. unfold prepare_dependency_dir.
    destruct (for_each_aborts _ _ _ Hin Hnr p m) as (e & p' & m' & t & H).
    exists e, p', m', t. by apply bind_Raise. }
  split; [exact Hrun|].
  intros Hfind root_install is_src_installed p m.
  unfold prepare_dir. rewrite bind_run.
  destruct (setup_dirs cache_enabled cache_dir p m) as [u1 p1 m1 t1|]; [|eauto].
  rewrite bind_run.
  destruct (prepare_root_dir E root_install is_src_installed p1 m1)
    as [u2 p2 m2 t2|]; [|eauto].
  msimpl. rewrite Hfind.
  destruct (Hrun p2 m2) as (e & p' & m' & t & ->). eauto.
Qed.

(** A cache that holds a record named [posix]: the archive is installed and
    then the indexing fails. *)
Lemma dotless_collection_aborts_witness :
  let deps := {| dependencies_collections := [DepName "posix"];
                 dependencies_roles := [];
                 paths_collections := ∅; paths_roles := ∅;
                 metadata_collections := ∅ |} in
  let m : gmap string node :=
    {[ "/r" := Dir; "/cache" := Dir; "/cache/collection" := Dir;
       "/cache/collection/posix" := Dir;
       "/cache/collection/posix/posix-1.0.0.tar.gz" := File (CTar []);
       "/cache/collection/posix/download_meta.json" :=
         File (CJson (JObj {[ "collections" :=
           JArr [JObj {[ "name" := JStr "posix";
                         "download_src_path" :=
                           JStr "/cache/collection/posix/posix-1.0.0.tar.gz" ]}] ]})) ]} in
  ∃ m',
    prepare_collection_dependency idle_env deps true "/cache" (DepName "posix")
      sample_preparator m
    = Raise IndexError sample_preparator m'
        [Run (CollectionInstall
                (JStr "/cache/collection/posix/posix-1.0.0.tar.gz")
                "/r/collections/src")].
Proof.
  intros deps m.
  destruct (dotless_collection_aborts idle_env deps true "/cache"
              (DepName "posix")) as (_ & _ & Hcached & _);
    [reflexivity | by left |].
  eexists. rewrite (Hcached eq_refl). vm_compute. reflexivity.
Defined.

(** C10 fails as it is worded: a name without a dot does not always get as
    far as the indexing.  With the cache enabled and nothing in the cache,
    the download of [posix] leaves no record, and the step raises
    [AttributeError] where the archive is assigned to the metadata it did
    not find, one statement before the name is split. *)
Lemma dotless_collection_attribute_error :
  let deps := {| dependencies_collections := [DepName "posix"];
                 dependencies_roles := [];
                 paths_collections := ∅; paths_roles := ∅;
                 metadata_collections := ∅ |} in
  Py.contains "." "posix" = false
  ∧ ∃ m',
      prepare_collection_dependency idle_env deps true "/cache" (DepName "posix")
        sample_preparator {[ "/r" := Dir; "/cache" := Dir ]}
      = Raise AttributeError sample_preparator m'
          [Run (CollectionDownload "posix" "" "/cache/collection/posix");
           Run (CollectionInstall (JStr "") "/r/collections/src")].
Proof.
  intros deps. split; [reflexivity|]. eexists. vm_compute. reflexivity.
Qed.

(** ** Dependencies with a mapped directory *)

Lemma makedirs_if_missing_ok (x : string) p (m : gmap string node) :
  can_makedirs m x = true →
  makedirs_if_missing x p m = Ok tt p (with_dirs m x) [].
Proof.
  unfold can_makedirs, with_dirs, makedirs_if_missing, os_path_exists,
    os_makedirs.
  msimpl. destruct (path_exists m x) eqn:Hex; msimpl; [done|].
  intros [Hne Hanc]%andb_true_iff. rewrite Hex.
  destruct (String.eqb x ""); [done|].
  assert (List.find (path_isfile m) (ancestors x) = None) as ->; [|done].
  apply find_all_false. intros a Ha.
  rewrite forallb_forall in Hanc. apply list_elem_of_In in Ha.
  by apply negb_true_iff, Hanc.
Qed.




(** ** Cache hits *)

(** C1 at an input the code gets wrong.  The cache directory of the role
    [x.y] holds the metadata record of [x.y].  With the cache enabled
    nothing is fetched, but the record looked up is the one named like the
    root target ([proj]), so the descriptor keeps the default metadata and
    not the cached record; and the one command that runs copies from the
    dependency's directory into the cache, not from the recorded path. *)
Theorem role_cache_hit_ignores_record :
  find_target_metadata LoadType.ROLE "/cache/roles/src/x.y/download_meta.json"
    "x.y" sample_preparator sample_role_cache
  = Ok (Some sample_role_record) sample_preparator sample_role_cache []
  ∧ ∃ d m',
      prepare_role_dependency idle_env sample_role_dependencies true "/cache"
        (DepName "x.y") sample_preparator sample_role_cache
      = Ok tt (with_dependency d sample_preparator) m'
          [Run (CopyTree "/r/roles/src/x.y" "/cache/roles/src/x.y")]
      ∧ Dependency.name d = "x.y"
      ∧ DownloadMetadata.version (Dependency.metadata d) = JStr ""
      ∧ DownloadMetadata.download_src_path (Dependency.metadata d) = JStr ""
      ∧ DownloadMetadata.version sample_role_record = JStr "1.0.3".
Proof.
  split; [vm_compute; reflexivity|].
  eexists (Dependency.make _ _ (DownloadMetadata.make _ _ _ _ _ _ _ _ _ _ _ _ _ _)), _.
  split; [vm_compute; reflexivity|]. done.
Qed.

(** ** Method bodies that only append descriptors *)

Lemma strip_strip p : strip (strip p) = strip p.
Proof. by destruct p. Qed.

Lemma rebase_strip p : rebase p (strip p) = p.
Proof. destruct p. unfold rebase, strip. cbn. by rewrite app_nil_r. Qed.

Lemma strip_rebase p p1 : strip (rebase p p1) = strip p.
Proof. by destruct p. Qed.

Lemma rebase_rebase p p1 p2 :
  rebase (rebase p p1) p2 = rebase p (rebase p1 p2).
Proof. destruct p, p1. unfold rebase. cbn. by rewrite app_assoc. Qed.

Lemma rebase_of_strip p p1 :
  strip p1 = strip p → rebase (strip p) p1 = p1.
Proof.
  destruct p, p1. unfold strip, rebase. cbn. intros H. by injection H as -> -> -> -> -> -> -> -> -> -> -> -> -> ->.
Qed.

Lemma appends_blind {A} (c : M A) :
  (∀ p p' m, c p' m = match c p m with
                      | Ok a _ m1 t => Ok a p' m1 t
                      | Raise e _ m1 t => Raise e p' m1 t
                      end) →
  appends c.
Proof.
  intros H p m. pose proof (H (strip p) (strip p) m) as H1.
  pose proof (H (strip p) p m) as H2.
  destruct (c (strip p) m) as [a p1 m1 t|e p1 m1 t];
    (assert (p1 = strip p) as -> by congruence);
    rewrite H2, rebase_strip; by rewrite strip_strip.
Qed.

Lemma appends_ret {A} (a : A) : appends (mret a).
Proof. by apply appends_blind. Qed.

Lemma appends_raise {A} (e : exn) : appends (@raise A e).
Proof. by apply appends_blind. Qed.

Lemma appends_get_fs : appends get_fs.
Proof. by apply appends_blind. Qed.

Lemma appends_put_fs m' : appends (put_fs m').
Proof. by apply appends_blind. Qed.

Lemma appends_emit e : appends (emit e).
Proof. by apply appends_blind. Qed.

Lemma appends_bind {A B} (c : M A) (f : A → M B) :
  appends c → (∀ a, appends (f a)) → appends (c ≫= f).
Proof.
  intros Hc Hf p m. rewrite !bind_run. specialize (Hc p m).
  destruct (c (strip p) m) as [a p1 m1 t1|e p1 m1 t1].
  - destruct Hc as [Hs Hc]. rewrite Hc.
    pose proof (Hf a p1 m1) as H1. pose proof (Hf a (rebase p p1) m1) as H2.
    rewrite strip_rebase in H2. rewrite Hs in H1.
    destruct (f a (strip p) m1) as [b p2 m2 t2|e p2 m2 t2];
      destruct H1 as [Hs2 H1]; destruct H2 as [_ H2]; rewrite H1, H2;
      rewrite strip_rebase, rebase_rebase; by rewrite Hs.
  - destruct Hc as [Hs Hc]. by rewrite Hc.
Qed.

Lemma appends_when b (c : M unit) : appends c → appends (when b c).
Proof. intros Hc. destruct b; [done|]. apply appends_ret. Qed.

Lemma appends_for_fold {A B} (body : B → A → M B) (b : B) (l : list A) :
  (∀ b x, appends (body b x)) → appends (for_fold body b l).
Proof.
  intros Hb. revert b. induction l as [|x l IH]; intros b.
  - apply appends_ret.
  - cbn [for_fold]. apply appends_bind; [apply Hb | intros b'; apply IH].
Qed.

Lemma appends_self_get {A} (f : DependencyDirPreparator.t → A) :
  (∀ p, f (strip p) = f p) → appends (self_get f).
Proof.
  intros Hf p m. unfold self_get. rewrite Hf, rebase_strip.
  by rewrite strip_strip.
Qed.

Lemma appends_append_dependency d : appends (append_dependency d).
Proof.
  intros p m. unfold append_dependency, modify_self. by destruct p.
Qed.

Create HintDb appends discriminated.

#[local] Hint Resolve appends_ret appends_raise appends_get_fs appends_put_fs
  appends_emit appends_when appends_for_fold appends_append_dependency
  : appends.

Ltac appends_step :=
  match goal with
  | |- appends (mbind _ _) => apply appends_bind; [|intros ?]
  | |- appends (if ?b then _ else _) => destruct b
  | |- appends (match ?x with _ => _ end) => destruct x
  | |- appends (when _ _) => apply appends_when
  | |- appends (for_fold _ _ _) => apply appends_for_fold; intros ? ?
  | |- appends (self_get _) => apply appends_self_get; by intros []
  | |- appends _ => solve [auto with appends]
  end.

Ltac appends_tac := repeat appends_step.

Lemma appends_logging_warning msg : appends (logging_warning msg).
Proof. unfold logging_warning. appends_tac. Qed.
#[local] Hint Resolve appends_logging_warning : appends.

Lemma appends_os_path_exists x : appends (os_path_exists x).
Proof. unfold os_path_exists. appends_tac. Qed.
#[local] Hint Resolve appends_os_path_exists : appends.

Lemma appends_os_path_isdir x : appends (os_path_isdir x).
Proof. unfold os_path_isdir. appends_tac. Qed.
#[local] Hint Resolve appends_os_path_isdir : appends.

Lemma appends_os_makedirs x : appends (os_makedirs x).
Proof. unfold os_makedirs. appends_tac. Qed.
#[local] Hint Resolve appends_os_makedirs : appends.

Lemma appends_makedirs_if_missing x : appends (makedirs_if_missing x).
Proof. unfold makedirs_if_missing. appends_tac. Qed.
#[local] Hint Resolve appends_makedirs_if_missing : appends.

Lemma appends_os_listdir x : appends (os_listdir x).
Proof. unfold os_listdir. appends_tac. Qed.
#[local] Hint Resolve appends_os_listdir : appends.

Lemma appends_glob_download_metadata x : appends (glob_download_metadata x).
Proof. unfold glob_download_metadata. appends_tac. Qed.
#[local] Hint Resolve appends_glob_download_metadata : appends.

Lemma appends_load_json x : appends (load_json x).
Proof. unfold load_json. appends_tac. Qed.
#[local] Hint Resolve appends_load_json : appends.

Lemma appends_write_file x c : appends (write_file x c).
Proof. unfold write_file. appends_tac. Qed.
#[local] Hint Resolve appends_write_file : appends.

Lemma appends_getmtime_iso E x : appends (getmtime_iso E x).
Proof. unfold getmtime_iso. appends_tac. Qed.
#[local] Hint Resolve appends_getmtime_iso : appends.

Lemma appends_run E c : appends (run E c).
Proof. unfold run. appends_tac. Qed.
#[local] Hint Resolve appends_run : appends.

Lemma appends_hash_of_url E u : appends (hash_of_url E u).
Proof. unfold hash_of_url. appends_tac. Qed.
#[local] Hint Resolve appends_hash_of_url : appends.

Lemma appends_json_iter j : appends (json_iter j).
Proof. unfold json_iter. appends_tac. Qed.
#[local] Hint Resolve appends_json_iter : appends.

Lemma appends_dict_get j k d : appends (dict_get j k d).
Proof. unfold dict_get. appends_tac. Qed.
#[local] Hint Resolve appends_dict_get : appends.

Lemma appends_construct j : appends (construct j).
Proof. unfold construct. appends_tac. Qed.
#[local] Hint Resolve appends_construct : appends.

Lemma appends_as_str j : appends (as_str j).
Proof. unfold as_str. appends_tac. Qed.
#[local] Hint Resolve appends_as_str : appends.

Lemma appends_find_in_list target l : appends (find_in_list target l).
Proof.
  induction l as [|x l IH]; cbn [find_in_list]; appends_tac.
Qed.
#[local] Hint Resolve appends_find_in_list : appends.

Lemma appends_find_target_metadata ty f target :
  appends (find_target_metadata ty f target).
Proof. unfold find_target_metadata. appends_tac. Qed.
#[local] Hint Resolve appends_find_target_metadata : appends.

Lemma appends_export_data d dir f : appends (export_data d dir f).
Proof. unfold export_data. appends_tac. Qed.
#[local] Hint Resolve appends_export_data : appends.

Lemma appends_move_src E src dst : appends (move_src E src dst).
Proof. unfold move_src. appends_tac. Qed.
#[local] Hint Resolve appends_move_src : appends.

Lemma appends_tar_members f : appends (tar_members f).
Proof. unfold tar_members. appends_tac. Qed.
#[local] Hint Resolve appends_tar_members : appends.

Lemma appends_extract_member dst f : appends (extract_member dst f).
Proof. unfold extract_member. appends_tac. Qed.
#[local] Hint Resolve appends_extract_member : appends.

Lemma appends_get_metafile_in_target E ty f :
  appends (get_metafile_in_target E ty f).
Proof. unfold get_metafile_in_target. appends_tac. Qed.
#[local] Hint Resolve appends_get_metafile_in_target : appends.

Lemma appends_join_authors j : appends (join_authors j).
Proof. unfold join_authors. appends_tac. Qed.
#[local] Hint Resolve appends_join_authors : appends.

Lemma appends_get_author ty f : appends (get_author ty f).
Proof. unfold get_author. appends_tac. Qed.
#[local] Hint Resolve appends_get_author : appends.

Lemma appends_second_item l : appends (second_item l).
Proof. unfold second_item. appends_tac. Qed.
#[local] Hint Resolve appends_second_item : appends.

Lemma appends_collection_record E dl url : appends (collection_record E dl url).
Proof. unfold collection_record. appends_tac. Qed.
#[local] Hint Resolve appends_collection_record : appends.

Lemma appends_extract_collections_metadata E log dl :
  appends (extract_collections_metadata E log dl).
Proof. unfold extract_collections_metadata, collections_step. appends_tac. Qed.
#[local] Hint Resolve appends_extract_collections_metadata : appends.

Lemma appends_next_line l : appends (next_line l).
Proof. unfold next_line. appends_tac. Qed.
#[local] Hint Resolve appends_next_line : appends.

Lemma appends_role_record E line rest : appends (role_record E line rest).
Proof. unfold role_record. appends_tac. Qed.
#[local] Hint Resolve appends_role_record : appends.

Lemma appends_roles_loop E acc l : appends (roles_loop E acc l).
Proof.
  revert acc. induction l as [|x l IH]; intros acc; cbn [roles_loop]; appends_tac.
Qed.
#[local] Hint Resolve appends_roles_loop : appends.

Lemma appends_extract_roles_metadata E log :
  appends (extract_roles_metadata E log).
Proof. unfold extract_roles_metadata. appends_tac. Qed.
#[local] Hint Resolve appends_extract_roles_metadata : appends.

Lemma appends_download_galaxy_collection E a b c d :
  appends (download_galaxy_collection E a b c d).
Proof. unfold download_galaxy_collection. appends_tac. Qed.
#[local] Hint Resolve appends_download_galaxy_collection : appends.

Lemma appends_install_galaxy_collection_from_targz E a b :
  appends (install_galaxy_collection_from_targz E a b).
Proof. unfold install_galaxy_collection_from_targz. appends_tac. Qed.
#[local] Hint Resolve appends_install_galaxy_collection_from_targz : appends.

Lemma appends_install_galaxy_collection_from_reqfile E a b :
  appends (install_galaxy_collection_from_reqfile E a b).
Proof. unfold install_galaxy_collection_from_reqfile. appends_tac. Qed.
#[local] Hint Resolve appends_install_galaxy_collection_from_reqfile : appends.

Lemma appends_galaxy_target_install E a b c d v :
  appends (galaxy_target_install E a b c d v).
Proof. unfold galaxy_target_install. appends_tac. Qed.
#[local] Hint Resolve appends_galaxy_target_install : appends.

Lemma appends_is_download_file_exist ty target dir :
  appends (is_download_file_exist ty target dir).
Proof. unfold is_download_file_exist. appends_tac. Qed.
#[local] Hint Resolve appends_is_download_file_exist : appends.

Lemma appends_collection_dir sub name : appends (collection_dir sub name).
Proof. unfold collection_dir. appends_tac. Qed.
#[local] Hint Resolve appends_collection_dir : appends.

Lemma appends_move_src_from E src dst : appends (move_src_from E src dst).
Proof. unfold move_src_from. appends_tac. Qed.
#[local] Hint Resolve appends_move_src_from : appends.

Lemma appends_prepare_collection_dependency E deps ce cd cdep :
  appends (prepare_collection_dependency E deps ce cd cdep).
Proof. unfold prepare_collection_dependency. cbv zeta. appends_tac. Qed.
#[local] Hint Resolve appends_prepare_collection_dependency : appends.

Lemma appends_prepare_role_dependency E deps ce cd rdep :
  appends (prepare_role_dependency E deps ce cd rdep).
Proof. unfold prepare_role_dependency. cbv zeta. appends_tac. Qed.
#[local] Hint Resolve appends_prepare_role_dependency : appends.

Lemma appends_prepare_dependency_dir E deps ce cd :
  appends (prepare_dependency_dir E deps ce cd).
Proof. unfold prepare_dependency_dir, for_each. appends_tac. Qed.
#[local] Hint Resolve appends_prepare_dependency_dir : appends.

(** ** File systems that agree on the cache *)

Lemma agree_refl cd ds m : agree cd ds m m.
Proof. by intros k _. Qed.

Lemma agree_sym cd ds m m' : agree cd ds m m' → agree cd ds m' m.
Proof. intros H k Hk. symmetry. by apply H. Qed.

Lemma agree_trans cd ds m1 m2 m3 :
  agree cd ds m1 m2 → agree cd ds m2 m3 → agree cd ds m1 m3.
Proof. intros H1 H2 k Hk. rewrite (H2 k Hk). by apply H1. Qed.

Lemma grows_refl m : grows m m.
Proof. by intros k. Qed.

Lemma grows_trans m1 m2 m3 : grows m1 m2 → grows m2 m3 → grows m1 m3.
Proof.
  intros H1 H2 k. destruct (H1 k) as [Ha Hb], (H2 k) as [Hc Hd]. split; auto.
Qed.

Lemma grows_exists m m' k : grows m m' → path_exists m k = true → path_exists m' k = true.
Proof.
  intros H. destruct (H k) as [Ha _]. unfold path_exists.
  destruct (m !! k) eqn:Hk; [|done]. intros _.
  destruct Ha as [x ->]; [eauto | done].
Qed.

Lemma grows_isdir m m' k : grows m m' → path_isdir m k = true → path_isdir m' k = true.
Proof.
  intros H. destruct (H k) as [_ Hb]. unfold path_isdir.
  destruct (m !! k) as [[|c]|] eqn:Hk; try done. intros _. by rewrite Hb.
Qed.

Lemma no_fetch_app t1 t2 :
  no_fetch (t1 ++ t2) = true ↔ no_fetch t1 = true ∧ no_fetch t2 = true.
Proof. unfold no_fetch. by rewrite forallb_app, andb_true_iff. Qed.

(** *** The order of listings *)

Lemma StronglySorted_filter {A} (R : relation A) (P : A → Prop)
    `{!∀ x, Decision (P x)} (l : list A) :
  StronglySorted R l → StronglySorted R (filter P l).
Proof.
  induction 1 as [|x l Hl IH Hx]; [constructor|].
  rewrite filter_cons. destruct (decide (P x)); [|done].
  constructor; [done|]. rewrite Forall_forall in Hx |- *.
  intros y [_ Hy]%list_elem_of_filter. by apply Hx.
Qed.

Lemma elem_of_listing (m : gmap string node) (k : string) :
  k ∈ listing m ↔ is_Some (m !! k).
Proof.
  unfold listing. rewrite merge_sort_Permutation, list_elem_of_fmap. split.
  - intros ([k' x] & -> & H). apply elem_of_map_to_list in H. eauto.
  - intros [x H]. exists (k, x). split; [done|]. by apply elem_of_map_to_list.
Qed.

Lemma listing_filter_agree (Q : string → Prop) `{!∀ k, Decision (Q k)}
    (m m' : gmap string node) :
  (∀ k, Q k → m' !! k = m !! k) →
  filter Q (listing m') = filter Q (listing m).
Proof.
  intros Hag.
  assert (Hsorted : ∀ m0 : gmap string node,
            StronglySorted String.le (filter Q (listing m0))).
  { intros m0. apply StronglySorted_filter. unfold listing.
    apply (StronglySorted_merge_sort String.le). }
  assert (Hnodup : ∀ m0 : gmap string node, NoDup (filter Q (listing m0))).
  { intros m0. apply NoDup_filter. unfold listing.
    rewrite merge_sort_Permutation. apply NoDup_fst_map_to_list. }
  apply (StronglySorted_unique String.le); [apply Hsorted..|].
  apply NoDup_Permutation; [apply Hnodup..|].
  intros k. rewrite !list_elem_of_filter, !elem_of_listing.
  split; intros [HQ Hk]; (split; [done|]); by rewrite ?(Hag k HQ) in *.
Qed.

Lemma omap_filter_is_Some {A B} (f : A → option B) (l : list A) :
  omap f (filter (λ x, is_Some (f x)) l) = omap f l.
Proof.
  induction l as [|x l IH]; [done|].
  rewrite filter_cons. destruct (decide (is_Some (f x))) as [[y Hy]|Hn].
  - cbn [omap list_omap]. rewrite Hy. f_equal. exact IH.
  - cbn [omap list_omap]. destruct (f x) eqn:Hx; [|exact IH].
    exfalso. apply Hn. eauto.
Qed.

(** *** Directories without entries *)

Lemma vacant_spec (ds : list string) (m : gmap string node) :
  vacant ds m = true ↔ ∀ d k, d ∈ ds → below d k = true → m !! k = None.
Proof.
  unfold vacant. rewrite forallb_forall. split.
  - intros H d k Hd Hk. destruct (m !! k) as [n|] eqn:Hm; [|done].
    assert (Hin : In k (listing m))
      by (apply list_elem_of_In, elem_of_listing; eauto).
    apply H, negb_true_iff in Hin.
    assert (existsb (λ d, below d k) ds = true); [|congruence].
    apply existsb_exists. exists d. split; [by apply list_elem_of_In|done].
  - intros H k Hin. apply negb_true_iff.
    destruct (existsb (λ d, below d k) ds) eqn:Hex; [|done].
    apply existsb_exists in Hex as (d & Hd & Hk).
    apply list_elem_of_In, elem_of_listing in Hin as [n Hn].
    rewrite (H d k) in Hn; [done | by apply list_elem_of_In | done].
Qed.

Lemma vacant_agree cd ds m m' :
  agree cd ds m m' → vacant ds m = true → vacant ds m' = true.
Proof.
  rewrite !vacant_spec. intros Hag H d k Hd Hk. rewrite (Hag k).
  - by eapply H.
  - unfold protected. apply orb_true_intro. right.
    apply existsb_exists. exists d. split; [by apply list_elem_of_In|done].
Qed.

(** Two prefixes of one string: one is a prefix of the other. *)
Lemma prefix_comparable (a b k : string) :
  String.prefix a k = true → String.prefix b k = true →
  String.prefix a b = true ∨ String.prefix b a = true.
Proof.
  revert a b. induction k as [|c k IH]; intros [|x a] [|y b]; cbn;
    auto; try done.
  destruct (ascii_dec x c) as [->|]; [|done].
  destruct (ascii_dec y c) as [->|]; [|done].
  destruct (ascii_dec c c); [|done]. apply IH.
Qed.

Lemma apart_below (a b k : string) :
  apart a b = true → below a k = true → below b k = false.
Proof.
  unfold apart, below. intros [Ha Hb]%andb_true_iff Hk.
  apply negb_true_iff in Ha, Hb.
  destruct (String.prefix (Py.join2 b "") k) eqn:Hbk; [|done].
  destruct (prefix_comparable _ _ _ Hk Hbk); congruence.
Qed.

(** ** Runs that see the same cache *)

Lemma appends_strip {A} (c : M A) p m a p1 m1 t :
  appends c → c p m = Ok a p1 m1 t → strip p1 = strip p.
Proof.
  intros H Hrun. specialize (H p m).
  destruct (c (strip p) m) as [a' p1' m1' t'|e p1' m1' t']; destruct H as [_ H];
    rewrite H in Hrun; [|done].
  injection Hrun as _ <- _ _. apply strip_rebase.
Qed.

Lemma blind_ret {A} (a : A) : fs_blind (mret a).
Proof. by intros p m m'. Qed.

Lemma blind_raise {A} (e : exn) : fs_blind (@raise A e).
Proof. by intros p m m'. Qed.

Lemma blind_emit e : fs_blind (emit e).
Proof. by intros p m m'. Qed.

Lemma blind_self_get {A} (f : DependencyDirPreparator.t → A) :
  fs_blind (self_get f).
Proof. by intros p m m'. Qed.

Lemma blind_modify_self f : fs_blind (modify_self f).
Proof. by intros p m m'. Qed.

Lemma blind_bind {A B} (c : M A) (f : A → M B) :
  fs_blind c → (∀ a, fs_blind (f a)) → fs_blind (c ≫= f).
Proof.
  intros Hc Hf p m m'. rewrite !bind_run, (Hc p m m').
  destruct (c p m) as [a p1 m1 t1|]; [|done].
  rewrite (Hf a p1 m1 m'). rewrite (Hf a p1 m1 m1).
  by destruct (f a p1 m1).
Qed.

Create HintDb blind discriminated.

#[local] Hint Resolve blind_ret blind_raise blind_emit blind_self_get
  blind_modify_self : blind.

Ltac blind_step :=
  match goal with
  | |- fs_blind (mbind _ _) => apply blind_bind; [|intros ?]
  | |- fs_blind (if ?b then _ else _) => destruct b
  | |- fs_blind (match ?x with _ => _ end) => destruct x
  | |- fs_blind _ => solve [auto with blind]
  end.

Ltac blind_tac := repeat blind_step.

Lemma blind_logging_warning msg : fs_blind (logging_warning msg).
Proof. unfold logging_warning. blind_tac. Qed.
#[local] Hint Resolve blind_logging_warning : blind.

Lemma blind_json_iter j : fs_blind (json_iter j).
Proof. unfold json_iter. blind_tac. Qed.
#[local] Hint Resolve blind_json_iter : blind.

Lemma blind_dict_get j k d : fs_blind (dict_get j k d).
Proof. unfold dict_get. blind_tac. Qed.
#[local] Hint Resolve blind_dict_get : blind.

Lemma blind_construct j : fs_blind (construct j).
Proof. unfold construct. blind_tac. Qed.
#[local] Hint Resolve blind_construct : blind.

Lemma blind_as_str j : fs_blind (as_str j).
Proof. unfold as_str. blind_tac. Qed.
#[local] Hint Resolve blind_as_str : blind.

Lemma blind_find_in_list target l : fs_blind (find_in_list target l).
Proof. induction l as [|x l IH]; cbn [find_in_list]; blind_tac. Qed.
#[local] Hint Resolve blind_find_in_list : blind.

Lemma blind_second_item l : fs_blind (second_item l).
Proof. unfold second_item. blind_tac. Qed.
#[local] Hint Resolve blind_second_item : blind.

Lemma blind_collection_dir sub name : fs_blind (collection_dir sub name).
Proof. unfold collection_dir. blind_tac. Qed.
#[local] Hint Resolve blind_collection_dir : blind.

Lemma blind_append_dependency d : fs_blind (append_dependency d).
Proof. unfold append_dependency. blind_tac. Qed.
#[local] Hint Resolve blind_append_dependency : blind.

Section Sim.

Context (cache_dir : string) (dirs : list string)
  (q : DependencyDirPreparator.t).

#[local] Abbreviation sim := (sim cache_dir dirs q).
#[local] Abbreviation agree := (agree cache_dir dirs).

Lemma sim_blind {A} (c : M A) : fs_blind c → sim c.
Proof.
  intros Hb p m a p1 m1 t _ _ Hrun _.
  pose proof (Hb p m m) as Hmm. rewrite Hrun in Hmm.
  assert (m1 = m) as -> by congruence.
  split; [apply grows_refl|]. split; [apply agree_refl|].
  intros m' _ _. exists m'. rewrite (Hb p m m'), Hrun.
  split; [done|]. split; [apply grows_refl | apply agree_refl].
Qed.

Lemma sim_never {A} (c : M A) :
  (∀ p m a p1 m1 t, c p m = Ok a p1 m1 t → no_fetch t = false) → sim c.
Proof.
  intros H p m a p1 m1 t _ _ Hrun Hnf. rewrite (H _ _ _ _ _ _ Hrun) in Hnf. done.
Qed.

Lemma sim_bind_post {A B} (Q : A → Prop) (c : M A) (f : A → M B) :
  appends c → sim c →
  (∀ p m a p1 m1 t, strip p = q → c p m = Ok a p1 m1 t → Q a) →
  (∀ a, Q a → sim (f a)) →
  sim (c ≫= f).
Proof.
  intros Hap Hc HQ Hf p m b p2 m2 t Hp Hvac Hrun Hnf.
  rewrite bind_run in Hrun.
  destruct (c p m) as [a p1 m1 t1|] eqn:Hcm; [|done].
  destruct (f a p1 m1) as [b' p2' m2' t2|] eqn:Hfm; [|done].
  injection Hrun as -> -> -> <-.
  apply no_fetch_app in Hnf as [Hn1 Hn2].
  assert (Hp1 : strip p1 = q) by (by rewrite (appends_strip _ _ _ _ _ _ _ Hap Hcm)).
  destruct (Hc p m a p1 m1 t1 Hp Hvac Hcm Hn1) as (Hg1 & Ha1 & Hrel1).
  destruct (Hf a (HQ _ _ _ _ _ _ Hp Hcm) p1 m1 b p2 m2 t2 Hp1
              (vacant_agree _ _ _ _ Ha1 Hvac) Hfm Hn2)
    as (Hg2 & Ha2 & Hrel2).
  split; [by eapply grows_trans|]. split; [by eapply agree_trans|].
  intros m' Hag Hgr.
  destruct (Hrel1 m' Hag (grows_trans _ _ _ Hg2 Hgr)) as (m1' & Hc' & Hg1' & Ha1').
  destruct (Hrel2 m1') as (m2' & Hf' & Hg2' & Ha2').
  { eapply agree_trans; [apply agree_sym, Ha1|]. by eapply agree_trans. }
  { by eapply grows_trans. }
  exists m2'. rewrite bind_run, Hc', Hf'. split; [done|].
  split; [by eapply grows_trans | by eapply agree_trans].
Qed.

Lemma sim_bind {A B} (c : M A) (f : A → M B) :
  appends c → sim c → (∀ a, sim (f a)) → sim (c ≫= f).
Proof.
  intros Hap Hc Hf. apply (sim_bind_post (λ _, True)); auto.
Qed.

Lemma sim_bind_never {A B} (c : M A) (f : A → M B) :
  (∀ p m a p1 m1 t, c p m = Ok a p1 m1 t → no_fetch t = false) →
  sim (c ≫= f).
Proof.
  intros H p m b p2 m2 t _ _ Hrun Hnf. rewrite bind_run in Hrun.
  destruct (c p m) as [a p1 m1 t1|] eqn:Hcm; [|done].
  destruct (f a p1 m1) as [b' p2' m2' t2|]; [|done].
  injection Hrun as _ _ _ <-. apply no_fetch_app in Hnf as [Hn1 _].
  rewrite (H _ _ _ _ _ _ Hcm) in Hn1. done.
Qed.

Lemma sim_self_get {A B} (g : DependencyDirPreparator.t → A) (f : A → M B) :
  (∀ p, g (strip p) = g p) → sim (f (g q)) → sim (self_get g ≫= f).
Proof.
  intros Hg Hf. apply (sim_bind_post (λ a, a = g q)).
  - by apply appends_self_get.
  - apply sim_blind, blind_self_get.
  - intros p m a p1 m1 t Hp Hrun. unfold self_get in Hrun.
    injection Hrun as <- _ _ _. by rewrite <- Hp, Hg.
  - by intros a ->.
Qed.

Lemma sim_when b (c : M unit) : sim c → sim (when b c).
Proof. intros Hc. destruct b; [done|]. apply sim_blind, blind_ret. Qed.

Lemma sim_for_fold {A B} (P : A → Prop) (body : B → A → M B) (b : B)
    (l : list A) :
  (∀ b x, appends (body b x)) →
  (∀ b x, P x → sim (body b x)) → Forall P l → sim (for_fold body b l).
Proof.
  intros Hap Hb Hl. revert b. induction Hl as [|x l Hx _ IH]; intros b.
  - apply sim_blind, blind_ret.
  - cbn [for_fold]. apply sim_bind; [apply Hap | by apply Hb | apply IH].
Qed.

End Sim.

(** *** What the file-system calls read *)

Lemma makedirs_if_missing_fails (x : string) p (m : gmap string node) :
  can_makedirs m x = false →
  ∃ e, makedirs_if_missing x p m = Raise e p m [].
Proof.
  unfold can_makedirs, makedirs_if_missing, os_path_exists, os_makedirs.
  msimpl. destruct (path_exists m x) eqn:Hex; msimpl; [done|].
  rewrite Hex. destruct (String.eqb x ""); msimpl; [eauto|].
  intros Hanc. destruct (List.find (path_isfile m) (ancestors x)) eqn:Hf; [eauto|].
  exfalso. apply not_true_iff_false in Hanc. apply Hanc, forallb_forall.
  intros a Ha. apply negb_true_iff. by eapply find_none.
Qed.

Lemma makedirs_if_missing_inv (x : string) p (m : gmap string node) a p1 m1 t :
  makedirs_if_missing x p m = Ok a p1 m1 t →
  can_makedirs m x = true ∧ p1 = p ∧ m1 = with_dirs m x ∧ t = [].
Proof.
  intros H. destruct (can_makedirs m x) eqn:Hc.
  - rewrite (makedirs_if_missing_ok x p m Hc) in H. by injection H as _ <- <- <-.
  - destruct (makedirs_if_missing_fails x p m Hc) as [e He]. congruence.
Qed.

Lemma with_dirs_lookup (m : gmap string node) (x k : string) :
  can_makedirs m x = true →
  with_dirs m x !! k
  = if decide (path_exists m x = false ∧ k ∈ makedirs_targets x)
    then Some Dir else m !! k.
Proof.
  intros _. unfold with_dirs. destruct (path_exists m x) eqn:Hex.
  - rewrite decide_False; [done|]. by intros [? _].
  - rewrite foldr_insert_dir_lookup.
    destruct (decide (k ∈ makedirs_targets x)).
    + by rewrite decide_True.
    + rewrite decide_False; [done|]. by intros [_ ?].
Qed.

Lemma makedirs_target_free (m : gmap string node) (x k : string) :
  can_makedirs m x = true → path_exists m x = false →
  k ∈ makedirs_targets x → m !! k = None ∨ m !! k = Some Dir.
Proof.
  unfold can_makedirs. intros Hc Hex Hk. rewrite Hex in Hc. cbn in Hc.
  apply andb_true_iff in Hc as [_ Hanc]. rewrite forallb_forall in Hanc.
  unfold makedirs_targets in Hk. apply elem_of_app in Hk as [Hk|Hk].
  - apply list_elem_of_filter in Hk as [_ Hk]. apply list_elem_of_In in Hk.
    specialize (Hanc _ Hk). unfold path_isfile in Hanc.
    destruct (m !! k) as [[|c]|]; auto. done.
  - apply list_elem_of_singleton in Hk as ->. left.
    unfold path_exists in Hex. by destruct (m !! x).
Qed.

Lemma with_dirs_grows (m : gmap string node) (x : string) :
  can_makedirs m x = true → grows m (with_dirs m x).
Proof.
  intros Hc k. rewrite (with_dirs_lookup m x k Hc).
  destruct (decide _) as [[Hex Hk]|_]; [|done].
  destruct (makedirs_target_free m x k Hc Hex Hk) as [-> | ->]; split; eauto.
Qed.

Lemma with_dirs_agree (cd : string) (ds : list string)
    (m : gmap string node) (x : string) :
  can_makedirs m x = true → unprotected_dirs cd ds x = true →
  agree cd ds m (with_dirs m x).
Proof.
  intros Hc Hun k Hk. rewrite (with_dirs_lookup m x k Hc).
  destruct (decide _) as [[_ Hin]|_]; [|done].
  unfold unprotected_dirs in Hun. rewrite forallb_forall in Hun.
  apply list_elem_of_In, Hun in Hin. by rewrite Hk in Hin.
Qed.

Lemma with_dirs_exists (m : gmap string node) (x : string) :
  can_makedirs m x = true → path_exists (with_dirs m x) x = true.
Proof.
  intros Hc. unfold path_exists at 1. rewrite (with_dirs_lookup m x x Hc).
  destruct (decide _) as [_|Hn]; [done|].
  destruct (path_exists m x) eqn:Hex.
  - unfold path_exists in Hex. by destruct (m !! x).
  - exfalso. apply Hn. split; [done|]. unfold makedirs_targets.
    apply elem_of_app. right. by left.
Qed.

Lemma makedirs_if_missing_skip (x : string) p (m : gmap string node) :
  path_exists m x = true → makedirs_if_missing x p m = Ok tt p m [].
Proof.
  intros Hex. rewrite makedirs_if_missing_ok.
  - unfold with_dirs. by rewrite Hex.
  - unfold can_makedirs. by rewrite Hex.
Qed.

Lemma string_app_assoc (a b c : string) : (a +:+ b) +:+ c = a +:+ (b +:+ c).
Proof. induction a as [|ch a IH]; [done|]. rewrite !app_cons. by rewrite IH. Qed.

Lemma prefix_trans (a b c : string) :
  String.prefix a b = true → String.prefix b c = true → String.prefix a c = true.
Proof.
  intros [x ->]%prefix_spec [y ->]%prefix_spec. apply prefix_spec.
  exists (x +:+ y). apply string_app_assoc.
Qed.

Lemma substring_all (s : string) : String.substring 0 (String.length s) s = s.
Proof. induction s as [|c s IH]; [done|]. simpl. by rewrite IH. Qed.

Lemma substring_after_prefix (a b : string) :
  String.substring (String.length a)
    (String.length (a +:+ b) - String.length a) (a +:+ b) = b.
Proof.
  induction a as [|c a IH].
  - rewrite app_nil_l. simpl. rewrite Nat.sub_0_r. apply substring_all.
  - rewrite app_cons. simpl. exact IH.
Qed.

Lemma split_nonempty (sep : ascii) (s : string) : Py.split sep s ≠ [].
Proof.
  destruct s as [|c s]; [done|]. cbn [Py.split].
  destruct (Ascii.eqb c sep); [done|]. by destruct (Py.split sep s).
Qed.

Lemma split_singleton (sep : ascii) (s t : string) :
  Py.split sep s = [t] → t = s.
Proof.
  revert t. induction s as [|c s IH]; intros t.
  - cbn. by intros [= <-].
  - cbn [Py.split]. destruct (Ascii.eqb c sep).
    + intros [= _ H]. by apply split_nonempty in H.
    + destruct (Py.split sep s) as [|t0 ts] eqn:Hs; [by apply split_nonempty in Hs|].
      intros [= <- ->]. by rewrite (IH t0).
Qed.

Lemma last_split_suffix (sep : ascii) (s : string) :
  ∃ a, s = a +:+ Py.last_item (Py.split sep s).
Proof.
  unfold Py.last_item. induction s as [|c s [a IH]]; [by exists ""|].
  cbn [Py.split]. destruct (Ascii.eqb c sep).
  - exists (String c a). rewrite app_cons. f_equal.
    destruct (Py.split sep s) eqn:Hs; [by apply split_nonempty in Hs|]. exact IH.
  - destruct (Py.split sep s) as [|t0 ts] eqn:Hs; [by apply split_nonempty in Hs|].
    destruct ts as [|t1 ts].
    + exists "". apply split_singleton in Hs as ->. done.
    + exists (String c a). rewrite app_cons. f_equal. exact IH.
Qed.

Lemma endswith_app (a s suf : string) :
  Py.endswith s suf = true → Py.endswith (a +:+ s) suf = true.
Proof.
  intros [b ->]%endswith_spec. apply endswith_spec. exists (a +:+ b).
  symmetry. apply string_app_assoc.
Qed.

Lemma glob_match_endswith (pre k : string) :
  glob_match pre k = true → Py.endswith k download_metadata_file = true.
Proof.
  unfold glob_match. destruct (String.prefix pre k) eqn:Hp; [|done].
  apply prefix_spec in Hp as [rest ->]. rewrite substring_after_prefix.
  intros [Hl _]%andb_true_iff. apply String.eqb_eq in Hl.
  apply endswith_app. destruct (last_split_suffix "/" rest) as [a Ha].
  rewrite Hl in Ha. apply endswith_spec. eauto.
Qed.

Lemma join2_endswith (a b : string) : Py.endswith (Py.join2 a b) b = true.
Proof.
  unfold Py.join2. destruct (Py.startswith b "/").
  - apply endswith_spec. by exists "".
  - destruct (_ || _); apply endswith_spec; [by exists a|].
    exists (a +:+ "/"). symmetry. apply string_app_assoc.
Qed.

Lemma below_protected (cd : string) (ds : list string) (k : string) :
  below cd k = true → protected cd ds k = true.
Proof. unfold protected. intros ->. by rewrite orb_true_r. Qed.

Lemma entry_name_protected (cd : string) (ds : list string) (x k n : string) :
  listing_protected cd x = true → entry_name x k = Some n →
  protected cd ds k = true.
Proof.
  unfold listing_protected, entry_name. intros Hx Hk.
  destruct (String.prefix (if Py.endswith x "/" then x else x +:+ "/") k) eqn:Hp;
    [|done].
  apply below_protected. unfold below. exact (prefix_trans _ _ _ Hx Hp).
Qed.

Lemma listing_protected_cache_dir (cd : string) : listing_protected cd cd = true.
Proof.
  unfold listing_protected, Py.join2. cbn [Py.startswith String.prefix].
  destruct (String.eqb_spec cd "") as [->|Hne]; [done|].
  cbn [orb]. destruct (Py.endswith cd "/").
  - rewrite string_app_empty_r. apply prefix_spec. exists "".
    by rewrite string_app_empty_r.
  - change ("/" +:+ "") with "/". apply prefix_spec. exists "".
    by rewrite string_app_empty_r.
Qed.

(** *** The calls of a cache-enabled run *)

Lemma move_src_inv (E : Env) (src dst : string) p m a p1 m1 t :
  move_src E src dst p m = Ok a p1 m1 t →
  path_exists m src = true ∧ path_isdir m src = true
  ∧ move_src E src dst p m
    = Ok tt p (run_command E (CopyTree src dst) m).2 [Run (CopyTree src dst)].
Proof.
  unfold move_src, os_path_exists, os_path_isdir, run. msimpl.
  destruct (String.eqb src ""); msimpl; [done|].
  destruct (path_exists m src); msimpl; [|done].
  destruct (path_isdir m src); msimpl; [|done].
  destruct (String.eqb dst "" || Py.contains ".." dst); msimpl; [done|].
  destruct (existsb has_nul (command_strings (CopyTree src dst))); [done|].
  by intros _.
Qed.

Lemma move_src_mono (E : Env) (src dst : string) p m m' :
  path_exists m src = true → path_isdir m src = true →
  path_exists m' src = true → path_isdir m' src = true →
  move_src E src dst p m
  = Ok tt p (run_command E (CopyTree src dst) m).2 [Run (CopyTree src dst)] →
  move_src E src dst p m'
  = Ok tt p (run_command E (CopyTree src dst) m').2 [Run (CopyTree src dst)].
Proof.
  unfold move_src, os_path_exists, os_path_isdir, run. msimpl.
  intros -> -> -> ->.
  destruct (String.eqb src ""); msimpl; [done|].
  destruct (String.eqb dst "" || Py.contains ".." dst); msimpl; [done|].
  by destruct (existsb has_nul (command_strings (CopyTree src dst))).
Qed.

Lemma fetch_download_galaxy_collection (E : Env) a b c d p m x p1 m1 t :
  download_galaxy_collection E a b c d p m = Ok x p1 m1 t → no_fetch t = false.
Proof.
  unfold download_galaxy_collection, run.
  destruct (existsb has_nul _); [done|]. msimpl. by intros [= _ _ _ <-].
Qed.

Lemma fetch_galaxy_target_install (E : Env) a b c d v p m x p1 m1 t :
  galaxy_target_install E a b c d v p m = Ok x p1 m1 t → no_fetch t = false.
Proof.
  unfold galaxy_target_install. msimpl. by intros [= _ _ _ <-].
Qed.

Section SimCalls.

Context (E : Env) (cache_dir : string) (dirs : list string)
  (q : DependencyDirPreparator.t).
Context (Hinstaller : installer_local E) (Hcopy : copy_idle E).

#[local] Abbreviation sim := (sim cache_dir dirs q).
#[local] Abbreviation agree := (agree cache_dir dirs).

Lemma sim_makedirs_if_missing (x : string) :
  unprotected_dirs cache_dir dirs x = true → sim (makedirs_if_missing x).
Proof.
  intros Hun p m a p1 m1 t _ _ Hrun _.
  apply makedirs_if_missing_inv in Hrun as (Hc & -> & -> & ->).
  split; [by apply with_dirs_grows|]. split; [by apply with_dirs_agree|].
  intros m' _ Hgr. exists m'. destruct a.
  rewrite makedirs_if_missing_skip.
  - split; [done|]. split; [apply grows_refl | apply agree_refl].
  - eapply grows_exists; [done|]. by apply with_dirs_exists.
Qed.

(** A call that changes nothing and reads protected paths only. *)
Lemma sim_reader {A} (c : M A) :
  (∀ p m a p1 m1 t, c p m = Ok a p1 m1 t →
     m1 = m ∧ ∀ m', agree m m' → grows m m' → c p m' = Ok a p1 m' t) →
  sim c.
Proof.
  intros H p m a p1 m1 t _ _ Hrun _.
  destruct (H _ _ _ _ _ _ Hrun) as [-> Hrel].
  split; [apply grows_refl|]. split; [apply agree_refl|].
  intros m' Hag Hgr. exists m'. rewrite (Hrel m' Hag Hgr).
  split; [done|]. split; [apply grows_refl | apply agree_refl].
Qed.

Lemma sim_load_json (x : string) :
  protected cache_dir dirs x = true → sim (load_json x).
Proof.
  intros Hx. apply sim_reader. intros p m a p1 m1 t.
  unfold load_json. msimpl. intros Hrun.
  assert (∀ m', agree m m' → m' !! x = m !! x) as Hsame by (intros m' H; by apply H).
  destruct (m !! x) as [[|[j|s|ms]]|] eqn:Hm; try done.
  injection Hrun as <- <- <- <-. split; [done|].
  intros m' Hag _. by rewrite (Hsame m' Hag).
Qed.

Lemma sim_os_path_exists (x : string) :
  protected cache_dir dirs x = true → sim (os_path_exists x).
Proof.
  intros Hx. apply sim_reader. intros p m a p1 m1 t.
  unfold os_path_exists. msimpl. intros [= <- <- <- <-]. split; [done|].
  intros m' Hag _. unfold path_exists. by rewrite (Hag x Hx).
Qed.

Lemma sim_os_listdir (x : string) :
  listing_protected cache_dir x = true → sim (os_listdir x).
Proof.
  intros Hx. apply sim_reader. intros p m a p1 m1 t.
  unfold os_listdir. msimpl. intros Hrun.
  destruct (m !! x) as [[|c]|] eqn:Hm; try done.
  injection Hrun as <- <- <- <-. split; [done|].
  intros m' Hag Hgr. destruct (Hgr x) as [_ Hd]. rewrite (Hd Hm). msimpl.
  f_equal.
  rewrite <- (omap_filter_is_Some (entry_name x) (listing m')).
  rewrite <- (omap_filter_is_Some (entry_name x) (listing m)).
  f_equal. apply listing_filter_agree.
  intros k [n Hn]. apply Hag. by eapply entry_name_protected.
Qed.

Lemma glob_download_metadata_protected (base : string) p m a p1 m1 t :
  glob_download_metadata base p m = Ok a p1 m1 t →
  Forall (λ k, protected cache_dir dirs k = true) a.
Proof.
  unfold glob_download_metadata. msimpl. intros [= <- _ _ _].
  apply Forall_forall. intros k [Hk _]%list_elem_of_filter.
  unfold protected. by rewrite (glob_match_endswith _ _ Hk).
Qed.

Lemma sim_glob_download_metadata (base : string) :
  sim (glob_download_metadata base).
Proof.
  apply sim_reader. intros p m a p1 m1 t.
  unfold glob_download_metadata. msimpl. intros [= <- <- <- <-]. split; [done|].
  intros m' Hag _. f_equal. apply listing_filter_agree.
  intros k Hk. apply Hag. unfold protected.
  by rewrite (glob_match_endswith _ _ Hk).
Qed.

(** The installer leaves the protected paths alone when its output directory
    lies apart from the cache directory and from the directories of the
    roles. *)
Lemma installer_agree (tarfile : json) (out : string) (m : gmap string node) :
  apart out cache_dir = true → forallb (apart out) dirs = true →
  grows m (run_command E (CollectionInstall tarfile out) m).2
  ∧ agree m (run_command E (CollectionInstall tarfile out) m).2.
Proof.
  intros Hcache Hdirs. destruct (Hinstaller tarfile out m) as [Hg Hsame].
  split; [exact Hg|]. intros k Hk. apply Hsame.
  destruct (Py.endswith k download_metadata_file) eqn:Hmeta; [by right|left].
  destruct (below out k) eqn:Hout; [|done]. exfalso.
  unfold protected in Hk. rewrite Hmeta in Hk. cbn [orb] in Hk.
  apply orb_true_iff in Hk as [Hk|Hk].
  - by rewrite (apart_below _ _ _ Hcache Hout) in Hk.
  - apply existsb_exists in Hk as (d & Hd & Hk).
    rewrite forallb_forall in Hdirs.
    by rewrite (apart_below _ _ _ (Hdirs d Hd) Hout) in Hk.
Qed.

Lemma run_inv (c : command) p m a p1 m1 t :
  run E c p m = Ok a p1 m1 t →
  existsb has_nul (command_strings c) = false
  ∧ a = (run_command E c m).1 ∧ p1 = p ∧ m1 = (run_command E c m).2
  ∧ t = [Run c].
Proof.
  unfold run. destruct (existsb has_nul (command_strings c)); [done|].
  msimpl. by intros [= <- <- <- <-].
Qed.

Lemma run_ok (c : command) p m :
  existsb has_nul (command_strings c) = false →
  run E c p m = Ok (run_command E c m).1 p (run_command E c m).2 [Run c].
Proof. unfold run. by intros ->. Qed.

Lemma sim_install_galaxy_collection_from_targz (tarfile : json) (out : string) :
  apart out cache_dir = true → forallb (apart out) dirs = true →
  sim (install_galaxy_collection_from_targz E tarfile out).
Proof.
  intros Hcache Hdirs p m a p1 m1 t _ _ Hrun _.
  unfold install_galaxy_collection_from_targz in *.
  apply bind_Ok_inv in Hrun as (x & pa & ma & ta & tb & Hr & Hret & ->).
  apply run_inv in Hr as (Hnul & -> & -> & -> & ->).
  unfold mret, M_ret in Hret. injection Hret as <- <- <- <-.
  destruct (installer_agree tarfile out m Hcache Hdirs) as [Hg Ha].
  split; [done|]. split; [done|].
  intros m' _ _. exists (run_command E (CollectionInstall tarfile out) m').2.
  split; [by rewrite (bind_Ok _ _ _ _ _ _ _ _ (run_ok _ p m' Hnul))|].
  by apply installer_agree.
Qed.

Lemma copy_vacant (src dst : string) (m : gmap string node) :
  src ∈ dirs → vacant dirs m = true →
  (run_command E (CopyTree src dst) m).2 = m.
Proof.
  intros Hsrc Hvac. apply Hcopy. intros k Hk.
  by apply (proj1 (vacant_spec dirs m) Hvac src k).
Qed.

Lemma sim_move_src (src dst : string) :
  src ∈ dirs → sim (move_src E src dst).
Proof.
  intros Hsrc p m a p1 m1 t _ Hvac Hrun _.
  destruct (move_src_inv _ _ _ _ _ _ _ _ _ Hrun) as (Hex & Hdir & Heq).
  rewrite Heq in Hrun. injection Hrun as <- <- <- <-.
  rewrite (copy_vacant src dst m Hsrc Hvac).
  split; [apply grows_refl|]. split; [apply agree_refl|].
  intros m' Hag Hgr. exists m'.
  rewrite (copy_vacant src dst m Hsrc Hvac) in Heq.
  split; [|split; [apply grows_refl | apply agree_refl]].
  rewrite <- (copy_vacant src dst m' Hsrc (vacant_agree _ _ _ _ Hag Hvac)) at 2.
  apply (move_src_mono E src dst p m m'); try done.
  - by eapply grows_exists.
  - by eapply grows_isdir.
  - by rewrite (copy_vacant src dst m Hsrc Hvac).
Qed.

Lemma sim_find_target_metadata (type file target : string) :
  protected cache_dir dirs file = true →
  sim (find_target_metadata type file target).
Proof.
  intros Hf. unfold find_target_metadata.
  apply sim_bind; [auto with appends | by apply sim_load_json |].
  intros metadata. apply sim_blind. blind_tac.
Qed.

Lemma protected_metadata_file (d : string) :
  protected cache_dir dirs (Py.path_join d [download_metadata_file]) = true.
Proof.
  unfold protected, Py.path_join. cbn [fold_left].
  by rewrite join2_endswith.
Qed.

Lemma sim_is_download_file_exist (type target : string) :
  sim (is_download_file_exist type target cache_dir).
Proof.
  unfold is_download_file_exist.
  apply (sim_bind_post _ _ _
           (λ l, Forall (λ k, protected cache_dir dirs k = true) l)).
  - auto with appends.
  - apply sim_glob_download_metadata.
  - intros p m a p1 m1 t _ Hrun. by eapply glob_download_metadata_protected.
  - intros files Hfiles. destruct (negb (Nat.eqb (length files) 0)).
    + apply (sim_for_fold _ _ _ (λ k, protected cache_dir dirs k = true));
        [| |done].
      * intros b x. appends_tac.
      * intros b x Hx. apply sim_bind;
          [auto with appends | by apply sim_find_target_metadata |].
        intros md. apply sim_blind. blind_tac.
    + apply sim_bind;
        [auto with appends | apply sim_os_listdir, listing_protected_cache_dir |].
      intros l. apply (sim_for_fold _ _ _ (λ _, True)).
      * intros b x. appends_tac.
      * intros b x _. apply sim_blind. blind_tac.
      * by apply Forall_forall.
Qed.

End SimCalls.

(** *** The loops over the dependencies *)

Section SimEngine.

Context (E : Env) (cache_dir : string) (dirs : list string)
  (q : DependencyDirPreparator.t).
Context (Hinstaller : installer_local E) (Hcopy : copy_idle E).

#[local] Abbreviation sim := (sim cache_dir dirs q).

Ltac sim_get := apply sim_self_get; [by intros [] |].

Lemma sim_prepare_collection_dependency deps cdep :
  let out := Py.path_join (DependencyDirPreparator.dependency_dir_path q)
               ["collections"; "src"] in
  unprotected_dirs cache_dir dirs out = true →
  apart out cache_dir = true → forallb (apart out) dirs = true →
  sim (prepare_collection_dependency E deps true cache_dir cdep).
Proof.
  intros out Hun Hcache Hdirs. subst out.
  unfold prepare_collection_dependency. cbv zeta.
  do 4 sim_get.
  apply sim_bind; [auto with appends | by apply sim_makedirs_if_missing |].
  intros _.
  apply sim_bind; [auto with appends | apply sim_is_download_file_exist |].
  intros [is_exist targz_file].
  apply sim_bind.
  - appends_tac.
  - destruct is_exist.
    + apply sim_bind; [auto with appends | apply sim_blind; blind_tac |].
      intros t.
      apply sim_bind; [auto with appends
                      | apply sim_find_target_metadata, protected_metadata_file |].
      intros md. apply sim_blind. blind_tac.
    + apply sim_bind_never. intros p m a p1 m1 t.
      apply fetch_download_galaxy_collection.
  - intros [md tf].
    apply sim_bind; [auto with appends
                    | by apply sim_install_galaxy_collection_from_targz |].
    intros _. apply sim_blind. blind_tac.
Qed.

Lemma sim_prepare_role_dependency deps rdep :
  role_layout cache_dir dirs (DependencyDirPreparator.dependency_dir_path q)
    rdep = true →
  sim (prepare_role_dependency E deps true cache_dir rdep).
Proof.
  unfold role_layout, prepare_role_dependency. cbv zeta.
  destruct (role_name_of rdep) as [name|]; [|intros _; apply sim_blind; blind_tac].
  intros [[[Hun Hin]%andb_true_iff Hpr]%andb_true_iff Hls]%andb_true_iff.
  apply bool_decide_eq_true in Hin.
  apply (below_protected cache_dir dirs) in Hpr.
  do 4 sim_get.
  apply sim_bind; [auto with appends | by apply sim_makedirs_if_missing |].
  intros _.
  apply sim_bind.
  - appends_tac.
  - apply sim_bind; [auto with appends | by apply sim_os_path_exists |].
    intros e. apply sim_bind.
    + appends_tac.
    + destruct e; [|apply sim_blind; blind_tac].
      apply sim_bind; [auto with appends | by apply sim_os_listdir |].
      intros l. apply sim_blind. blind_tac.
    + intros n. apply sim_bind.
      * appends_tac.
      * destruct (e && negb (Nat.eqb n 0)).
        -- apply sim_find_target_metadata, protected_metadata_file.
        -- apply sim_bind_never. intros p m a p1 m1 t.
           apply fetch_galaxy_target_install.
      * intros md. apply sim_bind; [auto with appends | by apply sim_move_src |].
        intros _. apply sim_blind. blind_tac.
  - intros [md sub]. apply sim_blind. blind_tac.
Qed.

Lemma sim_prepare_dependency_dir deps :
  let out := Py.path_join (DependencyDirPreparator.dependency_dir_path q)
               ["collections"; "src"] in
  unprotected_dirs cache_dir dirs out = true →
  apart out cache_dir = true → forallb (apart out) dirs = true →
  forallb (role_layout cache_dir dirs
             (DependencyDirPreparator.dependency_dir_path q))
    (dependencies_roles deps) = true →
  sim (prepare_dependency_dir E deps true cache_dir).
Proof.
  intros out Hun Hcache Hdirs Hroles. unfold prepare_dependency_dir, for_each.
  apply sim_bind.
  - appends_tac.
  - apply (sim_for_fold _ _ _ (λ _, True)).
    + intros b x. auto with appends.
    + intros b x _. by apply sim_prepare_collection_dependency.
    + by apply Forall_forall.
  - intros _. apply (sim_for_fold _ _ _ (λ r, role_layout cache_dir dirs
        (DependencyDirPreparator.dependency_dir_path q) r = true)).
    + intros b x. auto with appends.
    + intros b x Hx. by apply sim_prepare_role_dependency.
    + apply Forall_forall. intros r Hr. rewrite forallb_forall in Hroles.
      by apply Hroles, list_elem_of_In.
Qed.

End SimEngine.

(** *** A cache hit for a collection *)

(** A cache hit for a collection: when the cache holds a record of the
    collection, nothing is fetched, the record found under the collection's
    own name becomes the descriptor's metadata, and the one command that runs
    installs the recorded archive into the collections directory. *)
Lemma collection_cache_hit (E : Env) (deps : Dependencies) (cache_dir : string)
    (cdep : dep_item) p m (t c1 : string) (md : DownloadMetadata.t) :
  let name := col_name_of cdep in
  let sub := Py.path_join (DependencyDirPreparator.dependency_dir_path p)
               ["collections"; "src"] in
  path_exists m sub = true →
  has_nul t = false → has_nul sub = false →
  is_download_file_exist LoadType.COLLECTION name cache_dir p m
  = Ok (true, JStr t) p m [] →
  find_target_metadata LoadType.COLLECTION
    (Py.path_join (Py.rsplit1_first "/" t) [download_metadata_file]) name p m
  = Ok (Some md) p m [] →
  Py.split "." name !! 1 = Some c1 →
  prepare_collection_dependency E deps true cache_dir cdep p m
  = Ok tt
      (with_dependency
         (Dependency.make
            (Py.path_join sub
               ["ansible_collections"; Py.first_item (Py.split "." name); c1])
            name (DownloadMetadata.set_cache_dir (JStr t) md)) p)
      (run_command E (CollectionInstall (JStr t) sub) m).2
      [Run (CollectionInstall (JStr t) sub)].
Proof.
  intros name sub Hsub Hnt Hns Hexist Hfind Hdot.
  unfold prepare_collection_dependency. cbv zeta. msimpl. fold name. fold sub.
  rewrite (makedirs_if_missing_skip sub p m Hsub).
  rewrite Hexist. cbv beta iota. unfold as_str. msimpl.
  rewrite Hfind. msimpl.
  unfold install_galaxy_collection_from_targz, run.
  cbn [command_strings existsb]. rewrite Hnt, Hns. msimpl.
  unfold collection_dir, second_item. fold name. rewrite Hdot. msimpl.
  unfold append_dependency, with_dependency. msimpl. reflexivity.
Qed.

Example collection_cache_hit_example :
  ∃ d m',
    prepare_collection_dependency cached_env sample_dependencies true "/cache"
      (DepName "a.b") sample_preparator
      (<[ "/r/collections" := Dir ]>
         (<[ "/r/collections/src" := Dir ]> sample_cache))
    = Ok tt (with_dependency d sample_preparator) m'
        [Run (CollectionInstall (JStr "/cache/collection/a.b/a-b-1.0.0.tar.gz")
                "/r/collections/src")]
    ∧ Dependency.dir d = "/r/collections/src/ansible_collections/a/b"
    ∧ Dependency.metadata d
      = DownloadMetadata.set_cache_dir
          (JStr "/cache/collection/a.b/a-b-1.0.0.tar.gz")
          sample_collection_record.
Proof.
  eexists _, _. split.
  - apply (collection_cache_hit cached_env sample_dependencies "/cache"
             (DepName "a.b") sample_preparator _
             "/cache/collection/a.b/a-b-1.0.0.tar.gz" "b"
             sample_collection_record);
      vm_compute; reflexivity.
  - split; reflexivity.
Qed.

(** *** Method bodies that list one descriptor *)

Lemma lists_bind_keeps {A} (Q : Dependency.t → Prop) (c : M A) (f : A → M unit) :
  keeps_self c → (∀ a, lists_one Q (f a)) → lists_one Q (c ≫= f).
Proof.
  intros Hc Hf p m a p2 m2 t
    (x & p1 & m1 & t1 & t2 & Hrun & Hrest & ->)%bind_Ok_inv.
  pose proof (Hc p m) as Hk. rewrite Hrun in Hk. subst p1.
  by eapply Hf.
Qed.

Lemma lists_raise (Q : Dependency.t → Prop) (e : exn) : lists_one Q (raise e).
Proof. by intros p m a p1 m1 t. Qed.

Lemma lists_append (Q : Dependency.t → Prop) (d : Dependency.t) :
  Q d → lists_one Q (append_dependency d).
Proof.
  intros Hd p m a p1 m1 t. unfold append_dependency, modify_self.
  intros [= _ <- _ _]. by exists d.
Qed.

Lemma keeps_move_src_from (E : Env) (src : json) (dst : string) :
  keeps_self (move_src_from E src dst).
Proof. unfold move_src_from. keeps. Qed.
#[local] Hint Resolve keeps_move_src_from : keeps.

Ltac lists_step :=
  match goal with
  | |- lists_one _ (mbind _ _) => apply lists_bind_keeps; [keeps | intros ?]
  | |- lists_one _ (raise _) => apply lists_raise
  | |- lists_one _ (append_dependency _) => apply lists_append; reflexivity
  | |- lists_one _ (if ?b then _ else _) => destruct b
  | |- lists_one _ (match ?x with _ => _ end) => destruct x
  end.

Lemma lists_prepare_collection_dependency (E : Env) deps ce cd cdep :
  lists_one (λ d, Dependency.name d = col_name_of cdep)
    (prepare_collection_dependency E deps ce cd cdep).
Proof. unfold prepare_collection_dependency. cbv zeta. repeat lists_step. Qed.

Lemma lists_prepare_role_dependency (E : Env) deps ce cd rdep :
  lists_one (λ d, role_name_of rdep = Some (Dependency.name d))
    (prepare_role_dependency E deps ce cd rdep).
Proof. unfold prepare_role_dependency. cbv zeta. repeat lists_step. Qed.

Lemma with_dependencies_nil p : with_dependencies [] p = p.
Proof. destruct p. unfold with_dependencies. cbn. by rewrite app_nil_r. Qed.

Lemma with_dependencies_cons d ds p :
  with_dependencies ds (with_dependency d p) = with_dependencies (d :: ds) p.
Proof.
  destruct p. unfold with_dependencies, with_dependency. cbn.
  by rewrite <- app_assoc.
Qed.

Lemma with_dependencies_app ds1 ds2 p :
  with_dependencies ds2 (with_dependencies ds1 p) = with_dependencies (ds1 ++ ds2) p.
Proof.
  destruct p. unfold with_dependencies. cbn. by rewrite <- app_assoc.
Qed.

Lemma lists_for_each {A} (Q : A → Dependency.t → Prop) (body : A → M unit)
    (l : list A) p m a p1 m1 t :
  (∀ x, lists_one (Q x) (body x)) →
  for_each body l p m = Ok a p1 m1 t →
  ∃ ds, p1 = with_dependencies ds p ∧ Forall2 Q l ds.
Proof.
  intros Hbody. unfold for_each. revert p m t.
  induction l as [|x l IH]; intros p m t.
  - cbn. intros [= _ <- _ _]. exists []. by rewrite with_dependencies_nil.
  - cbn [for_fold].
    intros ([] & pa & ma & ta & tb & Hstep & Hrest & ->)%bind_Ok_inv.
    destruct (Hbody x _ _ _ _ _ _ Hstep) as (d & -> & Hd).
    destruct (IH _ _ _ Hrest) as (ds & -> & Hds).
    exists (d :: ds). split; [apply with_dependencies_cons | by constructor].
Qed.

Lemma Forall2_names {A} (f : A → string) (l : list A) (ds : list Dependency.t) :
  Forall2 (λ c d, Dependency.name d = f c) l ds →
  Dependency.name <$> ds = f <$> l.
Proof. induction 1 as [|c d l ds Hd _ IH]; [done|]. cbn. by rewrite Hd, IH. Qed.

Lemma Forall2_some_names {A} (g : A → option string) (l : list A)
    (ds : list Dependency.t) :
  Forall2 (λ r d, g r = Some (Dependency.name d)) l ds →
  Some <$> (Dependency.name <$> ds) = g <$> l.
Proof. induction 1 as [|r d l ds Hd _ IH]; [done|]. cbn. by rewrite Hd, IH. Qed.

Lemma prepare_dependency_dir_lists (E : Env) (deps : Dependencies)
    (cache_enabled : bool) (cache_dir : string) p m a p1 m1 t :
  prepare_dependency_dir E deps cache_enabled cache_dir p m = Ok a p1 m1 t →
  ∃ ds, p1 = with_dependencies ds p
        ∧ length ds = length (dependencies_collections deps)
                      + length (dependencies_roles deps).
Proof.
  unfold prepare_dependency_dir.
  intros ([] & pa & ma & ta & tb & Hcols & Hroles & ->)%bind_Ok_inv.
  destruct (lists_for_each (λ c d, Dependency.name d = col_name_of c)
              _ _ _ _ _ _ _ _
              (lists_prepare_collection_dependency E deps cache_enabled cache_dir)
              Hcols) as (cs & -> & Hcs).
  destruct (lists_for_each (λ r d, role_name_of r = Some (Dependency.name d))
              _ _ _ _ _ _ _ _
              (lists_prepare_role_dependency E deps cache_enabled cache_dir)
              Hroles) as (rs & -> & Hrs).
  exists (cs ++ rs). split; [apply with_dependencies_app|].
  rewrite length_app.
  by rewrite (Forall2_length _ _ _ Hcs), (Forall2_length _ _ _ Hrs).
Qed.

(** *** Two runs of [prepare_dir] *)

Lemma with_base_dirs_fields p :
  DependencyDirPreparator.download_location (with_base_dirs p)
  = Py.path_join (DependencyDirPreparator.root_dir p) ["archives"]
  ∧ DependencyDirPreparator.dependency_dir_path (with_base_dirs p)
    = DependencyDirPreparator.root_dir p
  ∧ DependencyDirPreparator.dependency_dirs (with_base_dirs p)
    = DependencyDirPreparator.dependency_dirs p.
Proof. by destruct p. Qed.

Lemma setup_dirs_run (cd : string) p m :
  setup_dirs true cd p m
  = (makedirs_if_missing
       (Py.path_join (DependencyDirPreparator.root_dir p) ["archives"]);;
     makedirs_if_missing cd;;
     makedirs_if_missing (DependencyDirPreparator.root_dir p))
      (with_base_dirs p) m.
Proof.
  unfold setup_dirs. msimpl.
  replace (DependencyDirPreparator.set_dependency_dir_path _ _)
    with (with_base_dirs p) by (by destruct p).
  destruct (with_base_dirs_fields p) as (-> & Hddp & _).
  destruct (makedirs_if_missing _ (with_base_dirs p) m) as [[] p1 m1 t1|] eqn:H1;
    [|done].
  apply makedirs_if_missing_inv in H1 as (_ & -> & _ & _).
  destruct (makedirs_if_missing cd (with_base_dirs p) m1) as [[] p2 m2 t2|] eqn:H2;
    [|done].
  apply makedirs_if_missing_inv in H2 as (_ & -> & _ & _).
  rewrite Hddp.
  destruct (makedirs_if_missing _ (with_base_dirs p) m2) as [[] p3 m3 t3|e p3 m3 t3];
    by rewrite ?app_nil_r.
Qed.

Lemma setup_dirs_inv (cd : string) p m a pa ma ta :
  setup_dirs true cd p m = Ok a pa ma ta →
  let root := DependencyDirPreparator.root_dir p in
  pa = with_base_dirs p ∧ ta = []
  ∧ ma = made_dirs cd root m
  ∧ path_exists ma (Py.path_join root ["archives"]) = true
  ∧ path_exists ma cd = true
  ∧ path_exists ma root = true
  ∧ grows m ma
  ∧ (∀ ds, unprotected_dirs cd ds (Py.path_join root ["archives"]) = true →
     unprotected_dirs cd ds cd = true → unprotected_dirs cd ds root = true →
     agree cd ds m ma).
Proof.
  rewrite setup_dirs_run. msimpl.
  set (p' := with_base_dirs p).
  set (root := DependencyDirPreparator.root_dir p).
  set (x1 := Py.path_join root ["archives"]).
  destruct (can_makedirs m x1) eqn:H1;
    [rewrite (makedirs_if_missing_ok x1 p' m H1)
    |destruct (makedirs_if_missing_fails x1 p' m H1) as [e ->]; done].
  set (m1 := with_dirs m x1).
  destruct (can_makedirs m1 cd) eqn:H2;
    [rewrite (makedirs_if_missing_ok cd p' m1 H2)
    |destruct (makedirs_if_missing_fails cd p' m1 H2) as [e ->]; done].
  set (m2 := with_dirs m1 cd).
  destruct (can_makedirs m2 root) eqn:H3;
    [rewrite (makedirs_if_missing_ok root p' m2 H3)
    |destruct (makedirs_if_missing_fails root p' m2 H3) as [e ->]; done].
  intros [= _ <- <- <-].
  pose proof (with_dirs_grows m x1 H1) as G1.
  pose proof (with_dirs_grows m1 cd H2) as G2.
  pose proof (with_dirs_grows m2 root H3) as G3.
  split; [done|]. split; [done|]. split; [done|].
  split; [eapply grows_exists; [eapply grows_trans; [exact G2 | exact G3]|];
          by apply with_dirs_exists|].
  split; [eapply grows_exists; [exact G3|]; by apply with_dirs_exists|].
  split; [by apply with_dirs_exists|].
  split; [eapply grows_trans; [exact G1|]; eapply grows_trans; [exact G2 | exact G3]|].
  intros ds U1 U2 U3.
  eapply agree_trans; [by apply with_dirs_agree|].
  eapply agree_trans; by apply with_dirs_agree.
Qed.

Lemma setup_dirs_skip (cd : string) p m :
  path_exists m (Py.path_join (DependencyDirPreparator.root_dir p) ["archives"])
  = true →
  path_exists m cd = true →
  path_exists m (DependencyDirPreparator.root_dir p) = true →
  setup_dirs true cd p m = Ok tt (with_base_dirs p) m [].
Proof.
  intros H1 H2 H3. rewrite setup_dirs_run. msimpl.
  rewrite (makedirs_if_missing_skip _ _ m H1).
  rewrite (makedirs_if_missing_skip _ _ m H2).
  by rewrite (makedirs_if_missing_skip _ _ m H3).
Qed.

Lemma with_base_dirs_fixed p pb :
  strip pb = strip (with_base_dirs p) → with_base_dirs pb = pb.
Proof.
  destruct p, pb. unfold strip, with_base_dirs. cbn.
  intros H. by injection H as -> -> -> -> -> -> -> -> -> -> -> -> -> ->.
Qed.

Lemma strip_fields a b :
  strip a = strip b →
  DependencyDirPreparator.root_dir a = DependencyDirPreparator.root_dir b
  ∧ DependencyDirPreparator.target_type a = DependencyDirPreparator.target_type b
  ∧ DependencyDirPreparator.target_path a = DependencyDirPreparator.target_path b
  ∧ DependencyDirPreparator.target_dependency_dir a
    = DependencyDirPreparator.target_dependency_dir b.
Proof.
  destruct a, b. unfold strip. cbn.
  intros H. by injection H as -> -> -> -> -> -> -> -> -> -> -> -> -> ->.
Qed.

Lemma prepare_dir_run (E : Env) (ri : bool) (cd : string) p m :
  prepare_dir E ri true true cd p m
  = match setup_dirs true cd p m with
    | Ok _ pa ma ta =>
        let ev := FindDependency (DependencyDirPreparator.target_type pa)
                    (DependencyDirPreparator.target_path pa)
                    (DependencyDirPreparator.target_dependency_dir pa) in
        let deps := find_dependency E (DependencyDirPreparator.target_type pa)
                      (DependencyDirPreparator.target_path pa)
                      (DependencyDirPreparator.target_dependency_dir pa) ma in
        match prepare_dependency_dir E deps true cd pa ma with
        | Ok _ pb mb tb => Ok dependency_dirs_of_self pb mb (ta ++ ev :: tb)
        | Raise e pb mb tb => Raise e pb mb (ta ++ ev :: tb)
        end
    | Raise e pa ma ta => Raise e pa ma ta
    end.
Proof.
  unfold prepare_dir, prepare_root_dir. rewrite bind_run.
  destruct (setup_dirs true cd p m) as [[] pa ma ta|]; [|done].
  msimpl.
  destruct (prepare_dependency_dir E _ true cd pa ma) as [[] pb mb tb|e pb mb tb];
    cbn; by rewrite ?app_nil_r.
Qed.

(** The programs of the examples meet what the theorem below asks of an
    installer and of a copy. *)
Lemma last_char_unique (a b : string) (x y : ascii) :
  a +:+ String x "" = b +:+ String y "" → x = y.
Proof.
  revert b. induction a as [|c a IH]; intros [|d b]; cbn.
  - by intros [= ->].
  - intros [= _ Hb]. by destruct b.
  - intros [= _ Ha]. by destruct a.
  - intros [= _ Hab]. by apply (IH b).
Qed.

Lemma join2_app (a b : string) :
  Py.startswith b "/" = false → Py.join2 a b = Py.join2 a "" +:+ b.
Proof.
  intros Hb. unfold Py.join2. rewrite Hb. cbn [Py.startswith String.prefix].
  destruct (String.eqb a "" || Py.endswith a "/").
  - by rewrite string_app_empty_r.
  - change ("/" +:+ "") with "/". by rewrite string_app_assoc.
Qed.

Lemma filter_none {A} (P : A → Prop) `{!∀ x, Decision (P x)} (l : list A) :
  (∀ x, x ∈ l → ¬ P x) → filter P l = [].
Proof.
  induction l as [|x l IH]; [done|]. intros Hl. rewrite filter_cons.
  destruct (decide (P x)) as [Hx|_].
  - destruct (Hl x); [by left | done].
  - apply IH. intros y Hy. apply Hl. by right.
Qed.

Lemma working_env_installer : installer_local working_env.
Proof.
  intros tarfile out m. cbn [working_env run_command snd]. split.
  - intros k. destruct (decide (k = Py.path_join out ["ansible_collections"]))
      as [->|Hne].
    + rewrite lookup_insert_eq. eauto.
    + by rewrite lookup_insert_ne.
  - intros k Hk. apply lookup_insert_ne. intros <-.
    destruct Hk as [Hk|Hk].
    + unfold below, Py.path_join in Hk. cbn [fold_left] in Hk.
      rewrite (join2_app out "ansible_collections" eq_refl) in Hk.
      by rewrite prefix_app in Hk.
    + apply endswith_spec in Hk as [a Ha].
      unfold Py.path_join in Ha. cbn [fold_left] in Ha.
      pose proof (join2_endswith out "ansible_collections") as He.
      apply endswith_spec in He as [b Hb]. rewrite Hb in Ha.
      change "ansible_collections" with ("ansible_collection" +:+ "s") in Ha.
      change download_metadata_file with ("download_meta.jso" +:+ "n") in Ha.
      rewrite <- !string_app_assoc in Ha.
      by apply last_char_unique in Ha.
Qed.

Lemma working_env_copy : copy_idle working_env.
Proof.
  intros src dst m Hnone. cbn [working_env run_command snd]. unfold copy_tree.
  destruct (path_isdir m dst); [|done].
  assert (filter (λ k, below src k = true) (listing m) = []) as ->; [|done].
  apply filter_none. intros k [n Hn]%elem_of_listing Hk.
  rewrite (Hnone k Hk) in Hn. done.
Qed.

(** C2, as the code has it.  [prepare_dir] returns the list object the
    preparator holds, and no run empties it: a second run appends to what
    the first left.  Take a run with the cache enabled and the source
    installed that returns without fetching, the directories of the roles
    having no entries, and run again from the object and the file system it
    left.  The second run returns too, with the same events, so it fetches
    nothing, and it returns the same list object: what that holds after the
    first run, followed once more by the descriptors the first run added,
    one for each dependency.  So the list the first call returned has grown
    as well, and on an object that began with no descriptors every
    descriptor is there twice.  The installer is taken to delete nothing and
    to write below its output directory only, and no metadata file; the
    copy to change nothing when the source has no entries; the finder to
    give the same dependencies on both runs; and the directories under the
    root to lie apart from the cache. *)
Theorem prepare_dir_twice_appends (E : Env) (cache_dir : string)
    (root_install : bool) (deps : Dependencies) p m r p1 m1 t1 :
  let root := DependencyDirPreparator.root_dir p in
  let found := find_dependency E (DependencyDirPreparator.target_type p)
                 (DependencyDirPreparator.target_path p)
                 (DependencyDirPreparator.target_dependency_dir p) in
  installer_local E →
  copy_idle E →
  found (made_dirs cache_dir root m) = deps →
  found m1 = deps →
  layout cache_dir root deps = true →
  vacant (role_dirs root deps) m = true →
  prepare_dir E root_install true true cache_dir p m = Ok r p1 m1 t1 →
  no_fetch t1 = true →
  ∃ new p2 m2,
    deref r p1 = DependencyDirPreparator.dependency_dirs p ++ new
    ∧ length new = length (dependencies_collections deps)
                   + length (dependencies_roles deps)
    ∧ prepare_dir E root_install true true cache_dir p1 m1 = Ok r p2 m2 t1
    ∧ deref r p2 = (DependencyDirPreparator.dependency_dirs p ++ new) ++ new.
Proof.
  intros root found Hinst Hcopy Hdeps1 Hdeps2 Hlay Hvac Hrun Hnf.
  rewrite prepare_dir_run in Hrun.
  destruct (setup_dirs true cache_dir p m) as [[] pa ma ta|] eqn:Hs; [|done].
  apply setup_dirs_inv in Hs as (-> & -> & Hma & Hex1 & Hex2 & Hex3 & Hg0 & Ha0).
  cbv zeta in Hrun.
  set (dirs := role_dirs root deps) in *.
  unfold layout in Hlay. cbv zeta in Hlay. fold dirs in Hlay.
  apply andb_true_iff in Hlay as [Hlay Hroles].
  apply andb_true_iff in Hlay as [Hlay Hdirs].
  apply andb_true_iff in Hlay as [Hlay Hapart].
  apply andb_true_iff in Hlay as [Hlay Hcol].
  apply andb_true_iff in Hlay as [Hlay Hroot].
  apply andb_true_iff in Hlay as [Harch Hcache].
  specialize (Ha0 dirs Harch Hcache Hroot).
  assert (Hf : DependencyDirPreparator.root_dir (with_base_dirs p)
               = DependencyDirPreparator.root_dir p
             ∧ DependencyDirPreparator.target_type (with_base_dirs p)
               = DependencyDirPreparator.target_type p
             ∧ DependencyDirPreparator.target_path (with_base_dirs p)
               = DependencyDirPreparator.target_path p
             ∧ DependencyDirPreparator.target_dependency_dir (with_base_dirs p)
               = DependencyDirPreparator.target_dependency_dir p)
    by (by destruct p).
  destruct Hf as (Hf1 & Hf2 & Hf3 & Hf4).
  rewrite Hf2, Hf3, Hf4 in Hrun. fold found in Hrun.
  rewrite Hma in Hrun at 1. fold root in Hrun. rewrite Hdeps1 in Hrun.
  destruct (prepare_dependency_dir E deps true cache_dir (with_base_dirs p) ma)
    as [[] pb mb tb|] eqn:Hd; [|done].
  destruct r. injection Hrun as <- <- <-.
  assert (Hnb : no_fetch tb = true) by exact Hnf.
  destruct (with_base_dirs_fields p) as (_ & Hddp & Hdd).
  assert (Hq : DependencyDirPreparator.dependency_dir_path
                 (strip (with_base_dirs p))
               = DependencyDirPreparator.root_dir p) by (by destruct p).
  pose proof (sim_prepare_dependency_dir E cache_dir dirs
                (strip (with_base_dirs p)) Hinst Hcopy deps) as Hsim.
  rewrite Hq in Hsim. cbv zeta in Hsim.
  destruct (Hsim Hcol Hapart Hdirs Hroles (with_base_dirs p) ma tt pb mb tb
              eq_refl (vacant_agree _ _ _ _ Ha0 Hvac) Hd Hnb)
    as (Hg & Ha & Hrel).
  destruct (Hrel mb Ha (grows_refl mb)) as (mb' & Hd2 & _ & _).
  pose proof (appends_prepare_dependency_dir E deps true cache_dir
                (with_base_dirs p) mb) as Hfr1.
  pose proof (appends_prepare_dependency_dir E deps true cache_dir pb mb) as Hfr2.
  assert (Hsb : strip pb = strip (with_base_dirs p)).
  { eapply appends_strip; [apply appends_prepare_dependency_dir | exact Hd]. }
  rewrite Hsb in Hfr2.
  destruct (prepare_dependency_dir E deps true cache_dir
              (strip (with_base_dirs p)) mb) as [[] px mx tx|] eqn:Hx;
    destruct Hfr1 as [_ Hfr1]; rewrite Hd2 in Hfr1; [|done].
  destruct Hfr2 as [_ Hfr2].
  injection Hfr1 as Hpb <- <-.
  destruct (prepare_dependency_dir_lists _ _ _ _ _ _ _ _ _ _ Hx)
    as (ds & Hpx & Hlen).
  assert (Hnew : DependencyDirPreparator.dependency_dirs px = ds).
  { rewrite Hpx. by destruct p. }
  destruct (strip_fields pb (with_base_dirs p) Hsb) as (Hb1 & Hb2 & Hb3 & Hb4).
  exists ds, (rebase pb px), mb'.
  assert (Hl1 : DependencyDirPreparator.dependency_dirs pb
                = DependencyDirPreparator.dependency_dirs p ++ ds).
  { rewrite Hpb. unfold rebase. rewrite Hnew, <- Hdd. by destruct (with_base_dirs p). }
  split; [exact Hl1|]. split; [exact Hlen|].
  split.
  - rewrite prepare_dir_run.
    rewrite (setup_dirs_skip cache_dir pb mb).
    + rewrite (with_base_dirs_fixed p pb Hsb). cbv zeta.
      rewrite Hb2, Hb3, Hb4, Hf2, Hf3, Hf4. fold found.
      rewrite Hdeps2. by rewrite Hfr2.
    + rewrite Hb1, Hf1. by eapply grows_exists.
    + by eapply grows_exists.
    + rewrite Hb1, Hf1. by eapply grows_exists.
  - cbn [deref]. unfold rebase. rewrite Hl1, Hnew. by destruct pb.
Qed.

Lemma prepare_dir_twice_appends_witness :
  ∃ r p1 m1 t1 new p2 m2,
    prepare_dir working_env true true true "/cache" sample_preparator sample_cache
    = Ok r p1 m1 t1
    ∧ deref r p1 = new
    ∧ length new = 2
    ∧ prepare_dir working_env true true true "/cache" p1 m1 = Ok r p2 m2 t1
    ∧ deref r p2 = new ++ new.
Proof.
  assert (∃ r p1 m1 t1,
            prepare_dir working_env true true true "/cache" sample_preparator
              sample_cache = Ok r p1 m1 t1
            ∧ no_fetch t1 = true) as (r & p1 & m1 & t1 & Hrun & Hnf).
  { do 4 eexists. split; vm_compute; reflexivity. }
  destruct (prepare_dir_twice_appends working_env "/cache" true
              sample_dependencies sample_preparator sample_cache r p1 m1 t1)
    as (new & p2 & m2 & H1 & H2 & H3 & H4).
  - exact working_env_installer.
  - exact working_env_copy.
  - reflexivity.
  - reflexivity.
  - vm_compute. reflexivity.
  - vm_compute. reflexivity.
  - exact Hrun.
  - exact Hnf.
  - exists r, p1, m1, t1, new, p2, m2.
    split; [exact Hrun|]. split; [exact H1|]. split; [exact H2|].
    split; [exact H3 | exact H4].
Defined.

(** C2 fails as stated: the descriptor list of the second run is not that
    of the first.  On the cached collection [a.b] and role [x.y], with
    programs that install and copy, the first run leaves two descriptors in
    the list it returns, and the second, from the object and the file system
    the first left, returns the same list object holding four, the same two
    twice.  Neither run fetches. *)
Lemma prepare_dir_twice_differs :
  ∃ d1 d2 r p1 m1 t p2 m2,
    DependencyDirPreparator.dependency_dirs sample_preparator = []
    ∧ prepare_dir working_env true true true "/cache" sample_preparator
        sample_cache = Ok r p1 m1 t
    ∧ no_fetch t = true
    ∧ deref r p1 = [d1; d2]
    ∧ prepare_dir working_env true true true "/cache" p1 m1 = Ok r p2 m2 t
    ∧ deref r p2 = [d1; d2; d1; d2]
    ∧ deref r p2 ≠ deref r p1
    ∧ Dependency.name d1 = "a.b" ∧ Dependency.name d2 = "x.y".
Proof.
  eexists (Dependency.make _ _ _), (Dependency.make _ _ _), _, _, _, _, _, _.
  split; [reflexivity|].
  split; [vm_compute; reflexivity|].
  split; [vm_compute; reflexivity|].
  split; [vm_compute; reflexivity|].
  split; [vm_compute; reflexivity|].
  split; [vm_compute; reflexivity|].
  split; [vm_compute; discriminate|].
  split; reflexivity.
Qed.
(** * Further properties of the module *)

(** ** The metadata store *)

Lemma json_eq_str_true (j : json) (s : string) :
  json_eq_str j s = true → j = JStr s.
Proof. destruct j; try done. cbn. by intros ->%String.eqb_eq. Qed.

Lemma find_in_list_found (target : string) (l : list json) p m dm p1 m1 t :
  find_in_list target l p m = Ok (Some dm) p1 m1 t →
  p1 = p ∧ m1 = m ∧ t = [] ∧ DownloadMetadata.name dm = JStr target
  ∧ ∃ data, data ∈ l ∧ record_of data = Some dm.
Proof.
  induction l as [|x l IH]; cbn [find_in_list]; [done|].
  rewrite bind_run. unfold construct.
  destruct (record_of x) as [d|] eqn:Hx; [|done]. msimpl.
  destruct (json_eq_str (DownloadMetadata.name d) target) eqn:Hn.
  - msimpl. intros [= <- <- <- <-]. repeat split; try done.
    + by apply json_eq_str_true.
    + exists x. split; [by left | done].
  - destruct (find_in_list target l p m) as [a p' m' t'|] eqn:Hl; [|done].
    intros [= -> -> -> <-].
    destruct (IH eq_refl) as (-> & -> & -> & Hname & data & Hin & Hrec).
    repeat split; try done. exists data. split; [by right | done].
Qed.

(** The scan of the section [key] of a loaded file [j]. *)
Lemma section_scan_found (j : json) (key target : string) p m dm p1 m1 t :
  (metadata_list ← dict_get j key (JArr []);
   items ← json_iter metadata_list;
   find_in_list target items) p m = Ok (Some dm) p1 m1 t →
  DownloadMetadata.name dm = JStr target ∧ p1 = p ∧ m1 = m ∧ t = []
  ∧ ∃ mo items data, j = JObj mo ∧ mo !! key = Some (JArr items)
      ∧ data ∈ items ∧ record_of data = Some dm.
Proof.
  intros (l & pa & ma & ta & tb & Hget & Hrest & ->)%bind_Ok_inv.
  apply bind_Ok_inv in Hrest as (items & pb & mb & tc & td & Hiter & Hfind & ->).
  destruct (find_in_list_found _ _ _ _ _ _ _ _ Hfind)
    as (-> & -> & -> & Hn & data & Hin & Hrec).
  destruct j as [| | | |l'|mo]; try done.
  cbn in Hget. injection Hget as <- <- <- <-.
  destruct (mo !! key) as [[| | |s|items'|mo']|] eqn:Hk;
    cbn in Hiter; try done; injection Hiter as <- <- <- <-.
  - apply list_elem_of_fmap in Hin as (c & -> & _). done.
  - repeat split; try done. by exists mo, items', data.
  - apply list_elem_of_fmap in Hin as (c & -> & _). done.
  - by apply elem_of_nil in Hin.
Qed.

Lemma find_target_metadata_found (type file target : string) p m dm p1 m1 t :
  find_target_metadata type file target p m = Ok (Some dm) p1 m1 t →
  DownloadMetadata.name dm = JStr target
  ∧ (type = LoadType.COLLECTION ∨ type = LoadType.ROLE)
  ∧ p1 = p ∧ m1 = m ∧ t = []
  ∧ ∃ mo items data,
      m !! file = Some (File (CJson (JObj mo)))
      ∧ mo !! section_key type = Some (JArr items)
      ∧ data ∈ items ∧ record_of data = Some dm.
Proof.
  unfold find_target_metadata.
  intros (j & pa & ma & ta & tb & Hload & Hrest & ->)%bind_Ok_inv.
  unfold load_json in Hload. msimpl.
  destruct (m !! file) as [[|[j'|s|ms]]|] eqn:Hm; try done.
  injection Hload as <- <- <- <-.
  destruct (String.eqb_spec type LoadType.COLLECTION) as [->|Hc].
  - destruct (section_scan_found _ _ _ _ _ _ _ _ _ Hrest)
      as (Hn & -> & -> & -> & mo & items & data & -> & Hk & Hin & Hrec).
    repeat split; try done; [by left|]. by exists mo, items, data.
  - destruct (String.eqb_spec type LoadType.ROLE) as [->|Hr].
    + destruct (section_scan_found _ _ _ _ _ _ _ _ _ Hrest)
        as (Hn & -> & -> & -> & mo & items & data & -> & Hk & Hin & Hrec).
      repeat split; try done; [by right|]. by exists mo, items, data.
    + unfold logging_warning in Hrest. msimpl. done.
Qed.

(** X1.  What [find_target_metadata] returns: a record it returns is named
    as asked and is the record of an item of the section of the type in the
    file; the type is then one of the two that have a section, and the call
    has changed nothing and logged no warning. *)
Theorem find_target_metadata_sound (type file target : string) p m dm p1 m1 t :
  find_target_metadata type file target p m = Ok (Some dm) p1 m1 t →
  DownloadMetadata.name dm = JStr target
  ∧ (type = LoadType.COLLECTION ∨ type = LoadType.ROLE)
  ∧ p1 = p ∧ m1 = m ∧ t = []
  ∧ ∃ mo items data,
      m !! file = Some (File (CJson (JObj mo)))
      ∧ mo !! section_key type = Some (JArr items)
      ∧ data ∈ items ∧ record_of data = Some dm.
Proof. apply find_target_metadata_found. Qed.

Lemma find_target_metadata_sound_witness :
  DownloadMetadata.name sample_role_record = JStr "x.y".
Proof.
  apply (find_target_metadata_sound LoadType.ROLE
           "/cache/roles/src/x.y/download_meta.json" "x.y" sample_preparator
           sample_role_cache sample_role_record sample_preparator
           sample_role_cache []).
  vm_compute. reflexivity.
Defined.

Lemma find_in_list_skip (target : string) (pre l : list json) p m :
  Forall (λ x, ∃ d, record_of x = Some d
                    ∧ json_eq_str (DownloadMetadata.name d) target = false) pre →
  find_in_list target (pre ++ l) p m = find_in_list target l p m.
Proof.
  induction 1 as [|x pre (d & Hx & Hn) _ IH]; [done|].
  change ((x :: pre) ++ l) with (x :: (pre ++ l)).
  cbn [find_in_list]. rewrite bind_run. unfold construct. rewrite Hx. msimpl.
  rewrite Hn, IH. by destruct (find_in_list target l p m).
Qed.

(** X2.  The scan stops at the first item that is a record named as asked
    or stands for no record: behind items that are records with other
    names, a record of the name is returned and an item that stands for no
    record raises [TypeError]; what follows in the list is not looked at. *)
Theorem find_target_metadata_scan (type file target : string)
    (mo : gmap string json) (pre rest : list json) (data : json) p m :
  type = LoadType.COLLECTION ∨ type = LoadType.ROLE →
  m !! file = Some (File (CJson (JObj mo))) →
  mo !! section_key type = Some (JArr (pre ++ data :: rest)) →
  Forall (λ x, ∃ d, record_of x = Some d
                    ∧ json_eq_str (DownloadMetadata.name d) target = false) pre →
  (∀ d, record_of data = Some d →
        json_eq_str (DownloadMetadata.name d) target = true →
        find_target_metadata type file target p m = Ok (Some d) p m [])
  ∧ (record_of data = None →
     find_target_metadata type file target p m = Raise TypeError p m []).
Proof.
  intros Hty Hm Hk Hpre.
  rewrite (find_target_metadata_section type file target mo _ p m Hty Hm Hk).
  rewrite (find_in_list_skip target pre (data :: rest) p m Hpre).
  cbn [find_in_list]. rewrite bind_run. unfold construct.
  split.
  - intros d -> Hn. msimpl. by rewrite Hn.
  - by intros ->.
Qed.

Lemma find_target_metadata_scan_witness :
  find_target_metadata LoadType.ROLE "/f" "b" sample_preparator
    {[ "/f" := File (CJson (JObj {[ "roles" :=
         JArr [JObj {[ "name" := JStr "a" ]}; JObj {[ "nom" := JStr "b" ]};
               JObj {[ "name" := JStr "b" ]}] ]})) ]}
  = Raise TypeError sample_preparator
      {[ "/f" := File (CJson (JObj {[ "roles" :=
           JArr [JObj {[ "name" := JStr "a" ]}; JObj {[ "nom" := JStr "b" ]};
                 JObj {[ "name" := JStr "b" ]}] ]})) ]} [].
Proof.
  eapply (find_target_metadata_scan LoadType.ROLE "/f" "b" _
            [JObj {[ "name" := JStr "a" ]}] [JObj {[ "name" := JStr "b" ]}]
            (JObj {[ "nom" := JStr "b" ]})).
  - by right.
  - reflexivity.
  - reflexivity.
  - constructor; [|constructor].
    exists (DownloadMetadata.set_name (JStr "a") DownloadMetadata.init).
    split; vm_compute; reflexivity.
  - vm_compute. reflexivity.
Defined.

(** X3.  [update_metadata] for a name no record of the section has writes
    nothing: the file is not even rewritten.  This covers a file without
    the section. *)
Theorem update_metadata_absent_target (type file target key : string)
    (value : json) (mo : gmap string json) (items : list json) p m :
  type = LoadType.COLLECTION ∨ type = LoadType.ROLE →
  m !! file = Some (File (CJson (JObj mo))) →
  default (JArr []) (mo !! section_key type) = JArr items →
  Forall (λ data, is_Some (record_of data)) items →
  existsb (item_named target) items = false →
  update_metadata type file target key value p m = Ok tt p m [].
Proof.
  intros Hty Hm Hk Hrec Hno.
  destruct (mo !! section_key type) as [j|] eqn:Hs.
  - cbn in Hk. subst j.
    by apply (update_metadata_run_no_hit type file target key value mo items).
  - cbn in Hk. injection Hk as <-.
    unfold update_metadata, load_json. msimpl. rewrite Hm. msimpl.
    destruct Hty as [-> | ->]; cbn [String.eqb Ascii.eqb Bool.eqb orb];
      unfold dict_get; msimpl; rewrite Hs; reflexivity.
Qed.

Lemma update_metadata_absent_target_witness :
  update_metadata LoadType.COLLECTION "/f" "a.b" "version" (JStr "2")
    sample_preparator
    {[ "/f" := File (CJson (JObj {[ "roles" :=
         JArr [JObj {[ "name" := JStr "a.b" ]}] ]})) ]}
  = Ok tt sample_preparator
      {[ "/f" := File (CJson (JObj {[ "roles" :=
           JArr [JObj {[ "name" := JStr "a.b" ]}] ]})) ]} [].
Proof.
  apply (update_metadata_absent_target LoadType.COLLECTION "/f" "a.b" "version"
           (JStr "2") {[ "roles" := JArr [JObj {[ "name" := JStr "a.b" ]}] ]} []).
  - by left.
  - reflexivity.
  - reflexivity.
  - constructor.
  - reflexivity.
Defined.

(** X4.  [update_metadata] rewrites every record of the name in the section
    of the type, not only the first one a lookup returns, and nothing else:
    the records with other names keep their place and their value, the list
    keeps its length, the other entries of the file and the other files are
    as before.  The key is a field of the schema or any other name but the
    four special attributes, for which the update fails or replaces what a
    record holds. *)
Theorem update_metadata_records (type file target key : string) (value : json)
    (mo : gmap string json) (items : list json) p m :
  type = LoadType.COLLECTION ∨ type = LoadType.ROLE →
  m !! file = Some (File (CJson (JObj mo))) →
  mo !! section_key type = Some (JArr items) →
  Forall (λ data, is_Some (record_of data)) items →
  key ∉ special_attributes →
  ∃ m1 mo' items',
    update_metadata type file target key value p m = Ok tt p m1 []
    ∧ (∀ k, k ≠ file → m1 !! k = m !! k)
    ∧ m1 !! file = Some (File (CJson (JObj mo')))
    ∧ (∀ k, k ≠ section_key type → mo' !! k = mo !! k)
    ∧ mo' !! section_key type = Some (JArr items')
    ∧ length items' = length items
    ∧ ∀ i data dm,
        items !! i = Some data → record_of data = Some dm →
        items' !! i
        = Some (if json_eq_str (DownloadMetadata.name dm) target
                then JObj (DownloadMetadata.asdict (set_field key value dm))
                else data).
Proof.
  intros Hty Hm Hs Hrec Hkey.
  rewrite (update_metadata_run type file target key value Hkey mo items p m
             Hty Hm Hs Hrec).
  assert (Hpoint : ∀ i data dm,
            items !! i = Some data → record_of data = Some dm →
            (updated_item target key value <$> items) !! i
            = Some (if json_eq_str (DownloadMetadata.name dm) target
                    then JObj (DownloadMetadata.asdict (set_field key value dm))
                    else data)).
  { intros i data dm Hi Hd. rewrite list_lookup_fmap, Hi. cbn.
    unfold updated_item. by rewrite Hd. }
  destruct (existsb (item_named target) items) eqn:Hhit.
  - eexists _, _, (updated_item target key value <$> items).
    split; [reflexivity|].
    split; [intros k Hk; by rewrite lookup_insert_ne|].
    split; [by rewrite lookup_insert_eq|].
    split; [intros k Hk; by rewrite lookup_insert_ne|].
    split; [by rewrite lookup_insert_eq|].
    split; [by rewrite length_fmap | exact Hpoint].
  - rewrite (upd_no_hit target key value items Hhit) in Hpoint.
    exists m, mo, items. split; [reflexivity|].
    split; [done|]. split; [done|]. split; [done|]. split; [done|].
    split; [done | exact Hpoint].
Qed.

Lemma update_metadata_records_witness :
  ∃ m1 mo' items',
    update_metadata LoadType.ROLE "/f" "b" "version" (JStr "2")
      sample_preparator
      {[ "/f" := File (CJson (JObj {[ "roles" :=
           JArr [JObj {[ "name" := JStr "b" ]}; JObj {[ "name" := JStr "a" ]};
                 JObj {[ "name" := JStr "b" ]}] ]})) ]}
    = Ok tt sample_preparator m1 []
    ∧ m1 !! "/f" = Some (File (CJson (JObj mo')))
    ∧ mo' !! "roles" = Some (JArr items')
    ∧ length items' = 3.
Proof.
  destruct (update_metadata_records LoadType.ROLE "/f" "b" "version" (JStr "2")
              {[ "roles" :=
                   JArr [JObj {[ "name" := JStr "b" ]};
                         JObj {[ "name" := JStr "a" ]};
                         JObj {[ "name" := JStr "b" ]}] ]}
              [JObj {[ "name" := JStr "b" ]}; JObj {[ "name" := JStr "a" ]};
               JObj {[ "name" := JStr "b" ]}]
              sample_preparator
              {[ "/f" := File (CJson (JObj {[ "roles" :=
                   JArr [JObj {[ "name" := JStr "b" ]};
                         JObj {[ "name" := JStr "a" ]};
                         JObj {[ "name" := JStr "b" ]}] ]})) ]})
    as (m1 & mo' & items' & H1 & _ & H2 & _ & H3 & H4 & _).
  - by right.
  - reflexivity.
  - reflexivity.
  - repeat constructor; vm_compute; eauto.
  - intros H. repeat (apply elem_of_cons in H as [H|H]; [discriminate H|]).
    by apply elem_of_nil in H.
  - exists m1, mo', items'. split; [exact H1|]. split; [exact H2|].
    split; [exact H3 | exact H4].
Defined.

Lemma write_file_ok (x : string) (c : content) p m :
  writable m x = true → write_file x c p m = Ok tt p (<[x := File c]> m) [].
Proof.
  unfold writable, write_file, path_isdir. msimpl.
  destruct (m !! x) as [[|c0]|]; try done.
  destruct (parent_dir x) as [d|]; [|done].
  by destruct (m !! d) as [[|c1]|].
Qed.

Lemma write_file_inv (x : string) (c : content) p m a p1 m1 t :
  write_file x c p m = Ok a p1 m1 t →
  writable m x = true ∧ p1 = p ∧ m1 = <[x := File c]> m ∧ t = [].
Proof.
  destruct (writable m x) eqn:Hw.
  - rewrite (write_file_ok x c p m Hw). by intros [= _ <- <- <-].
  - unfold writable, write_file, path_isdir in *. msimpl.
    destruct (m !! x) as [[|c0]|]; try done.
    destruct (parent_dir x) as [d|]; [|done].
    by destruct (m !! d) as [[|c1]|].
Qed.

Lemma export_data_ok (data : json) (dir filename : string) p m :
  can_makedirs m dir = true →
  writable (with_dirs m dir) (Py.path_join dir [filename]) = true →
  export_data data dir filename p m
  = Ok (Py.path_join dir [filename]) p
      (<[Py.path_join dir [filename] := File (CJson data)]> (with_dirs m dir))
      [].
Proof.
  intros Hcan Hw. unfold export_data.
  rewrite (bind_Ok _ _ p m tt p (with_dirs m dir) []
             (makedirs_if_missing_ok dir p m Hcan)).
  rewrite (bind_Ok _ _ p (with_dirs m dir) tt p _ []
             (write_file_ok _ (CJson data) p (with_dirs m dir) Hw)).
  reflexivity.
Qed.

(** X5.  Exporting twice to the same place: the first export leaves the
    file holding its data, and a second export from there ends as a single
    export of the second data would, so the last export wins and nothing
    of the first is left. *)
Theorem export_data_last_wins (d1 d2 : json) (dir filename : string)
    p m file p1 m1 t :
  export_data d1 dir filename p m = Ok file p1 m1 t →
  file = Py.path_join dir [filename] ∧ p1 = p ∧ t = []
  ∧ m1 !! file = Some (File (CJson d1))
  ∧ export_data d2 dir filename p1 m1 = export_data d2 dir filename p m.
Proof.
  intros Hrun. unfold export_data in Hrun.
  apply bind_Ok_inv in Hrun as ([] & pa & ma & ta & tb & Hmk & Hrest & ->).
  apply bind_Ok_inv in Hrest as ([] & pb & mb & tc & td & Hwr & Hret & ->).
  apply makedirs_if_missing_inv in Hmk as (Hcan & -> & -> & ->).
  apply write_file_inv in Hwr as (Hw & -> & -> & ->).
  unfold mret, M_ret in Hret. injection Hret as <- <- <- <-.
  change (Py.join2 dir filename) with (Py.path_join dir [filename]) in *.
  remember (Py.path_join dir [filename]) as file eqn:Hfile.
  split; [done|]. split; [done|]. split; [done|].
  split; [by rewrite lookup_insert_eq|].
  rewrite (export_data_ok d2 dir filename p m Hcan); rewrite <- Hfile; [|done].
  remember (<[file := File (CJson d1)]> (with_dirs m dir)) as m1 eqn:Hm1.
  assert (Hex : path_exists m1 dir = true).
  { pose proof (with_dirs_exists m dir Hcan) as Hex. unfold path_exists in *.
    subst m1. destruct (decide (file = dir)) as [->|Hne].
    - by rewrite lookup_insert_eq.
    - by rewrite lookup_insert_ne. }
  assert (Hwd : with_dirs m1 dir = m1) by (unfold with_dirs; by rewrite Hex).
  rewrite (export_data_ok d2 dir filename p m1); rewrite <- ?Hfile, ?Hwd.
  - subst m1. by rewrite insert_insert_eq.
  - unfold can_makedirs. by rewrite Hex.
  - subst m1. unfold writable. by rewrite lookup_insert_eq.
Qed.

Lemma export_data_last_wins_witness :
  export_data (JStr "second") "/d" "f.json" sample_preparator
    (<[ "/d/f.json" := File (CJson (JStr "first")) ]> {[ "/d" := Dir ]})
  = export_data (JStr "second") "/d" "f.json" sample_preparator ∅.
Proof.
  apply (export_data_last_wins (JStr "first") (JStr "second") "/d" "f.json"
           sample_preparator ∅ "/d/f.json" sample_preparator
           (<[ "/d/f.json" := File (CJson (JStr "first")) ]> {[ "/d" := Dir ]})
           []).
  vm_compute. reflexivity.
Defined.

(** X6.  Exporting into a path that is a regular file: the directory is
    taken to exist, the file inside it cannot be opened, and the export
    raises [NotADirectoryError] without a change. *)
Theorem export_data_into_file (data : json) (dir filename : string)
    (c : content) p m :
  dir ≠ "" → Py.endswith dir "/" = false → Py.contains "/" filename = false →
  m !! dir = Some (File c) →
  m !! (dir +:+ "/" +:+ filename) = None →
  export_data data dir filename p m
  = Raise (NotADirectoryError (dir +:+ "/" +:+ filename)) p m [].
Proof.
  intros Hne Hsl Hfn Hdir Hfile. unfold export_data.
  rewrite bind_run, makedirs_if_missing_skip by (unfold path_exists; by rewrite Hdir).
  unfold Py.path_join. cbn [fold_left]. rewrite (join2_plain dir filename Hne Hsl Hfn).
  rewrite bind_run. unfold write_file. msimpl. rewrite Hfile.
  unfold parent_dir.
  change (dir +:+ "/" +:+ filename) with (dir +:+ String "/" filename).
  rewrite (before_last_char_app "/" dir filename Hfn).
  destruct dir as [|ch dir]; [done|]. by rewrite Hdir.
Qed.

Lemma export_data_into_file_witness :
  export_data JNull "/d" "f.json" sample_preparator
    {[ "/d" := File (CRaw "text") ]}
  = Raise (NotADirectoryError "/d/f.json") sample_preparator
      {[ "/d" := File (CRaw "text") ]} [].
Proof.
  apply (export_data_into_file JNull "/d" "f.json" (CRaw "text")); try done.
Defined.

(** ** Authors and meta files *)

Lemma join_authors_strings (names : list string) p m :
  join_authors (JArr (JStr <$> names)) p m = Ok (JStr (Py.join "," names)) p m [].
Proof.
  unfold join_authors. rewrite bind_run. cbn [json_iter]. msimpl.
  assert (Hloop : ∀ acc,
    for_fold (λ (acc : list string) (a : json),
                s ← match a with
                    | JStr s => mret s
                    | _ => raise TypeError
                    end;
                mret (acc ++ [s])) acc (JStr <$> names) p m
    = Ok (acc ++ names) p m []).
  { induction names as [|n names IH]; intros acc.
    - cbn. by rewrite app_nil_r.
    - cbn [fmap list_fmap for_fold]. rewrite bind_run. msimpl.
      fold (fmap (M := list) JStr names). rewrite IH.
      by rewrite <- app_assoc. }
  by rewrite Hloop.
Qed.

(** X7.  The author of a collection: for a manifest whose
    [collection_info] lists its authors as strings, [get_author] returns
    them joined by commas; a manifest without [collection_info], or without
    [authors] in it, counts as one with no authors and gives the empty
    string. *)
Theorem get_author_collection (path : string) (mo i : gmap string json)
    (names : list string) p m :
  m !! path = Some (File (CJson (JObj mo))) →
  default (JObj ∅) (mo !! "collection_info") = JObj i →
  default (JArr []) (i !! "authors") = JArr (JStr <$> names) →
  get_author LoadType.COLLECTION path p m
  = Ok (JStr (Py.join "," names)) p m [].
Proof.
  intros Hm Hinfo Hauthors.
  assert (Hget1 : dict_get (JObj mo) "collection_info" (JObj ∅) p m
                  = Ok (JObj i) p m []) by (cbn; by rewrite Hinfo).
  assert (Hget2 : dict_get (JObj i) "authors" (JArr []) p m
                  = Ok (JArr (JStr <$> names)) p m []) by (cbn; by rewrite Hauthors).
  unfold get_author, os_path_exists, load_json.
  msimpl. unfold path_exists. rewrite Hm. msimpl.
  rewrite String.eqb_refl, Hm. msimpl.
  rewrite Hget1, Hget2. by rewrite join_authors_strings.
Qed.

Lemma get_author_collection_witness :
  get_author LoadType.COLLECTION "/x/MANIFEST.json" sample_preparator
    {[ "/x/MANIFEST.json" := File (CJson (JObj {[ "collection_info" :=
         JObj {[ "authors" := JArr [JStr "Ann"; JStr "Bob"] ]} ]})) ]}
  = Ok (JStr "Ann,Bob") sample_preparator
      {[ "/x/MANIFEST.json" := File (CJson (JObj {[ "collection_info" :=
           JObj {[ "authors" := JArr [JStr "Ann"; JStr "Bob"] ]} ]})) ]} [].
Proof.
  apply (get_author_collection "/x/MANIFEST.json"
           {[ "collection_info" :=
                JObj {[ "authors" := JArr [JStr "Ann"; JStr "Bob"] ]} ]}
           {[ "authors" := JArr [JStr "Ann"; JStr "Bob"] ]} ["Ann"; "Bob"]);
    reflexivity.
Defined.

Lemma get_metafile_in_target_collection (E : Env) (filepath : string) p m :
  get_metafile_in_target E LoadType.COLLECTION filepath p m
  = (ms ← tar_members filepath;
     for_fold (metafile_step filepath) ("", "") ms) p m.
Proof. reflexivity. Qed.

Lemma metafile_step_skip (filepath : string) (acc : string * string)
    (info : string * option payload) p m :
  meta_member info = false → metafile_step filepath acc info p m = Ok acc p m [].
Proof.
  unfold meta_member. intros [H1 H2]%orb_false_iff.
  unfold metafile_step. rewrite H1, H2. msimpl. by destruct acc.
Qed.

Lemma metafile_loop_skip (filepath : string)
    (ms : list (string * option payload)) (acc : string * string) p m :
  Forall (λ info, meta_member info = false) ms →
  for_fold (metafile_step filepath) acc ms p m = Ok acc p m [].
Proof.
  intros Hms. induction Hms as [|info ms Hinfo _ IH]; [done|].
  cbn [for_fold].
  rewrite (bind_Ok _ _ p m acc p m [] (metafile_step_skip _ _ _ _ _ Hinfo)).
  by rewrite IH.
Qed.

Lemma metafile_loop_skip_front (filepath : string)
    (l1 l2 : list (string * option payload)) (acc : string * string) p m :
  Forall (λ info, meta_member info = false) l1 →
  for_fold (metafile_step filepath) acc (l1 ++ l2) p m
  = for_fold (metafile_step filepath) acc l2 p m.
Proof.
  intros Hl1. induction Hl1 as [|info l1 Hinfo _ IH]; [done|].
  change ((info :: l1) ++ l2) with (info :: (l1 ++ l2)). cbn [for_fold].
  rewrite (bind_Ok _ _ p m acc p m [] (metafile_step_skip _ _ _ _ _ Hinfo)).
  rewrite IH. by destruct (for_fold (metafile_step filepath) acc l2 p m).
Qed.

Lemma manifest_is_not_files (s : string) :
  Py.endswith s collection_manifest_json = true →
  Py.endswith s collection_files_json = false.
Proof.
  induction s as [|c s IH]; [done|]. cbn [Py.endswith].
  intros [H|H]%orb_true_iff.
  - apply String.eqb_eq in H. unfold collection_manifest_json in H.
    injection H as -> ->. reflexivity.
  - rewrite (IH H), orb_false_r.
    destruct (String.eqb_spec (String c s) collection_files_json) as [Heq|];
      [|done].
    injection Heq as -> ->. vm_compute in H. done.
Qed.

(** X8.  An archive without a manifest and without a list of files: the
    two paths come back empty and nothing is written. *)
Theorem get_metafile_without_meta (E : Env) (filepath : string)
    (ms : list (string * option payload)) p m :
  m !! filepath = Some (File (CTar ms)) →
  Forall (λ info, meta_member info = false) ms →
  get_metafile_in_target E LoadType.COLLECTION filepath p m
  = Ok ("", "") p m [].
Proof.
  intros Hm Hms. rewrite get_metafile_in_target_collection, bind_run.
  unfold tar_members. msimpl. rewrite Hm. msimpl.
  by rewrite (metafile_loop_skip filepath ms ("", "") p m Hms).
Qed.

Lemma get_metafile_without_meta_witness :
  get_metafile_in_target idle_env LoadType.COLLECTION "/x/a-b-1.0.0.tar.gz"
    sample_preparator
    {[ "/x/a-b-1.0.0.tar.gz" := File (CTar [("README.md", Some (PRaw "hello"))]) ]}
  = Ok ("", "") sample_preparator
      {[ "/x/a-b-1.0.0.tar.gz" :=
           File (CTar [("README.md", Some (PRaw "hello"))]) ]} [].
Proof.
  apply (get_metafile_without_meta idle_env "/x/a-b-1.0.0.tar.gz"
           [("README.md", Some (PRaw "hello"))]).
  - reflexivity.
  - repeat constructor.
Defined.

(** X9.  An archive with one manifest and no list of files, the manifest a
    regular member: its content is copied to the path of the archive with
    [.tar.gz] replaced by a hyphen and the manifest's name, that path is
    returned as the first path, and the second stays empty.  Nothing else
    changes.  The copy has to be a path that can be opened for writing and
    is not the archive itself. *)
Theorem get_metafile_extracts_manifest (E : Env) (filepath name : string)
    (pre post : list (string * option payload)) (content : payload) p m :
  let target := Py.replace filepath ".tar.gz" "-MANIFEST.json" in
  m !! filepath = Some (File (CTar (pre ++ (name, Some content) :: post))) →
  Forall (λ info, meta_member info = false) pre →
  Forall (λ info, meta_member info = false) post →
  Py.endswith name collection_manifest_json = true →
  target ≠ filepath →
  writable m target = true →
  get_metafile_in_target E LoadType.COLLECTION filepath p m
  = Ok (target, "") p (<[target := File (content_of_payload content)]> m) [].
Proof.
  intros target Hm Hpre Hpost Hname Hne Hw.
  rewrite get_metafile_in_target_collection, bind_run.
  unfold tar_members. msimpl. rewrite Hm. msimpl.
  rewrite (metafile_loop_skip_front filepath pre _ _ p m Hpre).
  cbn [for_fold]. rewrite bind_run.
  unfold metafile_step at 1. cbn [fst snd].
  rewrite Hname, (manifest_is_not_files name Hname).
  change (Py.replace filepath ".tar.gz" ("-" +:+ collection_manifest_json))
    with target.
  unfold extract_member. msimpl.
  rewrite (write_file_ok target (content_of_payload content) p m Hw). msimpl.
  rewrite (metafile_loop_skip filepath post (target, "") p _ Hpost).
  reflexivity.
Qed.

Lemma get_metafile_extracts_manifest_witness :
  get_metafile_in_target idle_env LoadType.COLLECTION "/x/a-b-1.0.0.tar.gz"
    sample_preparator
    {[ "/x" := Dir;
       "/x/a-b-1.0.0.tar.gz" :=
         File (CTar [("README.md", Some (PRaw "hello"));
                     ("MANIFEST.json", Some (PJson (JObj ∅)))]) ]}
  = Ok ("/x/a-b-1.0.0-MANIFEST.json", "") sample_preparator
      (<[ "/x/a-b-1.0.0-MANIFEST.json" := File (CJson (JObj ∅)) ]>
         {[ "/x" := Dir;
            "/x/a-b-1.0.0.tar.gz" :=
              File (CTar [("README.md", Some (PRaw "hello"));
                          ("MANIFEST.json", Some (PJson (JObj ∅)))]) ]}) [].
Proof.
  apply (get_metafile_extracts_manifest idle_env "/x/a-b-1.0.0.tar.gz"
           "MANIFEST.json" [("README.md", Some (PRaw "hello"))] []
           (PJson (JObj ∅))).
  - reflexivity.
  - repeat constructor.
  - constructor.
  - reflexivity.
  - discriminate.
  - vm_compute. reflexivity.
Defined.

(** ** Looking for a download *)

Lemma join2_prefix (a b : string) :
  Py.startswith b "/" = false → String.prefix a (Py.join2 a b) = true.
Proof.
  intros Hb. unfold Py.join2. rewrite Hb.
  destruct (String.eqb a "" || Py.endswith a "/"); apply prefix_app.
Qed.

Lemma metadata_glob_prefix_dir (dir type : string) :
  Py.startswith type "/" = false →
  String.prefix dir (metadata_glob_prefix dir type) = true.
Proof.
  intros Hty. unfold metadata_glob_prefix, Py.path_join. cbn [fold_left].
  eapply prefix_trans; [by apply join2_prefix|]. by apply join2_prefix.
Qed.

Lemma glob_match_prefix (pre k : string) :
  glob_match pre k = true → String.prefix pre k = true.
Proof. unfold glob_match. by destruct (String.prefix pre k). Qed.

Lemma glob_download_metadata_run (base : string) p m :
  glob_download_metadata base p m
  = Ok (filter (λ k, glob_match (Py.join2 base "") k = true) (listing m)) p m [].
Proof. reflexivity. Qed.

Lemma glob_download_metadata_none (base : string) p m :
  (∀ k, glob_match (Py.join2 base "") k = true → m !! k = None) →
  glob_download_metadata base p m = Ok [] p m [].
Proof.
  intros Hnone. unfold glob_download_metadata. msimpl.
  destruct (filter _ (listing m)) as [|k l] eqn:Hf; [done|]. exfalso.
  assert (Hk : k ∈ filter (λ k, glob_match (Py.join2 base "") k = true) (listing m))
    by (rewrite Hf; by left).
  apply list_elem_of_filter in Hk as [Hmatch Hin].
  apply elem_of_listing in Hin as [x Hx]. by rewrite (Hnone k Hmatch) in Hx.
Qed.

Lemma is_download_file_exist_absent (type target dir : string) p m :
  Py.startswith type "/" = false →
  (∀ k, String.prefix dir k = true → m !! k = None) →
  is_download_file_exist type target dir p m
  = Raise (FileNotFoundError dir) p m [].
Proof.
  intros Hty Hnone. unfold is_download_file_exist.
  rewrite (bind_Ok _ _ p m [] p m []).
  - cbn [length Nat.eqb negb]. rewrite bind_run. unfold os_listdir. msimpl.
    rewrite (Hnone dir); [done|]. apply prefix_spec. exists "".
    by rewrite string_app_empty_r.
  - apply glob_download_metadata_none. intros k Hk. apply Hnone.
    eapply prefix_trans; [|by apply glob_match_prefix].
    by apply (metadata_glob_prefix_dir dir type).
Qed.

(** X10.  Looking for a download in a directory that is not there: with
    nothing at or below [dir], no metadata file matches, the directory is
    listed, and the call raises [FileNotFoundError]. *)
Theorem is_download_file_exist_missing_dir (type target dir : string) p m :
  Py.startswith type "/" = false →
  (∀ k, String.prefix dir k = true → m !! k = None) →
  is_download_file_exist type target dir p m
  = Raise (FileNotFoundError dir) p m [].
Proof. apply is_download_file_exist_absent. Qed.

Lemma is_download_file_exist_missing_dir_witness :
  is_download_file_exist LoadType.COLLECTION "a.b" "/r/archives/collection/a.b"
    sample_preparator {[ "/r" := Dir; "/r/archives" := Dir ]}
  = Raise (FileNotFoundError "/r/archives/collection/a.b") sample_preparator
      {[ "/r" := Dir; "/r/archives" := Dir ]} [].
Proof.
  apply (is_download_file_exist_missing_dir LoadType.COLLECTION "a.b"
           "/r/archives/collection/a.b"); [reflexivity|].
  intros k Hk.
  destruct (decide (k = "/r")) as [->|H1]; [done|].
  destruct (decide (k = "/r/archives")) as [->|H2]; [done|].
  rewrite lookup_insert_ne by done. by rewrite lookup_singleton_ne.
Defined.

Lemma archive_scan (target : string) (l : list string) (acc : bool * json) p m :
  ∃ r,
    for_fold (λ (acc : bool * json) (file : string),
                if Py.endswith file ".tar.gz"
                   && Py.contains (Py.replace target "." "-") file
                then mret (true, JStr file) else mret acc) acc l p m
    = Ok r p m []
    ∧ ((r = acc ∧ Forall (λ f, archive_of target f = false) l)
       ∨ ∃ f, r = (true, JStr f) ∧ f ∈ l ∧ archive_of target f = true).
Proof.
  revert acc. induction l as [|x l IH]; intros acc.
  - exists acc. split; [done|]. left. split; [done|constructor].
  - cbn [for_fold]. rewrite bind_run.
    destruct (Py.endswith x ".tar.gz"
              && Py.contains (Py.replace target "." "-") x) eqn:Hx; msimpl.
    + destruct (IH (true, JStr x)) as (r & -> & [[-> Hall]|(f & -> & Hin & Hf)]).
      * eexists. split; [reflexivity|]. right. exists x.
        split; [done|]. split; [by left | exact Hx].
      * eexists. split; [reflexivity|]. right. exists f.
        split; [done|]. split; [by right | exact Hf].
    + destruct (IH acc) as (r & -> & [[-> Hall]|(f & -> & Hin & Hf)]).
      * eexists. split; [reflexivity|]. left. split; [done|]. by constructor.
      * eexists. split; [reflexivity|]. right. exists f.
        split; [done|]. split; [by right | exact Hf].
Qed.

Lemma entry_name_no_slash (dir k n : string) :
  entry_name dir k = Some n → Py.contains "/" n = false.
Proof.
  unfold entry_name. destruct (String.prefix _ k); [|done].
  destruct (String.eqb _ "" || Py.contains "/" _) eqn:H; [done|].
  intros [= <-]. by apply orb_false_iff in H as [_ ?].
Qed.

Lemma is_download_file_exist_scan (type target dir : string) p m :
  (∀ k, glob_match (metadata_glob_prefix dir type) k = true → m !! k = None) →
  m !! dir = Some Dir →
  ∃ b f,
    is_download_file_exist type target dir p m = Ok (b, JStr f) p m []
    ∧ (b = true →
       archive_of target f = true ∧ Py.contains "/" f = false
       ∧ ∃ k, is_Some (m !! k) ∧ entry_name dir k = Some f)
    ∧ (b = false →
       f = "" ∧ ∀ k f', is_Some (m !! k) → entry_name dir k = Some f' →
                        archive_of target f' = false).
Proof.
  intros Hnone Hdir. unfold is_download_file_exist.
  rewrite (bind_Ok _ _ p m [] p m [] (glob_download_metadata_none _ p m Hnone)).
  cbn [length Nat.eqb negb].
  assert (Hls : os_listdir dir p m
                = Ok (omap (entry_name dir) (listing m)) p m []).
  { unfold os_listdir. msimpl. by rewrite Hdir. }
  rewrite (bind_Ok _ _ p m _ p m [] Hls).
  destruct (archive_scan target (omap (entry_name dir) (listing m))
              (false, JStr "") p m) as (r & -> & [[-> Hall]|(f & -> & Hin & Hf)]).
  - exists false, "". split; [done|]. split; [done|]. intros _. split; [done|].
    intros k f' Hk Hentry. rewrite Forall_forall in Hall. apply Hall.
    apply list_elem_of_omap. exists k. split; [by apply elem_of_listing | done].
  - exists true, f. split; [done|]. split; [|done]. intros _.
    apply list_elem_of_omap in Hin as (k & Hk & Hentry).
    split; [done|]. split; [by eapply entry_name_no_slash|].
    exists k. split; [by apply elem_of_listing | done].
Qed.

(** X11.  Looking for a download where no metadata file matches: the
    entries of the directory decide.  The call finds a download exactly when
    an entry of [dir] ends in [.tar.gz] and contains the name with its dots
    turned into hyphens; what it returns is then such an entry, by its bare
    name and not by its path.  Otherwise it returns the empty name. *)
Theorem is_download_file_exist_archives (type target dir : string) p m :
  (∀ k, glob_match (metadata_glob_prefix dir type) k = true → m !! k = None) →
  m !! dir = Some Dir →
  ∃ b f,
    is_download_file_exist type target dir p m = Ok (b, JStr f) p m []
    ∧ (b = true →
       archive_of target f = true ∧ Py.contains "/" f = false
       ∧ ∃ k, is_Some (m !! k) ∧ entry_name dir k = Some f)
    ∧ (b = false →
       f = "" ∧ ∀ k f', is_Some (m !! k) → entry_name dir k = Some f' →
                        archive_of target f' = false).
Proof. apply is_download_file_exist_scan. Qed.

Lemma is_download_file_exist_archives_witness :
  ∃ b f,
    is_download_file_exist LoadType.COLLECTION "a.b" "/d" sample_preparator
      {[ "/d" := Dir; "/d/a-b-1.0.0.tar.gz" := File (CTar []) ]}
    = Ok (b, JStr f) sample_preparator
        {[ "/d" := Dir; "/d/a-b-1.0.0.tar.gz" := File (CTar []) ]} [].
Proof.
  destruct (is_download_file_exist_archives LoadType.COLLECTION "a.b" "/d"
              sample_preparator
              {[ "/d" := Dir; "/d/a-b-1.0.0.tar.gz" := File (CTar []) ]})
    as (b & f & H & _).
  - intros k Hk.
    destruct (decide (k = "/d")) as [->|H1]; [done|].
    destruct (decide (k = "/d/a-b-1.0.0.tar.gz")) as [->|H2]; [done|].
    rewrite lookup_insert_ne by done. by rewrite lookup_singleton_ne.
  - reflexivity.
  - by exists b, f.
Defined.

Lemma blind_unchanged {A} (c : M A) p m a p1 m1 t :
  fs_blind c → c p m = Ok a p1 m1 t → m1 = m.
Proof. intros Hb Hrun. pose proof (Hb p m m) as H. rewrite Hrun in H. congruence. Qed.

Lemma find_target_metadata_unchanged (type file target : string) p m a p1 m1 t :
  find_target_metadata type file target p m = Ok a p1 m1 t → p1 = p ∧ m1 = m.
Proof.
  intros Hrun. split.
  - pose proof (keeps_find_target_metadata type file target p m) as H.
    by rewrite Hrun in H.
  - unfold find_target_metadata in Hrun.
    apply bind_Ok_inv in Hrun as (j & pa & ma & ta & tb & Hload & Hrest & ->).
    assert (ma = m) as ->.
    { unfold load_json in Hload. msimpl.
      by destruct (m !! file) as [[|[j'|s|ms]]|]; try done; injection Hload as _ _ <- _. }
    eapply blind_unchanged; [|exact Hrest]. blind_tac.
Qed.

Lemma records_scan (type target : string) (files : list string)
    (acc : bool * json) p m r p1 m1 t :
  for_fold (λ (acc : bool * json) (metafile : string),
              md ← find_target_metadata type metafile target;
              match md with
              | Some md => mret (true, DownloadMetadata.download_src_path md)
              | None => mret acc
              end) acc files p m = Ok r p1 m1 t →
  p1 = p ∧ m1 = m
  ∧ (r = acc
     ∨ ∃ metafile md,
         metafile ∈ files
         ∧ find_target_metadata type metafile target p m = Ok (Some md) p m []
         ∧ r = (true, DownloadMetadata.download_src_path md)).
Proof.
  revert acc t. induction files as [|x files IH]; intros acc t.
  - cbn. intros [= <- <- <- <-]. by repeat split; [..|left].
  - cbn [for_fold].
    intros (acc' & pa & ma & ta & tb & Hstep & Hrest & ->)%bind_Ok_inv.
    apply bind_Ok_inv in Hstep as (md & pb & mb & tc & td & Hfind & Hret & ->).
    destruct (find_target_metadata_unchanged _ _ _ _ _ _ _ _ _ Hfind) as [-> ->].
    destruct md as [md|]; cbn in Hret; injection Hret as <- <- <- <-.
    + destruct (find_target_metadata_found _ _ _ _ _ _ _ _ _ Hfind)
        as (_ & _ & _ & _ & -> & _).
      destruct (IH _ _ Hrest) as (-> & -> & [->|(mf & md' & Hin & Hf & ->)]).
      * split; [done|]. split; [done|]. right. exists x, md.
        split; [by left | done].
      * split; [done|]. split; [done|]. right. exists mf, md'.
        split; [by right | done].
    + destruct (IH _ _ Hrest) as (-> & -> & [->|(mf & md' & Hin & Hf & ->)]).
      * split; [done|]. split; [done|]. by left.
      * split; [done|]. split; [done|]. right. exists mf, md'.
        split; [by right | done].
Qed.

(** X12.  Looking for a download where a metadata file matches: only the
    records decide, the archives in the directory are not looked at.  A
    download is found exactly when one of the matching files holds a record
    of the name, and what is returned is the source path of such a record;
    otherwise the empty name.  Nothing is changed. *)
Theorem is_download_file_exist_records (type target dir : string)
    p m (b : bool) (fn : json) p1 m1 t :
  (∃ k, glob_match (metadata_glob_prefix dir type) k = true ∧ is_Some (m !! k)) →
  is_download_file_exist type target dir p m = Ok (b, fn) p1 m1 t →
  p1 = p ∧ m1 = m
  ∧ if b
    then ∃ metafile md,
           glob_match (metadata_glob_prefix dir type) metafile = true
           ∧ find_target_metadata type metafile target p m = Ok (Some md) p m []
           ∧ fn = DownloadMetadata.download_src_path md
    else fn = JStr "".
Proof.
  intros (k & Hk & Hex) Hrun. unfold is_download_file_exist in Hrun.
  apply bind_Ok_inv in Hrun as (files & pa & ma & ta & tb & Hglob & Hrest & ->).
  rewrite glob_download_metadata_run in Hglob.
  injection Hglob as <- <- <- <-.
  change (Py.join2 (Py.join2 dir type) "")
    with (metadata_glob_prefix dir type) in Hrest.
  remember (filter (λ k, glob_match (metadata_glob_prefix dir type) k = true)
              (listing m)) as files eqn:Hfiles.
  assert (Hin : k ∈ files).
  { subst files. apply list_elem_of_filter. split; [done|].
    by apply elem_of_listing. }
  destruct files as [|x files']; [by apply elem_of_nil in Hin|].
  cbn [length Nat.eqb negb] in Hrest.
  destruct (records_scan _ _ _ _ _ _ _ _ _ _ Hrest)
    as (-> & -> & [Hacc|(mf & md & Hmf & Hf & Hr)]).
  - split; [done|]. split; [done|]. by injection Hacc as -> ->.
  - split; [done|]. split; [done|]. injection Hr as -> ->.
    exists mf, md. split; [|done].
    rewrite Hfiles in Hmf. by apply list_elem_of_filter in Hmf as [? _].
Qed.

Lemma is_download_file_exist_records_witness :
  let m : gmap string node :=
    {[ "/c/collection/a.b/download_meta.json" :=
         File (CJson (JObj {[ "collections" :=
           JArr [JObj {[ "name" := JStr "a.b";
                         "download_src_path" := JStr "/c/a-b.tar.gz" ]}] ]})) ]} in
  ∃ metafile md,
    find_target_metadata LoadType.COLLECTION metafile "a.b" sample_preparator m
    = Ok (Some md) sample_preparator m []
    ∧ JStr "/c/a-b.tar.gz" = DownloadMetadata.download_src_path md.
Proof.
  intros m.
  destruct (is_download_file_exist_records LoadType.COLLECTION "a.b" "/c"
              sample_preparator m true (JStr "/c/a-b.tar.gz")
              sample_preparator m [])
    as (_ & _ & mf & md & _ & H1 & H2).
  - exists "/c/collection/a.b/download_meta.json".
    split; [vm_compute; reflexivity | by eexists].
  - vm_compute. reflexivity.
  - by exists mf, md.
Defined.

(** ** The loops over the dependencies, further *)

(** X13.  A collection that is neither cached nor mapped, prepared for the
    first time: with the cache disabled, the download directory of the
    collection is looked into before it is made, so where nothing lies at
    or below it the step raises [FileNotFoundError]; nothing is fetched and
    no descriptor is listed. *)
Theorem uncached_collection_needs_download_dir (E : Env) (deps : Dependencies)
    (cache_dir : string) (cdep : dep_item) p m :
  let col_name := col_name_of cdep in
  let sub := Py.path_join (DependencyDirPreparator.dependency_dir_path p)
               ["collections"; "src"] in
  let dir := Py.path_join (DependencyDirPreparator.download_location p)
               ["collection"; col_name] in
  paths_collections deps !! col_name = None →
  can_makedirs m sub = true →
  (∀ k, String.prefix dir k = true → with_dirs m sub !! k = None) →
  prepare_collection_dependency E deps false cache_dir cdep p m
  = Raise (FileNotFoundError dir) p (with_dirs m sub) [].
Proof.
  intros col_name sub dir Hmap Hcan Hnone.
  unfold prepare_collection_dependency. cbv zeta.
  fold col_name. unfold self_get at 1 2 3 4. rewrite !bind_run. cbv beta iota.
  fold sub. rewrite (makedirs_if_missing_ok sub p m Hcan). cbv beta iota.
  rewrite Hmap. rewrite bind_run. fold dir.
  rewrite (is_download_file_exist_absent LoadType.COLLECTION col_name dir p
             (with_dirs m sub) eq_refl Hnone).
  reflexivity.
Qed.

Lemma uncached_collection_needs_download_dir_witness :
  prepare_collection_dependency idle_env sample_dependencies false ""
    (DepName "a.b") sample_preparator {[ "/r" := Dir; "/r/archives" := Dir ]}
  = Raise (FileNotFoundError "/r/archives/collection/a.b") sample_preparator
      (with_dirs {[ "/r" := Dir; "/r/archives" := Dir ]} "/r/collections/src")
      [].
Proof.
  apply (uncached_collection_needs_download_dir idle_env sample_dependencies ""
           (DepName "a.b") sample_preparator
           {[ "/r" := Dir; "/r/archives" := Dir ]}).
  - reflexivity.
  - reflexivity.
  - intros k Hk. rewrite with_dirs_lookup by reflexivity.
    destruct (decide _) as [[_ Hin]|_].
    + exfalso. cbn in Hin.
      repeat (apply elem_of_cons in Hin as [->|Hin]; [done|]).
      by apply elem_of_nil in Hin.
    + destruct (decide (k = "/r")) as [->|H1]; [done|].
      destruct (decide (k = "/r/archives")) as [->|H2]; [done|].
      rewrite lookup_insert_ne by done. by rewrite lookup_singleton_ne.
Defined.

(** X14.  A role that is neither cached nor mapped, prepared for the first
    time: with the cache disabled, the download directory of the role is
    looked into and nothing makes it before, so where nothing lies at or
    below it the step raises [FileNotFoundError]; nothing is fetched and no
    descriptor is listed. *)
Theorem uncached_role_needs_download_dir (E : Env) (deps : Dependencies)
    (cache_dir name : string) (rdep : dep_item) p m :
  let sub := Py.path_join (DependencyDirPreparator.dependency_dir_path p)
               ["roles"; "src"; name] in
  let dir := Py.path_join (DependencyDirPreparator.download_location p)
               ["role"; name] in
  role_name_of rdep = Some name →
  paths_roles deps !! name = None →
  can_makedirs m sub = true →
  (∀ k, String.prefix dir k = true → with_dirs m sub !! k = None) →
  prepare_role_dependency E deps false cache_dir rdep p m
  = Raise (FileNotFoundError dir) p (with_dirs m sub) [].
Proof.
  intros sub dir Hname Hmap Hcan Hnone.
  unfold prepare_role_dependency. cbv zeta. rewrite Hname.
  unfold self_get at 1 2 3 4. rewrite !bind_run. cbv beta iota.
  fold sub. rewrite (makedirs_if_missing_ok sub p m Hcan). cbv beta iota.
  rewrite Hmap. rewrite !bind_run. fold dir.
  rewrite (is_download_file_exist_absent LoadType.ROLE name dir p
             (with_dirs m sub) eq_refl Hnone).
  reflexivity.
Qed.

Lemma uncached_role_needs_download_dir_witness :
  prepare_role_dependency idle_env sample_dependencies false ""
    (DepName "x.y") sample_preparator {[ "/r" := Dir; "/r/archives" := Dir ]}
  = Raise (FileNotFoundError "/r/archives/role/x.y") sample_preparator
      (with_dirs {[ "/r" := Dir; "/r/archives" := Dir ]} "/r/roles/src/x.y")
      [].
Proof.
  apply (uncached_role_needs_download_dir idle_env sample_dependencies "" "x.y"
           (DepName "x.y") sample_preparator
           {[ "/r" := Dir; "/r/archives" := Dir ]}).
  - reflexivity.
  - reflexivity.
  - reflexivity.
  - intros k Hk. rewrite with_dirs_lookup by reflexivity.
    destruct (decide _) as [[_ Hin]|_].
    + exfalso. cbn in Hin.
      repeat (apply elem_of_cons in Hin as [->|Hin]; [done|]).
      by apply elem_of_nil in Hin.
    + destruct (decide (k = "/r")) as [->|H1]; [done|].
      destruct (decide (k = "/r/archives")) as [->|H2]; [done|].
      rewrite lookup_insert_ne by done. by rewrite lookup_singleton_ne.
Defined.

(** X15.  A role declared as a mapping without a name: the name taken from
    it is [None], which [os.path.join] refuses, and the fallback to the
    source of the role is never reached.  The step raises, and so do
    [prepare_dependency_dir] and [prepare_dir] whenever such a role is among
    the dependencies, whatever the cache setting. *)
Theorem role_without_name_aborts (E : Env) (deps : Dependencies)
    (rdep : dep_item) :
  role_name_of rdep = None →
  rdep ∈ dependencies_roles deps →
  (∀ cache_enabled cache_dir p m,
     prepare_role_dependency E deps cache_enabled cache_dir rdep p m
     = Raise TypeError p m [])
  ∧ (∀ cache_enabled cache_dir p m, ∃ e p' m' t,
       prepare_dependency_dir E deps cache_enabled cache_dir p m
       = Raise e p' m' t)
  ∧ ((∀ ty path dir m', find_dependency E ty path dir m' = deps) →
     ∀ root_install is_src_installed cache_enabled cache_dir p m, ∃ e p' m' t,
       prepare_dir E root_install is_src_installed cache_enabled cache_dir p m
       = Raise e p' m' t).
Proof.
  intros Hname Hin.
  assert (Hstep : ∀ ce cd p m,
            prepare_role_dependency E deps ce cd rdep p m = Raise TypeError p m []).
  { intros ce cd p m. unfold prepare_role_dependency. by rewrite Hname. }
  assert (Hrun : ∀ ce cd p m, ∃ e p' m' t,
            prepare_dependency_dir E deps ce cd p m = Raise e p' m' t).
  { intros ce cd p m. unfold prepare_dependency_dir. rewrite bind_run.
    destruct (for_each _ (dependencies_collections deps) p m)
      as [[] p1 m1 t1|e p1 m1 t1]; [|eauto].
    destruct (for_each_aborts (prepare_role_dependency E deps ce cd)
                (dependencies_roles deps) rdep Hin) with (p := p1) (m := m1)
      as (e & p' & m' & t & ->); [|eauto].
    intros p0 m0. exists TypeError, m0, []. apply Hstep. }
  split; [exact Hstep|]. split; [exact Hrun|].
  intros Hfind ri isi ce cd p m. unfold prepare_dir. rewrite bind_run.
  destruct (setup_dirs ce cd p m) as [u1 p1 m1 t1|]; [|eauto].
  rewrite bind_run.
  destruct (prepare_root_dir E ri isi p1 m1) as [u2 p2 m2 t2|]; [|eauto].
  msimpl. rewrite Hfind.
  destruct (Hrun ce cd p2 m2) as (e & p' & m' & t & ->). eauto.
Qed.

Lemma role_without_name_aborts_witness :
  let deps := {| dependencies_collections := [];
                 dependencies_roles := [DepDict {[ "src" := "x.y" ]}];
                 paths_collections := ∅; paths_roles := ∅;
                 metadata_collections := ∅ |} in
  prepare_role_dependency idle_env deps false "" (DepDict {[ "src" := "x.y" ]})
    sample_preparator ∅
  = Raise TypeError sample_preparator ∅ [].
Proof.
  intros deps.
  apply (role_without_name_aborts idle_env deps (DepDict {[ "src" := "x.y" ]}));
    [reflexivity | by left].
Defined.

(** X16.  What a run of [prepare_dependency_dir] that returns has listed:
    one descriptor for each declared dependency, after those the object
    held, first the collections and then the roles, each in the order of
    the declarations and under the declared name. *)
Theorem prepare_dependency_dir_descriptors (E : Env) (deps : Dependencies)
    (cache_enabled : bool) (cache_dir : string) p m a p1 m1 t :
  prepare_dependency_dir E deps cache_enabled cache_dir p m = Ok a p1 m1 t →
  ∃ cs rs,
    p1 = with_dependencies (cs ++ rs) p
    ∧ Dependency.name <$> cs = col_name_of <$> dependencies_collections deps
    ∧ Some <$> (Dependency.name <$> rs)
      = role_name_of <$> dependencies_roles deps.
Proof.
  unfold prepare_dependency_dir.
  intros ([] & pa & ma & ta & tb & Hcols & Hroles & ->)%bind_Ok_inv.
  destruct (lists_for_each (λ c d, Dependency.name d = col_name_of c)
              _ _ _ _ _ _ _ _
              (lists_prepare_collection_dependency E deps cache_enabled cache_dir)
              Hcols) as (cs & -> & Hcs).
  destruct (lists_for_each (λ r d, role_name_of r = Some (Dependency.name d))
              _ _ _ _ _ _ _ _
              (lists_prepare_role_dependency E deps cache_enabled cache_dir)
              Hroles) as (rs & -> & Hrs).
  exists cs, rs. split; [apply with_dependencies_app|]. split.
  - by apply Forall2_names.
  - by apply Forall2_some_names.
Qed.

Lemma prepare_dependency_dir_descriptors_witness :
  let deps := {| dependencies_collections := [];
                 dependencies_roles := [DepName "x.y"];
                 paths_collections := ∅;
                 paths_roles := {[ "x.y" := "/roles/x.y" ]};
                 metadata_collections := ∅ |} in
  ∃ cs rs p1 m1 t,
    prepare_dependency_dir idle_env deps false "" sample_preparator ∅
    = Ok tt p1 m1 t
    ∧ p1 = with_dependencies (cs ++ rs) sample_preparator
    ∧ Dependency.name <$> cs = []
    ∧ Some <$> (Dependency.name <$> rs) = [Some "x.y"].
Proof.
  intros deps.
  assert (∃ p1 m1 t,
            prepare_dependency_dir idle_env deps false "" sample_preparator ∅
            = Ok tt p1 m1 t) as (p1 & m1 & t & Hrun).
  { do 3 eexists. vm_compute. reflexivity. }
  destruct (prepare_dependency_dir_descriptors _ _ _ _ _ _ _ _ _ _ Hrun)
    as (cs & rs & H1 & H2 & H3).
  exists cs, rs, p1, m1, t. split; [exact Hrun|]. split; [exact H1|].
  split; [exact H2 | exact H3].
Defined.

(** X17.  [prepare_dependency_dir] only lists: whether it returns or
    raises, the object it leaves is the one it found with descriptors added
    after those it held; no other field has changed and no descriptor is
    taken back, so what was listed before a failure stays. *)
Theorem prepare_dependency_dir_only_lists (E : Env) (deps : Dependencies)
    (cache_enabled : bool) (cache_dir : string) p m :
  ∃ ds,
    match prepare_dependency_dir E deps cache_enabled cache_dir p m with
    | Ok _ p1 _ _ => p1 = with_dependencies ds p
    | Raise _ p1 _ _ => p1 = with_dependencies ds p
    end.
Proof.
  pose proof (appends_prepare_dependency_dir E deps cache_enabled cache_dir p m)
    as H.
  destruct (prepare_dependency_dir E deps cache_enabled cache_dir (strip p) m)
    as [a px mx tx|e px mx tx]; destruct H as [_ ->];
    by exists (DependencyDirPreparator.dependency_dirs px).
Qed.

(** ** The base directories and the root target *)

Lemma setup_dirs_steps (ce : bool) (cd : string) p m :
  setup_dirs ce cd p m
  = (makedirs_if_missing
       (Py.path_join (DependencyDirPreparator.root_dir p) ["archives"]);;
     when ce (makedirs_if_missing cd);;
     makedirs_if_missing (DependencyDirPreparator.root_dir p))
      (with_base_dirs p) m.
Proof.
  destruct ce; [apply setup_dirs_run|].
  unfold setup_dirs. msimpl.
  replace (DependencyDirPreparator.set_dependency_dir_path _ _)
    with (with_base_dirs p) by (by destruct p).
  destruct (with_base_dirs_fields p) as (-> & Hddp & _).
  destruct (makedirs_if_missing _ (with_base_dirs p) m) as [[] p1 m1 t1|] eqn:H1;
    [|done].
  apply makedirs_if_missing_inv in H1 as (_ & -> & _ & _).
  rewrite Hddp.
  destruct (makedirs_if_missing _ (with_base_dirs p) m1) as [[] p3 m3 t3|e p3 m3 t3];
    by rewrite ?app_nil_r.
Qed.

Lemma when_makedirs_inv (ce : bool) (x : string) p m a p1 m1 t :
  when ce (makedirs_if_missing x) p m = Ok a p1 m1 t →
  p1 = p ∧ t = [] ∧ grows m m1 ∧ (ce = true → path_exists m1 x = true)
  ∧ (m !! "" = None → m1 !! "" = None).
Proof.
  destruct ce; cbn [when].
  - intros (Hcan & -> & -> & ->)%makedirs_if_missing_inv.
    split; [done|]. split; [done|]. split; [by apply with_dirs_grows|].
    split; [intros _; by apply with_dirs_exists|].
    intros Hnil. rewrite with_dirs_lookup by done.
    destruct (decide _) as [[Hex Hin]|_]; [|done]. exfalso.
    unfold makedirs_targets in Hin. apply elem_of_app in Hin as [Hin|Hin].
    + by apply list_elem_of_filter in Hin as [? _].
    + apply list_elem_of_singleton in Hin as <-.
      unfold can_makedirs in Hcan. rewrite Hex in Hcan. done.
  - intros [= _ <- <- <-]. split; [done|]. split; [done|].
    split; [apply grows_refl|]. split; done.
Qed.

Lemma with_dirs_isfile (m : gmap string node) (x k : string) :
  can_makedirs m x = true →
  path_isfile (with_dirs m x) k = true → path_isfile m k = true.
Proof.
  intros Hc. unfold path_isfile. rewrite (with_dirs_lookup m x k Hc).
  by destruct (decide _).
Qed.

Lemma when_makedirs_isfile (ce : bool) (x k : string) p m a p1 m1 t :
  when ce (makedirs_if_missing x) p m = Ok a p1 m1 t →
  path_isfile m1 k = true → path_isfile m k = true.
Proof.
  destruct ce; cbn [when].
  - intros (Hcan & _ & -> & _)%makedirs_if_missing_inv. by apply with_dirs_isfile.
  - by intros [= _ _ <- _].
Qed.

Lemma exists_not_file (m : gmap string node) (k : string) :
  path_exists m k = true → path_isfile m k = false → path_isdir m k = true.
Proof.
  unfold path_exists, path_isfile, path_isdir.
  by destruct (m !! k) as [[|c]|].
Qed.

(** X18.  [setup_dirs] when it returns: the download location is the
    [archives] path under the root and the dependency directory is the
    root; both paths exist, and so does the cache directory when the cache
    is enabled, each as a directory unless a regular file was there before
    the call, which the tests for existence accept; nothing that existed is
    gone and nothing is logged.  A second call from there changes nothing
    at all. *)
Theorem setup_dirs_settles (cache_enabled : bool) (cache_dir : string)
    p m a p1 m1 t :
  setup_dirs cache_enabled cache_dir p m = Ok a p1 m1 t →
  let root := DependencyDirPreparator.root_dir p in
  DependencyDirPreparator.download_location p1 = Py.path_join root ["archives"]
  ∧ DependencyDirPreparator.dependency_dir_path p1 = root
  ∧ t = []
  ∧ path_exists m1 (Py.path_join root ["archives"]) = true
  ∧ path_exists m1 root = true
  ∧ (cache_enabled = true → path_exists m1 cache_dir = true)
  ∧ grows m m1
  ∧ setup_dirs cache_enabled cache_dir p1 m1 = Ok tt p1 m1 []
  ∧ (∀ k, path_isfile m1 k = true → path_isfile m k = true)
  ∧ (path_isfile m (Py.path_join root ["archives"]) = false →
     path_isdir m1 (Py.path_join root ["archives"]) = true)
  ∧ (path_isfile m root = false → path_isdir m1 root = true)
  ∧ (cache_enabled = true → path_isfile m cache_dir = false →
     path_isdir m1 cache_dir = true).
Proof.
  rewrite setup_dirs_steps.
  intros ([] & pa & ma & ta & tb & H1 & Hrest & ->)%bind_Ok_inv.
  apply bind_Ok_inv in Hrest as ([] & pb & mb & tc & td & H2 & H3 & ->).
  apply makedirs_if_missing_inv in H1 as (Hc1 & -> & -> & ->).
  pose proof (λ k, when_makedirs_isfile _ _ k _ _ _ _ _ _ H2) as F2.
  apply when_makedirs_inv in H2 as (-> & -> & G2 & Hex2 & _).
  apply makedirs_if_missing_inv in H3 as (Hc3 & -> & -> & ->).
  intros root.
  assert (Hfiles : ∀ k, path_isfile (with_dirs mb root) k = true →
                        path_isfile m k = true).
  { intros k Hk. apply (with_dirs_isfile m _ k Hc1), F2.
    by apply (with_dirs_isfile mb root k Hc3). }
  assert (Hnot : ∀ k, path_isfile m k = false →
                      path_isfile (with_dirs mb root) k = false).
  { intros k Hk. destruct (path_isfile (with_dirs mb root) k) eqn:Hf; [|done].
    by rewrite (Hfiles k Hf) in Hk. }
  destruct (with_base_dirs_fields p) as (Hdl & Hddp & _).
  pose proof (with_dirs_grows mb root Hc3) as G3.
  pose proof (with_dirs_exists m _ Hc1) as E1. fold root in E1.
  assert (Hex1 : path_exists (with_dirs mb root) (Py.path_join root ["archives"])
                 = true).
  { eapply grows_exists; [exact G3|]. by eapply grows_exists. }
  assert (Hex3 : path_exists (with_dirs mb root) root = true)
    by (by apply with_dirs_exists).
  split; [done|]. split; [done|]. split; [done|]. split; [done|].
  split; [done|].
  split; [intros Hce; eapply grows_exists; [exact G3 | by apply Hex2]|].
  split.
  { eapply grows_trans; [by apply with_dirs_grows|]. by eapply grows_trans. }
  rewrite setup_dirs_steps.
  rewrite (with_base_dirs_fixed p (with_base_dirs p) eq_refl).
  assert (Hroot : DependencyDirPreparator.root_dir (with_base_dirs p) = root)
    by (by destruct p).
  rewrite Hroot.
  rewrite (bind_Ok _ _ _ _ tt _ _ [] (makedirs_if_missing_skip _ _ _ Hex1)).
  assert (Hwhen : when cache_enabled (makedirs_if_missing cache_dir)
                    (with_base_dirs p) (with_dirs mb root)
                  = Ok tt (with_base_dirs p) (with_dirs mb root) []).
  { destruct cache_enabled; [|done]. cbn [when].
    apply makedirs_if_missing_skip. eapply grows_exists; [exact G3|].
    by apply Hex2. }
  rewrite (bind_Ok _ _ _ _ tt _ _ [] Hwhen).
  rewrite (makedirs_if_missing_skip _ _ _ Hex3).
  split; [done|]. split; [exact Hfiles|].
  split; [intros Hk; apply exists_not_file; [exact Hex1 | by apply Hnot]|].
  split; [intros Hk; apply exists_not_file; [exact Hex3 | by apply Hnot]|].
  intros Hce Hk. apply exists_not_file; [|by apply Hnot].
  eapply grows_exists; [exact G3 | by apply Hex2].
Qed.

Lemma setup_dirs_settles_witness :
  setup_dirs true "/cache" sample_preparator
    (with_dirs (with_dirs (with_dirs ∅ "/r/archives") "/cache") "/r")
  = Ok tt sample_preparator
      (with_dirs (with_dirs (with_dirs ∅ "/r/archives") "/cache") "/r") [].
Proof.
  apply (setup_dirs_settles true "/cache" sample_preparator ∅ tt
           sample_preparator
           (with_dirs (with_dirs (with_dirs ∅ "/r/archives") "/cache") "/r") []).
  vm_compute. reflexivity.
Defined.

(** A regular file where the archives are to go passes the test for
    existence: [setup_dirs] returns, and the download location is that
    file. *)
Example setup_dirs_accepts_file :
  let m : gmap string node :=
    {[ "/r" := Dir; "/r/archives" := File (CRaw "text") ]} in
  setup_dirs false "" sample_preparator m = Ok tt sample_preparator m []
  ∧ DependencyDirPreparator.download_location sample_preparator = "/r/archives"
  ∧ path_isdir m "/r/archives" = false.
Proof. intros m. split; [vm_compute; reflexivity|]. split; reflexivity. Qed.

(** X19.  A preparator whose root directory is the empty string, which is
    the default of the field: [setup_dirs] cannot make the dependency
    directory, since [os.makedirs] refuses the empty path, so [setup_dirs]
    and with it [prepare_dir] raise, whatever the arguments.  (No path of a
    file system is empty.) *)
Theorem empty_root_dir_aborts (E : Env)
    (root_install is_src_installed cache_enabled : bool) (cache_dir : string)
    p m :
  DependencyDirPreparator.root_dir p = "" →
  m !! "" = None →
  (∃ e p' m' t, setup_dirs cache_enabled cache_dir p m = Raise e p' m' t)
  ∧ ∃ e p' m' t,
      prepare_dir E root_install is_src_installed cache_enabled cache_dir p m
      = Raise e p' m' t.
Proof.
  intros Hroot Hnil.
  assert (Hsetup : ∃ e p' m' t,
            setup_dirs cache_enabled cache_dir p m = Raise e p' m' t).
  { rewrite setup_dirs_steps. rewrite Hroot. rewrite bind_run.
    destruct (makedirs_if_missing _ (with_base_dirs p) m)
      as [[] p1 m1 t1|] eqn:H1; [|eauto].
    apply makedirs_if_missing_inv in H1 as (Hc1 & -> & -> & ->).
    assert (Hnil1 : with_dirs m (Py.path_join "" ["archives"]) !! "" = None).
    { rewrite with_dirs_lookup by done.
      destruct (decide _) as [[_ Hin]|_]; [|done]. exfalso.
      cbn in Hin. repeat (apply elem_of_cons in Hin as [Hin|Hin]; [done|]).
      by apply elem_of_nil in Hin. }
    rewrite bind_run.
    destruct (when cache_enabled _ _ _) as [[] p2 m2 t2|] eqn:H2; [|eauto].
    apply when_makedirs_inv in H2 as (-> & -> & _ & _ & Hnil2).
    specialize (Hnil2 Hnil1).
    destruct (makedirs_if_missing_fails "" (with_base_dirs p) m2) as [e ->];
      [|eauto].
    unfold can_makedirs, path_exists. by rewrite Hnil2. }
  split; [exact Hsetup|].
  destruct Hsetup as (e & p' & m' & t & Hs).
  exists e, p', m', t. unfold prepare_dir. by rewrite bind_run, Hs.
Qed.

Lemma empty_root_dir_aborts_witness :
  ∃ e p' m' t,
    prepare_dir idle_env true true false ""
      (DependencyDirPreparator.make "" "" LoadType.PROJECT "proj" "" "/src" ""
         ∅ DownloadMetadata.init "" "" false false None []) ∅
    = Raise e p' m' t.
Proof.
  apply (empty_root_dir_aborts idle_env true true false ""
           (DependencyDirPreparator.make "" "" LoadType.PROJECT "proj" "" "/src"
              "" ∅ DownloadMetadata.init "" "" false false None []) ∅);
    reflexivity.
Defined.

(** X20.  The root target when it is local: for a project whose name is no
    URL, and for a collection or a role whose name is a local path, the
    flag [root_install] is not honoured.  Nothing is installed; the
    metadata of the object get the URL and the version that
    [get_installed_metadata] reports, and the hash of the URL, which is
    computed only for a URL that is not empty. *)
Theorem prepare_root_dir_local (E : Env) (root_install : bool) p m :
  (DependencyDirPreparator.target_type p = LoadType.PROJECT
   ∧ is_url E (DependencyDirPreparator.target_name p) = false)
  ∨ ((DependencyDirPreparator.target_type p = LoadType.COLLECTION
      ∨ DependencyDirPreparator.target_type p = LoadType.ROLE)
     ∧ is_local_path E (DependencyDirPreparator.target_name p) = true) →
  let installed :=
    get_installed_metadata E (DependencyDirPreparator.target_type p)
      (DependencyDirPreparator.target_name p)
      (DependencyDirPreparator.target_path p)
      (DependencyDirPreparator.target_dependency_dir p) m in
  let hash := if String.eqb installed.1 "" then ""
              else get_hash_of_url E (JStr installed.1) in
  ∃ t,
    prepare_root_dir E root_install false p m
    = Ok tt
        (DependencyDirPreparator.set_metadata
           (DownloadMetadata.set_hash (JStr hash)
              (DownloadMetadata.set_version (JStr installed.2)
                 (DownloadMetadata.set_download_url (JStr installed.1)
                    (DependencyDirPreparator.metadata p)))) p)
        m t
    ∧ (SrcInstall ∉ t)
    ∧ (installed.1 = "" → ∀ u, HashOfUrl u ∉ t).
Proof.
  intros Hlocal installed hash.
  assert (Hflag :
    (if (String.eqb (DependencyDirPreparator.target_type p) LoadType.COLLECTION
         || String.eqb (DependencyDirPreparator.target_type p) LoadType.ROLE)
        && is_local_path E (DependencyDirPreparator.target_name p)
     then false
     else if String.eqb (DependencyDirPreparator.target_type p) LoadType.PROJECT
             && negb (is_url E (DependencyDirPreparator.target_name p))
          then false else root_install) = false).
  { destruct Hlocal as [[-> ->]|[[-> | ->] ->]]; reflexivity. }
  unfold prepare_root_dir, self_get. rewrite !bind_run. cbv beta iota zeta.
  rewrite Hflag. unfold hash_of_url. msimpl.
  fold installed. destruct installed as [url version] eqn:Hinst.
  cbn [fst snd] in *. subst hash.
  destruct (String.eqb_spec url "") as [->|Hne]; msimpl.
  - eexists. split; [reflexivity|]. split.
    + intros Hin. apply elem_of_cons in Hin as [?|Hin]; [done|].
      by apply elem_of_nil in Hin.
    + intros _ u Hin. apply elem_of_cons in Hin as [?|Hin]; [done|].
      by apply elem_of_nil in Hin.
  - eexists. split; [reflexivity|]. split.
    + intros Hin. repeat (apply elem_of_cons in Hin as [?|Hin]; [done|]).
      by apply elem_of_nil in Hin.
    + done.
Qed.

Lemma prepare_root_dir_local_witness :
  ∃ p1 t, prepare_root_dir idle_env true false sample_preparator ∅
          = Ok tt p1 ∅ t ∧ (SrcInstall ∉ t).
Proof.
  destruct (prepare_root_dir_local idle_env true sample_preparator ∅)
    as (t & H1 & H2 & _).
  - left. split; reflexivity.
  - eexists _, t. split; [exact H1 | exact H2].
Defined.

(** ** The log parsers, further *)

Lemma collections_loop_skip (E : Env) (download_location : string)
    (pre rest : list string) (acc : list json) p m :
  Forall (λ x, Py.endswith x "tar.gz" = false) pre →
  for_fold (collections_step E download_location) acc (pre ++ rest) p m
  = for_fold (collections_step E download_location) acc rest p m.
Proof.
  intros Hpre. induction Hpre as [|x pre Hx _ IH]; [done|].
  change ((x :: pre) ++ rest) with (x :: (pre ++ rest)). cbn [for_fold].
  assert (Hstep : collections_step E download_location acc x p m
                  = Ok acc p m []) by (unfold collections_step; by rewrite Hx).
  rewrite (bind_Ok _ _ _ _ _ _ _ _ Hstep), IH.
  by destruct (for_fold _ acc rest p m).
Qed.

(** X21.  A log without the announcement of an archive: when no match of
    the pattern ends in [tar.gz], which includes the empty log, the parser
    returns an empty list of collections, looks at no file and logs
    nothing. *)
Theorem extract_collections_metadata_none (E : Env)
    (log_message download_location : string) p m :
  Forall (λ x, Py.endswith x "tar.gz" = false)
    (Py.findall_downloading log_message) →
  extract_collections_metadata E log_message download_location p m
  = Ok (JObj {[ "collections" := JArr [] ]}) p m [].
Proof.
  intros Hnone. unfold extract_collections_metadata.
  rewrite <- (app_nil_r (Py.findall_downloading log_message)).
  rewrite bind_run, (collections_loop_skip E download_location _ [] [] p m Hnone).
  reflexivity.
Qed.

Lemma extract_collections_metadata_none_witness :
  extract_collections_metadata idle_env
    "Downloading https://example/files/readme.txt to /tmp/x" "/tmp/x"
    sample_preparator ∅
  = Ok (JObj {[ "collections" := JArr [] ]}) sample_preparator ∅ [].
Proof.
  apply (extract_collections_metadata_none idle_env
           "Downloading https://example/files/readme.txt to /tmp/x" "/tmp/x").
  vm_compute. repeat constructor.
Defined.

(** X22.  An archive whose URL has no hyphen: the name of the collection is
    taken from the second piece of the URL split at hyphens, so for the
    first match that ends in [tar.gz] and has no hyphen the parser raises
    [IndexError], before it looks at any file. *)
Theorem extract_collections_metadata_no_hyphen (E : Env)
    (log_message download_location : string) (pre post : list string)
    (url : string) p m :
  Py.findall_downloading log_message = pre ++ url :: post →
  Forall (λ x, Py.endswith x "tar.gz" = false) pre →
  Py.endswith url "tar.gz" = true →
  Py.contains "-" url = false →
  extract_collections_metadata E log_message download_location p m
  = Raise IndexError p m [].
Proof.
  intros Hlog Hpre Hurl Hhyphen. unfold extract_collections_metadata.
  rewrite Hlog. apply bind_Raise.
  rewrite (collections_loop_skip E download_location pre _ [] p m Hpre).
  cbn [for_fold]. apply bind_Raise. unfold collections_step. rewrite Hurl.
  apply bind_Raise. unfold collection_record.
  rewrite (split_no_sep "-" url Hhyphen). reflexivity.
Qed.

Lemma extract_collections_metadata_no_hyphen_witness :
  extract_collections_metadata idle_env
    "Downloading https://example/download/posix.tar.gz to /tmp/x" "/tmp/x"
    sample_preparator ∅
  = Raise IndexError sample_preparator ∅ [].
Proof.
  apply (extract_collections_metadata_no_hyphen idle_env
           "Downloading https://example/download/posix.tar.gz to /tmp/x"
           "/tmp/x" [] [] "https://example/download/posix.tar.gz");
    [vm_compute; reflexivity | constructor | reflexivity | reflexivity].
Defined.

Lemma roles_loop_skip (E : Env) (pre rest : list string) (acc : list json) p m :
  Forall (λ l, Py.startswith l "- downloading role from " = false) pre →
  roles_loop E acc (pre ++ rest) p m = roles_loop E acc rest p m.
Proof.
  intros Hpre. induction Hpre as [|x pre Hx _ IH]; [done|].
  change ((x :: pre) ++ rest) with (x :: (pre ++ rest)).
  cbn [roles_loop]. by rewrite Hx.
Qed.

(** X23.  A log without the announcement of a role: when no line starts
    with the words that announce a download, which includes the empty log,
    the parser returns an empty list of roles, looks at no file and logs
    nothing. *)
Theorem extract_roles_metadata_none (E : Env) (log_message : string) p m :
  Forall (λ l, Py.startswith l "- downloading role from " = false)
    (Py.splitlines log_message) →
  extract_roles_metadata E log_message p m
  = Ok (JObj {[ "roles" := JArr [] ]}) p m [].
Proof.
  intros Hnone. unfold extract_roles_metadata.
  rewrite <- (app_nil_r (Py.splitlines log_message)).
  rewrite bind_run, (roles_loop_skip E _ [] [] p m Hnone). reflexivity.
Qed.

Lemma extract_roles_metadata_none_witness :
  extract_roles_metadata idle_env "- x.y (1.0.3) was installed successfully"
    sample_preparator ∅
  = Ok (JObj {[ "roles" := JArr [] ]}) sample_preparator ∅ [].
Proof.
  apply (extract_roles_metadata_none idle_env
           "- x.y (1.0.3) was installed successfully").
  vm_compute. repeat constructor.
Defined.

(** X24.  The line after an announcement is read without a check that there
    is one: when the first line that announces the download of a role is
    the last line of the log, the parser raises [IndexError]. *)
Theorem extract_roles_metadata_cut_short (E : Env) (log_message : string)
    (pre : list string) (line : string) p m :
  Py.splitlines log_message = pre ++ [line] →
  Forall (λ l, Py.startswith l "- downloading role from " = false) pre →
  Py.startswith line "- downloading role from " = true →
  extract_roles_metadata E log_message p m = Raise IndexError p m [].
Proof.
  intros Hlog Hpre Hline. unfold extract_roles_metadata. rewrite Hlog.
  apply bind_Raise. rewrite (roles_loop_skip E pre _ [] p m Hpre).
  cbn [roles_loop]. rewrite Hline. apply bind_Raise. reflexivity.
Qed.

Lemma extract_roles_metadata_cut_short_witness :
  extract_roles_metadata idle_env
    "- downloading role from https://example/x.y/archive/1.0.3.tar.gz"
    sample_preparator ∅
  = Raise IndexError sample_preparator ∅ [].
Proof.
  apply (extract_roles_metadata_cut_short idle_env
           "- downloading role from https://example/x.y/archive/1.0.3.tar.gz"
           []
           "- downloading role from https://example/x.y/archive/1.0.3.tar.gz");
    [vm_compute; reflexivity | constructor | reflexivity].
Defined.

(** X25.  The directory a role was extracted to has to exist: its
    modification time is read.  When the last word of the line after the
    first announcement is no path of the file system, the parser raises
    [FileNotFoundError] for it and returns no record, whatever follows. *)
Theorem extract_roles_metadata_missing_dir (E : Env) (log_message : string)
    (pre rest : list string) (line next : string) p m :
  Py.splitlines log_message = pre ++ line :: next :: rest →
  Forall (λ l, Py.startswith l "- downloading role from " = false) pre →
  Py.startswith line "- downloading role from " = true →
  path_exists m (Py.last_item (Py.split " " next)) = false →
  extract_roles_metadata E log_message p m
  = Raise (FileNotFoundError (Py.last_item (Py.split " " next))) p m [].
Proof.
  intros Hlog Hpre Hline Hex. unfold extract_roles_metadata. rewrite Hlog.
  apply bind_Raise. rewrite (roles_loop_skip E pre _ [] p m Hpre).
  cbn [roles_loop]. rewrite Hline. apply bind_Raise.
  unfold role_record, next_line, getmtime_iso. msimpl. by rewrite Hex.
Qed.

Lemma extract_roles_metadata_missing_dir_witness :
  extract_roles_metadata idle_env
    ("- downloading role from https://example/x.y/archive/1.0.3.tar.gz"
     +:+ String "010" "- extracting x.y to /roles/x.y")
    sample_preparator ∅
  = Raise (FileNotFoundError "/roles/x.y") sample_preparator ∅ [].
Proof.
  apply (extract_roles_metadata_missing_dir idle_env
           ("- downloading role from https://example/x.y/archive/1.0.3.tar.gz"
            +:+ String "010" "- extracting x.y to /roles/x.y")
           [] []
           "- downloading role from https://example/x.y/archive/1.0.3.tar.gz"
           "- extracting x.y to /roles/x.y");
    [vm_compute; reflexivity | constructor | reflexivity | reflexivity].
Defined.

(** ** Loading an existing dependency directory *)

Lemma os_path_exists_run (x : string) p m :
  os_path_exists x p m = Ok (path_exists m x) p m [].
Proof. reflexivity. Qed.

Lemma os_listdir_inv (x : string) p m l p1 m1 t :
  os_listdir x p m = Ok l p1 m1 t →
  p1 = p ∧ m1 = m ∧ t = [] ∧ m !! x = Some Dir
  ∧ l = omap (entry_name x) (listing m).
Proof.
  unfold os_listdir. msimpl. destruct (m !! x) as [[|c]|]; try done.
  by intros [= <- <- <- <-].
Qed.

Lemma join2_entry (d n : string) :
  d ≠ "" → n ≠ "" → Py.contains "/" n = false →
  Py.join2 d n = (if Py.endswith d "/" then d else d +:+ "/") +:+ n.
Proof.
  intros Hd Hn Hsl. unfold Py.join2, Py.startswith.
  assert (String.prefix "/" n = false) as ->.
  { destruct n as [|c n]; [done|]. cbn [Py.contains] in Hsl.
    by apply orb_false_iff in Hsl as [? _]. }
  destruct (String.eqb_spec d "") as [?|_]; [done|]. cbn [orb].
  destruct (Py.endswith d "/"); [done|]. by rewrite string_app_assoc.
Qed.

Lemma entry_name_path (d k n : string) :
  d ≠ "" → entry_name d k = Some n →
  k = Py.join2 d n ∧ n ≠ "" ∧ Py.contains "/" n = false.
Proof.
  intros Hd. unfold entry_name.
  destruct (String.prefix _ k) eqn:Hp; [|done].
  apply prefix_spec in Hp as [rest ->]. rewrite substring_after_prefix.
  destruct (String.eqb_spec rest "") as [->|Hne]; [done|]. cbn [orb].
  destruct (Py.contains "/" rest) eqn:Hsl; [done|]. intros [= <-].
  split; [|done]. by rewrite join2_entry.
Qed.

Lemma join2_nonempty (a b : string) : b ≠ "" → Py.join2 a b ≠ "".
Proof.
  intros Hb. unfold Py.join2. destruct (Py.startswith b "/"); [done|].
  assert (Happ : ∀ x y : string, y ≠ "" → x +:+ y ≠ "").
  { intros [|c x] y Hy; [by rewrite app_nil_l | by rewrite app_cons]. }
  destruct (String.eqb a "" || Py.endswith a "/"); apply Happ; [done|].
  by apply Happ.
Qed.

Lemma namespace_collections_inv (base ns : string)
    (acc : list (string * string)) p m l p1 m1 t :
  base ≠ "" → ns ≠ "" → Py.contains "/" ns = false →
  Py.endswith ns ".info" = false →
  Forall (collection_under m base) acc →
  namespace_collections base acc ns p m = Ok l p1 m1 t →
  p1 = p ∧ m1 = m ∧ t = [] ∧ Forall (collection_under m base) l.
Proof.
  intros Hbase Hns Hsl Hinfo Hacc. unfold namespace_collections.
  intros (names & pa & ma & ta & tb & Hls & Hret & ->)%bind_Ok_inv.
  apply os_listdir_inv in Hls as (-> & -> & -> & Hdir & ->).
  cbn in Hret. injection Hret as <- <- <- <-.
  split; [done|]. split; [done|]. split; [done|].
  apply Forall_app. split; [done|].
  apply Forall_forall. intros info Hin.
  apply list_elem_of_fmap in Hin as (name & -> & Hname).
  apply list_elem_of_omap in Hname as (k & Hk & Hentry).
  apply elem_of_listing in Hk.
  assert (Hd : Py.path_join base [ns] ≠ "") by (by apply join2_nonempty).
  destruct (entry_name_path _ _ _ Hd Hentry) as (-> & Hne & Hnsl).
  exists ns, name. split; [done|]. split; [done|]. split; [done|].
  split; [exact Hk|]. done.
Qed.

Lemma namespaces_loop_inv (base : string) (nss : list string)
    (acc : list (string * string)) p m l p1 m1 t :
  base ≠ "" →
  Forall (λ ns, ns ≠ "" ∧ Py.contains "/" ns = false
                ∧ Py.endswith ns ".info" = false) nss →
  Forall (collection_under m base) acc →
  for_fold (namespace_collections base) acc nss p m = Ok l p1 m1 t →
  p1 = p ∧ m1 = m ∧ t = [] ∧ Forall (collection_under m base) l.
Proof.
  intros Hbase Hnss. revert acc t.
  induction Hnss as [|ns nss (Hns & Hsl & Hinfo) _ IH]; intros acc t Hacc.
  - cbn. by intros [= <- <- <- <-].
  - cbn [for_fold].
    intros (acc' & pa & ma & ta & tb & Hstep & Hrest & ->)%bind_Ok_inv.
    destruct (namespace_collections_inv _ _ _ _ _ _ _ _ _ Hbase Hns Hsl Hinfo
                Hacc Hstep) as (-> & -> & -> & Hacc').
    destruct (IH _ _ Hacc' Hrest) as (-> & -> & -> & Hl). done.
Qed.

Lemma existing_loader_collection (dependency_dir_path : string) p m :
  existing_dependency_dir_loader LoadType.COLLECTION dependency_dir_path p m
  = (search_dirs ←
       (entries ← os_listdir (collections_base m dependency_dir_path);
        for_fold (namespace_collections (collections_base m dependency_dir_path))
          [] (filter (λ ns, Py.endswith ns ".info" = false) entries));
     mret (existing_descriptor <$> search_dirs)) p m.
Proof.
  unfold existing_dependency_dir_loader. rewrite String.eqb_refl.
  etransitivity; [apply bind_run|]. symmetry.
  etransitivity; [apply bind_run|]. symmetry.
  match goal with
  | |- match ?a with _ => _ end = match ?b with _ => _ end =>
      assert (a = b) as ->; [|done]
  end.
  etransitivity; [apply bind_run|]. rewrite os_path_exists_run.
  cbv beta iota zeta. fold (collections_base m dependency_dir_path).
  by destruct ((os_listdir _ ≫= _) p m).
Qed.

(** X26.  What [existing_dependency_dir_loader] returns.  For a type other
    than collection the list is empty.  For a collection, the namespaces are
    read from the [ansible_collections] directory under the given one when
    that exists, else from the given one; every descriptor then stands for
    an entry of the file system two levels below that directory, carries the
    type collection and as name the two components joined by a dot, and no
    namespace ends in [.info].  The call changes nothing and logs nothing.
    (No path of a file system is empty.) *)
Theorem existing_dependency_dir_loader_sound
    (dependency_type dependency_dir_path : string) p m l p1 m1 t :
  m !! "" = None →
  existing_dependency_dir_loader dependency_type dependency_dir_path p m
  = Ok l p1 m1 t →
  p1 = p ∧ m1 = m ∧ t = []
  ∧ (dependency_type ≠ LoadType.COLLECTION → l = [])
  ∧ ∃ infos,
      l = existing_descriptor <$> infos
      ∧ Forall (collection_under m (collections_base m dependency_dir_path))
          infos.
Proof.
  intros Hnil.
  destruct (String.eqb_spec dependency_type LoadType.COLLECTION) as [->|Hty].
  - rewrite existing_loader_collection.
    remember (collections_base m dependency_dir_path) as base eqn:Hbase_def.
    intros (infos & pa & ma & ta & tb & Hsearch & Hret & ->)%bind_Ok_inv.
    unfold mret, M_ret in Hret. injection Hret as <- <- <- <-.
    apply bind_Ok_inv in Hsearch
      as (entries & pc & mc & te & tf & Hls & Hloop & ->).
    apply os_listdir_inv in Hls as (-> & -> & -> & Hdir & ->).
    assert (Hbase : base ≠ "") by (intros Hb; by rewrite Hb, Hnil in Hdir).
    assert (Hnss : Forall (λ ns, ns ≠ "" ∧ Py.contains "/" ns = false
                                 ∧ Py.endswith ns ".info" = false)
                     (filter (λ ns, Py.endswith ns ".info" = false)
                        (omap (entry_name base) (listing m)))).
    { apply Forall_forall. intros ns [Hinfo Hin]%list_elem_of_filter.
      apply list_elem_of_omap in Hin as (k & Hk & Hentry).
      destruct (entry_name_path _ _ _ Hbase Hentry) as (_ & Hne & Hsl). done. }
    destruct (namespaces_loop_inv base _ [] p m infos pa ma tf Hbase Hnss
                (Forall_nil_2 _) Hloop) as (-> & -> & -> & Hinfos).
    split; [done|]. split; [done|]. split; [done|]. split; [done|].
    by exists infos.
  - unfold existing_dependency_dir_loader.
    apply String.eqb_neq in Hty as Hty'. rewrite Hty'.
    intros [= <- <- <- <-].
    split; [done|]. split; [done|]. split; [done|]. split; [done|].
    exists []. split; [done | constructor].
Qed.

Lemma existing_dependency_dir_loader_sound_witness :
  ∃ infos,
    [existing_descriptor
       ("ansible.posix", "/deps/ansible_collections/ansible/posix")]
    = existing_descriptor <$> infos
    ∧ Forall (collection_under sample_dependency_dir
                (collections_base sample_dependency_dir "/deps")) infos.
Proof.
  destruct (existing_dependency_dir_loader_sound LoadType.COLLECTION "/deps"
              sample_preparator sample_dependency_dir
              [existing_descriptor
                 ("ansible.posix", "/deps/ansible_collections/ansible/posix")]
              sample_preparator sample_dependency_dir [])
    as (_ & _ & _ & _ & H); [reflexivity | vm_compute; reflexivity | exact H].
Defined.

Lemma namespaces_loop_dirs (base : string) (nss : list string)
    (acc : list (string * string)) p m l p1 m1 t :
  for_fold (namespace_collections base) acc nss p m = Ok l p1 m1 t →
  Forall (λ ns, m !! Py.path_join base [ns] = Some Dir) nss.
Proof.
  revert acc t. induction nss as [|ns nss IH]; intros acc t; [by constructor|].
  cbn [for_fold].
  intros (acc' & pa & ma & ta & tb & Hstep & Hrest & ->)%bind_Ok_inv.
  unfold namespace_collections in Hstep.
  apply bind_Ok_inv in Hstep as (names & pb & mb & tc & td & Hls & Hret & ->).
  apply os_listdir_inv in Hls as (-> & -> & -> & Hdir & ->).
  unfold mret, M_ret in Hret. injection Hret as <- <- <- <-.
  constructor; [exact Hdir | by eapply IH].
Qed.

(** X27.  A regular file among the namespaces: every entry of the directory
    the namespaces are read from is listed as a directory, unless its name
    ends in [.info]; so when one of them is a regular file the load of the
    collections does not return.  (No path of a file system is empty.) *)
Theorem existing_dependency_dir_loader_stray_file
    (dependency_dir_path k ns : string) (c : content) p m :
  m !! "" = None →
  entry_name (collections_base m dependency_dir_path) k = Some ns →
  Py.endswith ns ".info" = false →
  m !! k = Some (File c) →
  ∃ e p' m' t,
    existing_dependency_dir_loader LoadType.COLLECTION dependency_dir_path p m
    = Raise e p' m' t.
Proof.
  intros Hnil Hentry Hinfo Hfile.
  destruct (existing_dependency_dir_loader LoadType.COLLECTION
              dependency_dir_path p m) as [l p1 m1 t|e p1 m1 t] eqn:Hrun;
    [exfalso | eauto].
  rewrite existing_loader_collection in Hrun.
  remember (collections_base m dependency_dir_path) as base eqn:Hbase_def.
  apply bind_Ok_inv in Hrun as (infos & pa & ma & ta & tb & Hsearch & _ & _).
  apply bind_Ok_inv in Hsearch
    as (entries & pc & mc & te & tf & Hls & Hloop & ->).
  apply os_listdir_inv in Hls as (-> & -> & -> & Hdir & ->).
  assert (Hbase : base ≠ "") by (intros Hb; by rewrite Hb, Hnil in Hdir).
  apply namespaces_loop_dirs in Hloop. rewrite Forall_forall in Hloop.
  destruct (entry_name_path _ _ _ Hbase Hentry) as (-> & _ & _).
  assert (Hin : ns ∈ filter (λ ns, Py.endswith ns ".info" = false)
                      (omap (entry_name base) (listing m))).
  { apply list_elem_of_filter. split; [done|]. apply list_elem_of_omap.
    exists (Py.join2 base ns). split; [|done]. apply elem_of_listing.
    by rewrite Hfile. }
  specialize (Hloop ns Hin). unfold Py.path_join in Hloop. cbn [fold_left] in Hloop.
  by rewrite Hfile in Hloop.
Qed.

Lemma existing_dependency_dir_loader_stray_file_witness :
  ∃ e p' m' t,
    existing_dependency_dir_loader LoadType.COLLECTION "/deps" sample_preparator
      (<[ "/deps/ansible_collections/README" := File (CRaw "") ]>
         sample_dependency_dir)
    = Raise e p' m' t.
Proof.
  apply (existing_dependency_dir_loader_stray_file "/deps"
           "/deps/ansible_collections/README" "README" (CRaw ""));
    [reflexivity | vm_compute; reflexivity | reflexivity | reflexivity].
Defined.

(** ** Updating twice *)

Lemma set_field_twice (key : string) (value : json) (d : DownloadMetadata.t) :
  set_field key value (set_field key value d) = set_field key value d.
Proof.
  unfold set_field. destruct (DownloadMetadata.hasattr key); [|done].
  unfold DownloadMetadata.setattr.
  repeat (destruct (String.eqb key _); [by destruct d|]). done.
Qed.

Lemma record_of_asdict (d : DownloadMetadata.t) :
  record_of (JObj (DownloadMetadata.asdict d)) = Some d.
Proof. apply of_dict_asdict. Qed.

Lemma updated_item_twice (target key : string) (value data : json) :
  updated_item target key value (updated_item target key value data)
  = updated_item target key value data.
Proof.
  destruct (record_of data) as [dm|] eqn:Hd.
  - unfold updated_item at 2. rewrite Hd.
    destruct (json_eq_str (DownloadMetadata.name dm) target) eqn:Hn; [|done].
    unfold updated_item. rewrite record_of_asdict, Hd, Hn.
    rewrite set_field_twice.
    by destruct (json_eq_str (DownloadMetadata.name (set_field key value dm)) target).
  - unfold updated_item at 2. by rewrite Hd.
Qed.

Lemma updated_item_valid (target key : string) (value data : json) :
  is_Some (record_of data) → is_Some (record_of (updated_item target key value data)).
Proof.
  intros [dm Hd]. unfold updated_item. rewrite Hd.
  destruct (json_eq_str _ target); [|by rewrite Hd]. by rewrite record_of_asdict.
Qed.

(** X28.  [update_metadata] done twice is [update_metadata] done once: a
    second call with the same arguments, on the file system the first has
    left, returns and leaves that file system as it is.  The key is a field
    of the schema or any other name but the four special attributes, for
    which the first call can fail. *)
Theorem update_metadata_idempotent (type file target key : string)
    (value : json) (mo : gmap string json) (items : list json) p m :
  type = LoadType.COLLECTION ∨ type = LoadType.ROLE →
  m !! file = Some (File (CJson (JObj mo))) →
  mo !! section_key type = Some (JArr items) →
  Forall (λ data, is_Some (record_of data)) items →
  key ∉ special_attributes →
  ∃ m1,
    update_metadata type file target key value p m = Ok tt p m1 []
    ∧ update_metadata type file target key value p m1 = Ok tt p m1 [].
Proof.
  intros Hty Hm Hs Hrec Hkey.
  rewrite (update_metadata_run type file target key value Hkey mo items p m
             Hty Hm Hs Hrec).
  destruct (existsb (item_named target) items) eqn:Hhit.
  - eexists. split; [reflexivity|].
    set (items' := updated_item target key value <$> items).
    set (mo' := <[section_key type := JArr items']> mo).
    rewrite (update_metadata_run type file target key value Hkey mo' items' p
               (<[file := File (CJson (JObj mo'))]> m) Hty).
    + assert (Htwice : updated_item target key value <$> items' = items').
      { unfold items'. rewrite <- list_fmap_compose. apply list_fmap_ext.
        intros i x _. apply updated_item_twice. }
      rewrite Htwice.
      assert (Hmo : <[section_key type := JArr items']> mo' = mo')
        by (unfold mo'; by rewrite insert_insert_eq).
      rewrite Hmo. rewrite insert_insert_eq. by destruct (existsb _ items').
    + by rewrite lookup_insert_eq.
    + unfold mo'. by rewrite lookup_insert_eq.
    + unfold items'. apply Forall_fmap. eapply Forall_impl; [exact Hrec|].
      intros x Hx. by apply updated_item_valid.
  - exists m. split; [reflexivity|].
    rewrite (update_metadata_run type file target key value Hkey mo items p m
               Hty Hm Hs Hrec).
    by rewrite Hhit.
Qed.

Lemma update_metadata_idempotent_witness :
  ∃ m1,
    update_metadata LoadType.ROLE "/f" "b" "version" (JStr "2")
      sample_preparator
      {[ "/f" := File (CJson (JObj {[ "roles" :=
           JArr [JObj {[ "name" := JStr "b" ]}] ]})) ]}
    = Ok tt sample_preparator m1 []
    ∧ update_metadata LoadType.ROLE "/f" "b" "version" (JStr "2")
        sample_preparator m1
      = Ok tt sample_preparator m1 [].
Proof.
  apply (update_metadata_idempotent LoadType.ROLE "/f" "b" "version" (JStr "2")
           {[ "roles" := JArr [JObj {[ "name" := JStr "b" ]}] ]}
           [JObj {[ "name" := JStr "b" ]}]).
  - by right.
  - reflexivity.
  - reflexivity.
  - repeat constructor; vm_compute; eauto.
  - intros H. repeat (apply elem_of_cons in H as [H|H]; [discriminate H|]).
    by apply elem_of_nil in H.
Defined.

(** ** A cache with an archive and no record *)

Lemma before_last_char_none (sep : ascii) (s : string) :
  Py.contains (String sep "") s = false → Py.before_last_char sep s = None.
Proof.
  induction s as [|c s IH]; [done|]. cbn [Py.contains Py.before_last_char].
  intros [Hc Hs]%orb_false_iff. rewrite (IH Hs).
  cbn [String.prefix] in Hc. destruct (ascii_dec sep c) as [->|Hne].
  - by destruct s.
  - destruct (Ascii.eqb_spec c sep); [congruence | done].
Qed.

(** X29.  A cache that holds the archive of a collection but no metadata
    file: the archive is found by its bare name, the metadata file is then
    looked for under that name as if it were a directory, and the step
    raises [FileNotFoundError].  Nothing is fetched or installed, and no
    descriptor is listed. *)
Theorem cached_archive_without_record (E : Env) (deps : Dependencies)
    (cache_dir : string) (cdep : dep_item) p m :
  let col_name := col_name_of cdep in
  let sub := Py.path_join (DependencyDirPreparator.dependency_dir_path p)
               ["collections"; "src"] in
  path_exists m sub = true →
  (∀ k, glob_match (metadata_glob_prefix cache_dir LoadType.COLLECTION) k = true →
        m !! k = None) →
  m !! cache_dir = Some Dir →
  (∃ k f, is_Some (m !! k) ∧ entry_name cache_dir k = Some f
          ∧ archive_of col_name f = true) →
  (∀ f, archive_of col_name f = true →
        m !! Py.path_join f [download_metadata_file] = None) →
  ∃ f,
    archive_of col_name f = true
    ∧ prepare_collection_dependency E deps true cache_dir cdep p m
      = Raise (FileNotFoundError (Py.path_join f [download_metadata_file]))
          p m [].
Proof.
  intros col_name sub Hsub Hglob Hdir (k & f0 & Hk & Hentry & Harch) Hnone.
  destruct (is_download_file_exist_scan LoadType.COLLECTION col_name cache_dir
              p m Hglob Hdir) as (b & f & Hscan & Htrue & Hfalse).
  destruct b.
  - destruct (Htrue eq_refl) as (Hf & Hsl & _). exists f. split; [done|].
    unfold prepare_collection_dependency. cbv zeta. fold col_name.
    unfold self_get at 1 2 3 4. rewrite !bind_run. cbv beta iota. fold sub.
    rewrite (makedirs_if_missing_skip sub p m Hsub). cbv beta iota.
    rewrite bind_run, Hscan. cbv beta iota. unfold as_str. msimpl.
    unfold Py.rsplit1_first. rewrite (before_last_char_none "/" f Hsl).
    cbn [default from_option]. unfold find_target_metadata, load_json. msimpl.
    by rewrite (Hnone f Hf).
  - destruct (Hfalse eq_refl) as (_ & Hall).
    by rewrite (Hall k f0 Hk Hentry) in Harch.
Qed.

Lemma cached_archive_without_record_witness :
  ∃ f,
    archive_of "a.b" f = true
    ∧ prepare_collection_dependency idle_env sample_dependencies true "/cache"
        (DepName "a.b") sample_preparator
        {[ "/r/collections/src" := Dir; "/cache" := Dir;
           "/cache/a-b-1.0.0.tar.gz" := File (CTar []) ]}
      = Raise (FileNotFoundError (Py.path_join f [download_metadata_file]))
          sample_preparator
          {[ "/r/collections/src" := Dir; "/cache" := Dir;
             "/cache/a-b-1.0.0.tar.gz" := File (CTar []) ]} [].
Proof.
  apply (cached_archive_without_record idle_env sample_dependencies "/cache"
           (DepName "a.b") sample_preparator
           {[ "/r/collections/src" := Dir; "/cache" := Dir;
              "/cache/a-b-1.0.0.tar.gz" := File (CTar []) ]}).
  - reflexivity.
  - intros k Hk.
    destruct (decide (k = "/r/collections/src")) as [->|H1]; [done|].
    destruct (decide (k = "/cache")) as [->|H2]; [done|].
    destruct (decide (k = "/cache/a-b-1.0.0.tar.gz")) as [->|H3]; [done|].
    rewrite !lookup_insert_ne by done. by rewrite lookup_singleton_ne.
  - reflexivity.
  - exists "/cache/a-b-1.0.0.tar.gz", "a-b-1.0.0.tar.gz".
    split; [by eexists|]. split; reflexivity.
  - intros f Hf.
    assert (Hend : Py.endswith (Py.path_join f [download_metadata_file])
                     download_metadata_file = true) by apply join2_endswith.
    set (x := Py.path_join f [download_metadata_file]) in *.
    destruct (decide (x = "/r/collections/src")) as [Hx|H1];
      [rewrite Hx in Hend; done|].
    destruct (decide (x = "/cache")) as [Hx|H2]; [rewrite Hx in Hend; done|].
    destruct (decide (x = "/cache/a-b-1.0.0.tar.gz")) as [Hx|H3];
      [rewrite Hx in Hend; done|].
    rewrite !lookup_insert_ne by done. by rewrite lookup_singleton_ne.
Defined.

(** ** Records and dictionaries *)

(** X30.  A record and its dictionary: the constructor applied to the
    entries of [asdict] gives the record back, and a dictionary with one
    more key, which is no field, is refused with [TypeError]. *)
Theorem download_metadata_roundtrip (d : DownloadMetadata.t) (k : string)
    (v : json) p m :
  construct (JObj (DownloadMetadata.asdict d)) p m = Ok d p m []
  ∧ (DownloadMetadata.hasattr k = false →
     construct (JObj (<[k := v]> (DownloadMetadata.asdict d))) p m
     = Raise TypeError p m []).
Proof.
  split; [apply construct_asdict|].
  intros Hk. unfold construct, record_of, DownloadMetadata.of_dict.
  destruct (forallb DownloadMetadata.hasattr _) eqn:Hall; [|done].
  exfalso. rewrite forallb_forall in Hall.
  assert (Hin : k ∈ (map_to_list (<[k := v]> (DownloadMetadata.asdict d))).*1).
  { apply list_elem_of_fmap. exists (k, v). split; [done|].
    apply elem_of_map_to_list. by rewrite lookup_insert_eq. }
  apply list_elem_of_In, Hall in Hin. congruence.
Qed.

Lemma download_metadata_roundtrip_witness :
  construct (JObj (<[ "nom" := JStr "b" ]>
                     (DownloadMetadata.asdict DownloadMetadata.init)))
    sample_preparator ∅
  = Raise TypeError sample_preparator ∅ [].
Proof.
  apply (download_metadata_roundtrip DownloadMetadata.init "nom" (JStr "b")).
  reflexivity.
Defined.
